(** * gopro_db: a shallow embedding of the GoPro media-database decoder

    The development follows [gopro_mdb_parser.py] and
    [mco_page_analyzer.py].  Python integers are [Z], [bytes] objects are
    lists of [byte], [str] objects are [string].  Code that indexes a buffer
    or calls [struct.unpack_from] runs in a small monad that carries the
    exception (if any) and the list of buffer indices the code asked for. *)

From Stdlib Require Import ZArith List Lia Bool.
From Stdlib Require Import Strings.String Strings.Ascii Strings.Byte.
From Stdlib Require Import Floats.SpecFloat.
Import ListNotations.
Open Scope Z_scope.

(* ================================================================= *)
(** ** Python primitives *)

Module Py.

Definition bytes := list byte.

Definition byte_val (b : byte) : Z := Z.of_N (Byte.to_N b).

(** [len(data)] *)
Definition len {A} (d : list A) : Z := Z.of_nat (List.length d).

Inductive py_error := IndexError | StructError.

Inductive exc (A : Type) :=
| Ok (a : A)
| Raise (e : py_error).
Arguments Ok {A} a.
Arguments Raise {A} e.

(** A computation: the buffer indices requested so far, and the outcome. *)
Definition M (A : Type) : Type := (list Z * exc A)%type.

Definition ret {A} (a : A) : M A := ([], Ok a).

Definition bind {A B} (m : M A) (f : A -> M B) : M B :=
  match m with
  | (l, Ok a) => let '(l', r) := f a in (l ++ l', r)
  | (l, Raise e) => (l, Raise e)
  end.

Definition touched {A} (m : M A) : list Z := fst m.
Definition res {A} (m : M A) : exc A := snd m.

(** The byte stored at index [i] (meaningful for [0 <= i < len d]). *)
Definition nth_byte (d : bytes) (i : Z) : byte := nth (Z.to_nat i) d x00.

(** [data[i]]: a negative index counts from the end; an index outside the
    buffer raises [IndexError]. *)
Definition getitem (d : bytes) (i : Z) : M Z :=
  let j := if i <? 0 then i + len d else i in
  ([j], if (0 <=? j) && (j <? len d)
        then Ok (byte_val (nth_byte d j))
        else Raise IndexError).

(** [data[a:b]]: both bounds are clamped, a slice never raises. *)
Definition clamp (n x : Z) : Z :=
  if x <? 0 then Z.max (x + n) 0 else Z.min x n.

Definition slice {A} (d : list A) (a b : Z) : list A :=
  let a' := clamp (len d) a in
  let b' := clamp (len d) b in
  firstn (Z.to_nat (b' - a')) (skipn (Z.to_nat a') d).

(** Little-endian value of a byte string. *)
Fixpoint le_value (bs : bytes) : Z :=
  match bs with
  | [] => 0
  | b :: r => byte_val b + 256 * le_value r
  end.

(** [struct.unpack_from('<..', data, off)[0]] for an unsigned field of
    [w] bytes: a negative offset counts from the end; an offset before
    the start, or fewer than [w] bytes left, raises [struct.error]. *)
Definition unpack_uint (w : nat) (d : bytes) (off : Z) : M Z :=
  let o := if off <? 0 then off + len d else off in
  (map (fun k => o + Z.of_nat k) (seq 0 w),
   if o <? 0 then Raise StructError
   else if len d - o <? Z.of_nat w then Raise StructError
   else Ok (le_value (firstn w (skipn (Z.to_nat o) d)))).

(** Two's complement reading of a [w]-byte value. *)
Definition to_signed (w : nat) (v : Z) : Z :=
  if v <? 2 ^ (8 * Z.of_nat w - 1) then v else v - 2 ^ (8 * Z.of_nat w).

(** IEEE 754 decoding of a bit pattern with [mw] fraction bits and [ew]
    exponent bits. *)
Definition float_of_bits (mw ew : Z) (x : Z) : spec_float :=
  let frac := x mod 2 ^ mw in
  let e := (x / 2 ^ mw) mod 2 ^ ew in
  let s := Z.testbit x (mw + ew) in
  let bias := 2 ^ (ew - 1) - 1 in
  if e =? 0 then
    match frac with
    | Zpos p => S754_finite s p (1 - bias - mw)
    | _ => S754_zero s
    end
  else if e =? 2 ^ ew - 1 then
    (if frac =? 0 then S754_infinity s else S754_nan)
  else
    match frac + 2 ^ mw with
    | Zpos p => S754_finite s p (e - bias - mw)
    | _ => S754_nan
    end.

Definition unpack_H := unpack_uint 2.
Definition unpack_I := unpack_uint 4.
Definition unpack_Q := unpack_uint 8.
Definition unpack_i (d : bytes) (off : Z) : M Z :=
  bind (unpack_uint 4 d off) (fun v => ret (to_signed 4 v)).
Definition unpack_f (d : bytes) (off : Z) : M spec_float :=
  bind (unpack_uint 4 d off) (fun v => ret (float_of_bits 23 8 v)).
Definition unpack_d (d : bytes) (off : Z) : M spec_float :=
  bind (unpack_uint 8 d off) (fun v => ret (float_of_bits 52 11 v)).

(** [0.0] *)
Definition float_zero : spec_float := S754_zero false.

(** [range(start, stop, step)] for a positive step. *)
Definition range (start stop step : Z) : list Z :=
  map (fun k => start + step * Z.of_nat k)
      (seq 0 (Z.to_nat ((stop - start + step - 1) / step))).

(** [needle in data] and [data.find(needle)] on byte strings. *)
Fixpoint starts_with (needle d : bytes) : bool :=
  match needle, d with
  | [], _ => true
  | _ :: _, [] => false
  | a :: n', b :: d' => Byte.eqb a b && starts_with n' d'
  end.

Fixpoint find_from (needle d : bytes) (pos : Z) : Z :=
  if starts_with needle d then pos
  else match d with
       | [] => -1
       | _ :: d' => find_from needle d' (pos + 1)
       end.

Definition find (d needle : bytes) : Z := find_from needle d 0.

Definition contains (needle d : bytes) : bool := negb (find d needle =? -1).

(** The bytes of an ASCII string literal. *)
Definition b (s : string) : bytes := list_byte_of_string s.

End Py.

Import Py.

(** Python's float arithmetic where the source uses it: [int / int] with a
    non-zero divisor (the correctly rounded quotient) and
    [round(float, ndigits)] with [ndigits >= 0] (the decimal rounding to
    nearest, ties to even, of the exact value, converted back to the nearest
    double). *)
Module PyFloat.

Definition prec : Z := 53.
Definition emax : Z := 1024.

Definition of_int (z : Z) : spec_float :=
  match z with
  | Z0 => S754_zero false
  | Zpos p => S754_finite false p 0
  | Zneg p => S754_finite true p 0
  end.

Definition truediv (a c : Z) : spec_float :=
  SFdiv prec emax (of_int a) (of_int c).

Definition round_half_even (num den : Z) : Z :=
  let q := num / den in
  let r := num mod den in
  if 2 * r <? den then q
  else if 2 * r >? den then q + 1
  else if Z.even q then q else q + 1.

Definition round_float (x : spec_float) (ndigits : Z) : spec_float :=
  match x with
  | S754_finite s m e =>
      let p := 10 ^ ndigits in
      let n := if 0 <=? e then Zpos m * 2 ^ e * p
               else round_half_even (Zpos m * p) (2 ^ (- e)) in
      match n with
      | Zpos q => SFdiv prec emax (S754_finite s q 0) (of_int p)
      | _ => S754_zero s
      end
  | _ => x
  end.

End PyFloat.

Notation "x <- m ;; k" := (bind m (fun x => k))
  (at level 61, m at next level, right associativity).

(* ================================================================= *)
(** ** Python string formatting *)

Module Fmt.

(** Digit characters, lower and upper case. *)
Definition digit_lower (d : Z) : ascii :=
  if d <? 10 then ascii_of_N (Z.to_N (48 + d)) else ascii_of_N (Z.to_N (87 + d)).

Definition digit_upper (d : Z) : ascii :=
  if d <? 10 then ascii_of_N (Z.to_N (48 + d)) else ascii_of_N (Z.to_N (55 + d)).

(** The digits of a non-negative [n] in [base], most significant first. *)
Fixpoint digits_fuel (digit : Z -> ascii) (base : Z) (fuel : nat) (n : Z)
         (acc : string) : string :=
  let acc' := String (digit (n mod base)) acc in
  match fuel with
  | O => acc'
  | S f => if n / base =? 0 then acc'
           else digits_fuel digit base f (n / base) acc'
  end.

Definition digits (digit : Z -> ascii) (base : Z) (n : Z) : string :=
  digits_fuel digit base (Z.to_nat (Z.log2 n)) n EmptyString.

Fixpoint zeros (k : nat) : string :=
  match k with
  | O => EmptyString
  | S k' => String "0"%char (zeros k')
  end.

(** Zero padding to a minimal width, sign first: [{z:0<width>..}]. *)
Definition pad0 (width : nat) (negative : bool) (body : string) : string :=
  let sign := (if negative then "-" else "")%string in
  (sign ++ zeros (width - String.length sign - String.length body) ++ body)%string.

(** [f"{z:0<width>d}"]; width 0 is the plain [f"{z}"]. *)
Definition d (width : nat) (z : Z) : string :=
  pad0 width (z <? 0) (digits digit_lower 10 (Z.abs z)).

(** [f"{z:0<width>x}"] and [f"{z:0<width>X}"]. *)
Definition x (width : nat) (z : Z) : string :=
  pad0 width (z <? 0) (digits digit_lower 16 (Z.abs z)).

Definition X (width : nat) (z : Z) : string :=
  pad0 width (z <? 0) (digits digit_upper 16 (Z.abs z)).

(** [data.hex()] *)
Fixpoint hex (bs : bytes) : string :=
  match bs with
  | [] => EmptyString
  | c :: r => (x 2 (byte_val c) ++ hex r)%string
  end.

(** [hex(z)] *)
Definition hex_int (z : Z) : string :=
  ((if (z <? 0)%Z then "-0x" else "0x") ++ digits digit_lower 16 (Z.abs z))%string.

End Fmt.

(* ================================================================= *)
(** ** gopro_mdb_parser.py: struct definitions *)

Module DateField.
Record t := mk { year : Z; month : Z; day : Z }.
Definition default : t := mk 0 0 0.
(** The [actual_year] property. *)
Definition actual_year (self : t) : Z :=
  if year self >? 0 then year self + 1980 else 0.
End DateField.

Module TimeField.
Record t := mk { min : Z; hour : Z; second : Z }.
Definition default : t := mk 0 0 0.
End TimeField.

Module DateTime.
Record t := mk { dt : DateField.t; tm : TimeField.t }.
Definition default : t := mk DateField.default TimeField.default.
End DateTime.

Module DbVersion.
Record t := mk { minor : Z; major : Z }.
Definition default : t := mk 0 0.
End DbVersion.

Module MCOVersion.
Record t := mk { major : Z; minor : Z; build : Z }.
Definition default : t := mk 0 0 0.
End MCOVersion.

Module FileInfo.
(** The dict returned by [decode_file_handle]. *)
Record t := mk {
  directory : string;
  file_number : Z;
  type_flag : Z;
  estimated_path : string }.
End FileInfo.

Definition decode_file_handle (fh : Z) : FileInfo.t :=
  let dir_no := Z.land (Z.shiftr fh 32) 0xFF in
  let file_no := Z.land fh 0xFFFF in
  let type_flag := Z.land (Z.shiftr fh 56) 0xFF in
  let prefix := "GX"%string in
  let chapter := 0 in
  let filename := (prefix ++ Fmt.d 0 chapter ++ Fmt.d 4 file_no ++ ".MP4")%string in
  {| FileInfo.directory := (Fmt.d 3 dir_no ++ "GOPRO")%string;
     FileInfo.file_number := file_no;
     FileInfo.type_flag := type_flag;
     FileInfo.estimated_path := (Fmt.d 3 dir_no ++ "GOPRO/" ++ filename)%string |}.

Module MdbSingleEx.
Record t := mk {
  file_type_ex : Z;
  duration : Z;
  size : Z;
  upload_status : Z;
  file_handle : Z;
  vtag : Z;
  tag_cnt : Z;
  ctm : DateTime.t;
  last_scan_time : DateTime.t;
  chp_cnt : Z;
  latm : DateTime.t;
  protune_option : Z;
  aud_option : Z;
  protune_option_indicator : Z;
  has_eis : Z;
  is_clip : Z;
  vtag_indicator : Z;
  avc_level : Z;
  chp_cnt_indicator : Z;
  has_eis_indicator : Z;
  aud_option_indicator : Z;
  file_scanned : Z;
  avc_profile : Z;
  camera_model : string;
  sub_model : string;
  dir_no : Z;
  grp_no : Z;
  width : Z;
  height : Z;
  projection : Z;
  lens_config : Z;
  moment_cnt : Z;
  total_tag_cnt : Z;
  max_moment_score : spec_float;
  media_orientation : Z;
  media_status : Z;
  has_hdr : Z;
  fov : Z;
  f_meta_present : Z;
  latitude : option spec_float;
  longitude : option spec_float;
  altitude : option spec_float }.
End MdbSingleEx.

Module GusiBlob.
Record t := mk { raw : bytes; session_id : Z; recording_id : Z }.
End GusiBlob.

Module ContentBlob.
Record t := mk { raw : bytes; content_id_high : Z; content_id_low : Z }.
End ContentBlob.

Module MdbGroupedEx.
Record t := mk {
  file_handle : Z;
  frame_rate_timescale : Z;
  frame_rate_duration : Z;
  n_elems : Z;
  grp_ctm : DateTime.t;
  grp_no : Z;
  width : Z;
  height : Z;
  frame_rate_duration_indicator : Z;
  frame_rate_timescale_indicator : Z;
  gusi_blob : GusiBlob.t;
  f_is_subsample : Z;
  f_is_progressive : Z;
  f_is_progressive_indicator : Z;
  grp_no_indicator : Z;
  f_is_subsample_indicator : Z;
  blob : ContentBlob.t }.
End MdbGroupedEx.

Definition HEADER_SIZE : Z := 0x400.

Module RecordHeader.
Record t := mk { table_id : Z; flags : Z; size : Z; next_ptr : Z }.

Definition table_map : list (Z * string) :=
  [ (1, "mdb_global"); (2, "mdb_single"); (3, "mdb_single_ex");
    (4, "mdb_grouped_ex") ]%string.

Fixpoint table_map_get (m : list (Z * string)) (k : Z) (default : string)
  : string :=
  match m with
  | [] => default
  | (k', v) :: r => if k =? k' then v else table_map_get r k default
  end.

(** The [table_name] property. *)
Definition table_name (self : t) : string :=
  table_map_get table_map (table_id self)
                ("unknown_" ++ Fmt.d 0 (table_id self))%string.
End RecordHeader.

(* ================================================================= *)
(** ** Small helpers shared by both source files *)

(** A Python dict with string keys, as an association list. *)
Definition dict (V : Type) := list (string * V).

Fixpoint dict_get {V} (m : dict V) (k : string) (default : V) : V :=
  match m with
  | [] => default
  | (k', v) :: r => if String.eqb k k' then v else dict_get r k default
  end.

(** [x in [..]] on integers. *)
Definition mem (x : Z) (l : list Z) : bool := existsb (Z.eqb x) l.

(** A [for] loop without [break]: the body threads the loop state. *)
Fixpoint for_each {A S} (l : list A) (body : S -> A -> M S) (s : S) : M S :=
  match l with
  | [] => ret s
  | a :: r => s' <- body s a ;; for_each r body s'
  end.

(** A [for] loop left by [break] or [return]: the body answers [Some]
    when it leaves the loop. *)
Fixpoint for_first {A R} (l : list A) (body : A -> M (option R)) : M (option R) :=
  match l with
  | [] => ret None
  | a :: r => o <- body a ;;
              match o with
              | Some v => ret (Some v)
              | None => for_first r body
              end
  end.

(** Python's [str.isspace] on the ASCII range and [str.strip]. *)
Definition isspace (c : ascii) : bool :=
  let n := Z.of_N (N_of_ascii c) in
  ((9 <=? n) && (n <=? 13)) || ((28 <=? n) && (n <=? 32)).

Fixpoint lstrip (s : list ascii) : list ascii :=
  match s with
  | c :: r => if isspace c then lstrip r else s
  | [] => []
  end.

Definition strip (s : list ascii) : list ascii :=
  rev (lstrip (rev (lstrip s))).

(** [sep.join(parts)] *)
Fixpoint join (sep : string) (parts : list string) : string :=
  match parts with
  | [] => EmptyString
  | [p] => p
  | p :: r => (p ++ sep ++ join sep r)%string
  end.

(** [bool(s)] for a [str]. *)
Definition nonempty (s : string) : bool :=
  match s with EmptyString => false | _ => true end.

(** [m[k] = v] on a dict: an existing key keeps its place. *)
Fixpoint dict_set {V} (m : dict V) (k : string) (v : V) : dict V :=
  match m with
  | [] => [(k, v)]
  | (k', v') :: r =>
      if String.eqb k k' then (k', v) :: r else (k', v') :: dict_set r k v
  end.

(** [32 <= b < 127] *)
Definition printable (c : byte) : bool :=
  (32 <=? byte_val c) && (byte_val c <? 127).

(* ================================================================= *)
(** ** gopro_mdb_parser.py: class GoproMDBParser *)

Module GoproMDBParser.

Definition RECORD_SIZES : dict (dict Z) :=
  [ ("hero5"%string,
     [ ("mdb_global"%string, 23); ("mdb_single"%string, 9);
       ("mdb_single_ex"%string, 78); ("mdb_grouped_ex"%string, 57) ]);
    ("hero11+"%string,
     [ ("mdb_global"%string, 23); ("mdb_single"%string, 9);
       ("mdb_single_ex"%string, 134); ("mdb_grouped_ex"%string, 73) ]) ].

(** The parser object.  The lists [globals] and [singles] of the source
    are never written and are left out. *)
Record t := mk {
  data : bytes;
  file_size : Z;
  header_valid : bool;
  db_version : DbVersion.t;
  mco_version : MCOVersion.t;
  singles_ex : list MdbSingleEx.t;
  grouped_ex : list MdbGroupedEx.t;
  raw_records : list (RecordHeader.t * bytes);
  schema_version : string;
  struct_sizes : dict Z;
  page_size : Z;
  dictionary_offset : Z }.

(** [__init__] *)
Definition init : t :=
  {| data := []; file_size := 0; header_valid := false;
     db_version := DbVersion.default; mco_version := MCOVersion.default;
     singles_ex := []; grouped_ex := []; raw_records := [];
     schema_version := "unknown"; struct_sizes := [];
     page_size := 0; dictionary_offset := 0 |}.

(** Attribute assignments [self.x = v]. *)
Definition set_data v (s : t) : t :=
  mk v (file_size s) (header_valid s) (db_version s) (mco_version s)
     (singles_ex s) (grouped_ex s) (raw_records s) (schema_version s)
     (struct_sizes s) (page_size s) (dictionary_offset s).
Definition set_file_size v (s : t) : t :=
  mk (data s) v (header_valid s) (db_version s) (mco_version s)
     (singles_ex s) (grouped_ex s) (raw_records s) (schema_version s)
     (struct_sizes s) (page_size s) (dictionary_offset s).
Definition set_header_valid v (s : t) : t :=
  mk (data s) (file_size s) v (db_version s) (mco_version s)
     (singles_ex s) (grouped_ex s) (raw_records s) (schema_version s)
     (struct_sizes s) (page_size s) (dictionary_offset s).
Definition set_db_version v (s : t) : t :=
  mk (data s) (file_size s) (header_valid s) v (mco_version s)
     (singles_ex s) (grouped_ex s) (raw_records s) (schema_version s)
     (struct_sizes s) (page_size s) (dictionary_offset s).
Definition set_mco_version v (s : t) : t :=
  mk (data s) (file_size s) (header_valid s) (db_version s) v
     (singles_ex s) (grouped_ex s) (raw_records s) (schema_version s)
     (struct_sizes s) (page_size s) (dictionary_offset s).
Definition set_singles_ex v (s : t) : t :=
  mk (data s) (file_size s) (header_valid s) (db_version s) (mco_version s)
     v (grouped_ex s) (raw_records s) (schema_version s)
     (struct_sizes s) (page_size s) (dictionary_offset s).
Definition set_grouped_ex v (s : t) : t :=
  mk (data s) (file_size s) (header_valid s) (db_version s) (mco_version s)
     (singles_ex s) v (raw_records s) (schema_version s)
     (struct_sizes s) (page_size s) (dictionary_offset s).
Definition set_raw_records v (s : t) : t :=
  mk (data s) (file_size s) (header_valid s) (db_version s) (mco_version s)
     (singles_ex s) (grouped_ex s) v (schema_version s)
     (struct_sizes s) (page_size s) (dictionary_offset s).
Definition set_schema_version v (s : t) : t :=
  mk (data s) (file_size s) (header_valid s) (db_version s) (mco_version s)
     (singles_ex s) (grouped_ex s) (raw_records s) v
     (struct_sizes s) (page_size s) (dictionary_offset s).
Definition set_struct_sizes v (s : t) : t :=
  mk (data s) (file_size s) (header_valid s) (db_version s) (mco_version s)
     (singles_ex s) (grouped_ex s) (raw_records s) (schema_version s)
     v (page_size s) (dictionary_offset s).
Definition set_page_size v (s : t) : t :=
  mk (data s) (file_size s) (header_valid s) (db_version s) (mco_version s)
     (singles_ex s) (grouped_ex s) (raw_records s) (schema_version s)
     (struct_sizes s) v (dictionary_offset s).
Definition set_dictionary_offset v (s : t) : t :=
  mk (data s) (file_size s) (header_valid s) (db_version s) (mco_version s)
     (singles_ex s) (grouped_ex s) (raw_records s) (schema_version s)
     (struct_sizes s) (page_size s) v.

(* --------------------------------------------------------------- *)
(** *** Helper methods: the primitive byte readers *)

Definition _read_u8 (self : t) (offset : Z) : M Z :=
  if offset <? len (data self) then getitem (data self) offset else ret 0.

Definition _read_u16 (self : t) (offset : Z) : M Z :=
  if offset + 2 <=? len (data self) then unpack_H (data self) offset else ret 0.

Definition _read_u32 (self : t) (offset : Z) : M Z :=
  if offset + 4 <=? len (data self) then unpack_I (data self) offset else ret 0.

Definition _read_u64 (self : t) (offset : Z) : M Z :=
  if offset + 8 <=? len (data self) then unpack_Q (data self) offset else ret 0.

Definition _read_i32 (self : t) (offset : Z) : M Z :=
  if offset + 4 <=? len (data self) then unpack_i (data self) offset else ret 0.

Definition _read_f32 (self : t) (offset : Z) : M spec_float :=
  if offset + 4 <=? len (data self) then unpack_f (data self) offset
  else ret float_zero.

Definition _read_f64 (self : t) (offset : Z) : M spec_float :=
  if offset + 8 <=? len (data self) then unpack_d (data self) offset
  else ret float_zero.

(* --------------------------------------------------------------- *)
(** *** Header, schema and configuration block *)

Definition expected_magic : bytes :=
  [x00; xff; xff; xff; xff; xff; xff; xff; xff; xff; xff; x07].

Definition bytes_eqb (a c : bytes) : bool :=
  if list_eq_dec Byte.byte_eq_dec a c then true else false.

Definition _parse_header (self : t) : t :=
  set_header_valid (bytes_eqb (slice (data self) 0 12) expected_magic) self.

Definition _detect_schema (self : t) : t :=
  let self :=
    if contains (b "camera_model") (data self) then
      if contains (b "vmoment") (data self)
      then set_schema_version "hero11+" self
      else set_schema_version "hero9-10" self
    else if contains (b "vtag") (data self)
    then set_schema_version "hero5-8" self
    else set_schema_version "legacy" self in
  if String.eqb (schema_version self) "hero11+"
  then set_struct_sizes
         [("mdb_single_ex"%string, 134); ("mdb_grouped_ex"%string, 73)] self
  else set_struct_sizes
         [("mdb_single_ex"%string, 78); ("mdb_grouped_ex"%string, 57)] self.

(** The inner loop of [_detect_page_size]: the number of plausible page
    headers at the multiples of [ps]. *)
Definition count_valid (self : t) (ps : Z) : M Z :=
  for_each (range ps (Z.min (ps * 16) (file_size self)) ps)
    (fun valid offset =>
       b0 <- getitem (data self) offset ;;
       let kind := Z.land b0 0x0F in
       if mem kind [0; 1; 2; 3; 4; 5; 6; 7; 8; 10; 11; 12; 15] then
         user <- _read_u16 self (offset + 2) ;;
         if (user <? 0x100) || (user =? 0xFFFF)
         then ret (valid + 1) else ret valid
       else ret valid)
    0.

Definition _detect_page_size (self : t) : M t :=
  found <- for_first [512; 1024; 256; 2048]
    (fun ps =>
       if file_size self >=? ps * 4 then
         valid <- count_valid self ps ;;
         if valid >=? 3 then ret (Some ps) else ret None
       else ret None) ;;
  let self := match found with
              | Some ps => set_page_size ps self
              | None => self
              end in
  if page_size self =? 0 then ret (set_page_size 512 self) else ret self.

Definition set_version (v1 v2 v3 offset : Z) (self : t) : t :=
  set_dictionary_offset offset
    (set_mco_version (MCOVersion.mk v1 v2 v3) self).

Definition _parse_mco_version (self : t) : M t :=
  found <- for_first
    (range 0x800 (Z.min 0x3000 (file_size self)) (page_size self))
    (fun offset =>
       if offset <? len (data self) then
         b0 <- getitem (data self) offset ;;
         let kind := Z.land b0 0x0F in
         if kind =? 4 then ret (Some (Z.max 0x0C00 (offset - 0x1400)))
         else ret None
       else ret None) ;;
  let self := match found with
              | Some o => set_dictionary_offset o self
              | None => self
              end in
  let self := if dictionary_offset self =? 0
              then set_dictionary_offset 0x0C10 self else self in
  early <- (if file_size self >? 0x0C16 then
              v1 <- _read_u16 self 0x0C10 ;;
              v2 <- _read_u16 self 0x0C12 ;;
              v3 <- _read_u16 self 0x0C14 ;;
              if (1 <=? v1) && (v1 <=? 15) && (v2 <=? 99) && (v3 <? 10000)
              then ret (Some (set_version v1 v2 v3 0x0C10 self))
              else ret None
            else ret None) ;;
  match early with
  | Some self' => ret self'
  | None =>
      r <- for_first (range 0x0C00 (Z.min 0x1000 (file_size self - 6)) 2)
        (fun offset =>
           v1 <- _read_u16 self offset ;;
           v2 <- _read_u16 self (offset + 2) ;;
           v3 <- _read_u16 self (offset + 4) ;;
           if (5 <=? v1) && (v1 <=? 10) && (v2 <=? 10)
              && (1000 <=? v3) && (v3 <? 3000)
           then ret (Some (set_version v1 v2 v3 offset self))
           else ret None) ;;
      match r with
      | Some self' => ret self'
      | None => ret self
      end
  end.

Definition _parse_config_block (self : t) : M t :=
  let config_data := slice (data self) HEADER_SIZE (HEADER_SIZE + 0x100) in
  self <- (if len config_data >=? 8 then
             major <- _read_u16 self HEADER_SIZE ;;
             minor <- _read_u16 self (HEADER_SIZE + 2) ;;
             ret (set_db_version (DbVersion.mk minor major) self)
           else ret self) ;;
  self <- _detect_page_size self ;;
  _parse_mco_version self.

Definition _find_table_locations (self : t) : dict Z :=
  fold_left
    (fun locations name =>
       let pos := find (data self) (b name ++ [x00]) in
       if negb (pos =? -1) then locations ++ [(name, pos)] else locations)
    ["mdb_global"; "mdb_single"; "mdb_single_ex"; "mdb_grouped_ex"]%string
    [].

(* --------------------------------------------------------------- *)
(** *** The record-slot scanner *)

Definition SLOT_SIZE : Z := 128.

(** The body of the slot loop of [_scan_for_records]. *)
Definition scan_slot (expected_sizes : dict Z) (self : t) (slot_start : Z)
  : M t :=
  b0 <- getitem (data self) slot_start ;;
  let kind := Z.land b0 0x0F in
  table_id <- _read_u16 self (slot_start + 2) ;;
  record_size <- _read_u32 self (slot_start + 4) ;;
  if (kind =? 0) && mem table_id [3; 4]
     && (40 <? record_size) && (record_size <? 200) then
    let expected :=
      dict_get expected_sizes
        (if table_id =? 3 then "mdb_single_ex"%string
         else "mdb_grouped_ex"%string) 0 in
    if Z.abs (record_size - expected) <? 20 then
      let header := RecordHeader.mk table_id 0 record_size 0 in
      let data_start := slot_start + 16 in
      let extended_end := Z.min (slot_start + SLOT_SIZE + 64) (file_size self) in
      let record_data := slice (data self) data_start extended_end in
      ret (set_raw_records (raw_records self ++ [(header, record_data)]) self)
    else ret self
  else ret self.

Definition expected_sizes_for (self : t) : dict Z :=
  dict_get RECORD_SIZES
    (if String.eqb (schema_version self) "hero11+"
     then "hero11+" else "hero5")%string
    (dict_get RECORD_SIZES "hero11+" []).

Definition _scan_for_records (self : t) : M t :=
  let expected_sizes := expected_sizes_for self in
  for_each (range 0x2C00 (file_size self - SLOT_SIZE) SLOT_SIZE)
           (scan_slot expected_sizes) self.

(* --------------------------------------------------------------- *)
(** *** Record decoders *)

Definition _read_datetime_from_buffer (data : bytes) (offset : Z)
  : M DateTime.t :=
  if offset + 7 <=? len data then
    year <- unpack_H data offset ;;
    month <- getitem data (offset + 2) ;;
    day <- getitem data (offset + 3) ;;
    min <- getitem data (offset + 4) ;;
    hour <- getitem data (offset + 5) ;;
    second <- getitem data (offset + 6) ;;
    ret (DateTime.mk (DateField.mk year month day)
                     (TimeField.mk min hour second))
  else ret DateTime.default.

Definition OID_SIZE : Z := 8.

(** The reader closures shared by the two decoders. *)
Definition read_u8 (data : bytes) (u_offset : Z) : M Z :=
  let off := u_offset + OID_SIZE in
  if off <? len data then getitem data off else ret 0.

Definition read_u16 (data : bytes) (u_offset : Z) : M Z :=
  let off := u_offset + OID_SIZE in
  if off + 2 <=? len data then unpack_H data off else ret 0.

Definition read_u32 (data : bytes) (u_offset : Z) : M Z :=
  let off := u_offset + OID_SIZE in
  if off + 4 <=? len data then unpack_I data off else ret 0.

Definition read_u64 (data : bytes) (u_offset : Z) : M Z :=
  let off := u_offset + OID_SIZE in
  if off + 8 <=? len data then unpack_Q data off else ret 0.

Definition read_f32 (data : bytes) (u_offset : Z) : M spec_float :=
  let off := u_offset + OID_SIZE in
  if off + 4 <=? len data then unpack_f data off else ret float_zero.

Definition read_datetime (data : bytes) (u_offset : Z) : M DateTime.t :=
  let off := u_offset + OID_SIZE in
  _read_datetime_from_buffer data off.

Definition read_bytes (data : bytes) (u_offset : Z) (length : Z) : bytes :=
  let off := u_offset + OID_SIZE in
  if off + length <=? len data then slice data off (off + length) else [].

(** Closing a run of printable characters in [read_string]. *)
Definition flush_segment (min_segment_len : Z)
           (segments : list string) (current : list ascii) : list string :=
  match current with
  | [] => segments
  | _ =>
      let seg := strip current in
      if len seg >=? min_segment_len
      then segments ++ [string_of_list_ascii seg]
      else segments
  end.

Definition read_string (data : bytes) (u_offset max_len min_segment_len : Z)
  : string :=
  let off := u_offset + OID_SIZE in
  let max_len := if off + max_len >? len data then len data - off else max_len in
  if max_len <=? 0 then EmptyString
  else
    let raw := slice data off (off + max_len) in
    let '(segments, current) :=
      fold_left
        (fun '(segments, current) c =>
           let v := byte_val c in
           if (32 <=? v) && (v <? 127)
           then (segments, current ++ [ascii_of_byte c])
           else (flush_segment min_segment_len segments current, []))
        raw ([], []) in
    let segments := flush_segment min_segment_len segments current in
    join " " (filter nonempty segments).

Definition _parse_single_ex_data (self : t) (data : bytes)
  : M (option MdbSingleEx.t) :=
  if len data <? 100 then ret None
  else
    duration <- read_u64 data 0 ;;
    size <- read_u64 data 8 ;;
    file_handle <- read_u64 data 16 ;;
    media_status <- read_u32 data 24 ;;
    file_type_ex <- read_u32 data 36 ;;
    max_moment_score <- read_f32 data 40 ;;
    moment_cnt <- read_u16 data 50 ;;
    ctm <- read_datetime data 52 ;;
    tag_cnt <- read_u16 data 60 ;;
    chp_cnt <- read_u16 data 62 ;;
    grp_no <- read_u16 data 64 ;;
    latm <- read_datetime data 66 ;;
    total_tag_cnt <- read_u16 data 74 ;;
    dir_no <- read_u16 data 76 ;;
    last_scan_time <- read_datetime data 78 ;;
    has_hdr <- read_u8 data 85 ;;
    is_clip <- read_u8 data 86 ;;
    file_scanned <- read_u8 data 87 ;;
    avc_level <- read_u8 data 88 ;;
    avc_profile <- read_u8 data 89 ;;
    protune_option <- read_u8 data 90 ;;
    aud_option <- read_u8 data 91 ;;
    has_eis <- read_u8 data 92 ;;
    f_meta_present <- read_u8 data 93 ;;
    projection <- read_u8 data 94 ;;
    lens_config <- read_u8 data 96 ;;
    let camera_model := read_string data 97 30 2 in
    let sub_model := read_string data 128 16 2 in
    ret (Some
      {| MdbSingleEx.file_type_ex := file_type_ex;
         MdbSingleEx.duration := duration;
         MdbSingleEx.size := size;
         MdbSingleEx.upload_status := 0;
         MdbSingleEx.file_handle := file_handle;
         MdbSingleEx.vtag := 0;
         MdbSingleEx.tag_cnt := tag_cnt;
         MdbSingleEx.ctm := ctm;
         MdbSingleEx.last_scan_time := last_scan_time;
         MdbSingleEx.chp_cnt := chp_cnt;
         MdbSingleEx.latm := latm;
         MdbSingleEx.protune_option := protune_option;
         MdbSingleEx.aud_option := aud_option;
         MdbSingleEx.protune_option_indicator := 0;
         MdbSingleEx.has_eis := has_eis;
         MdbSingleEx.is_clip := is_clip;
         MdbSingleEx.vtag_indicator := 0;
         MdbSingleEx.avc_level := avc_level;
         MdbSingleEx.chp_cnt_indicator := 0;
         MdbSingleEx.has_eis_indicator := 0;
         MdbSingleEx.aud_option_indicator := 0;
         MdbSingleEx.file_scanned := file_scanned;
         MdbSingleEx.avc_profile := avc_profile;
         MdbSingleEx.camera_model := camera_model;
         MdbSingleEx.sub_model := sub_model;
         MdbSingleEx.dir_no := dir_no;
         MdbSingleEx.grp_no := grp_no;
         MdbSingleEx.width := 0;
         MdbSingleEx.height := 0;
         MdbSingleEx.projection := projection;
         MdbSingleEx.lens_config := lens_config;
         MdbSingleEx.moment_cnt := moment_cnt;
         MdbSingleEx.total_tag_cnt := total_tag_cnt;
         MdbSingleEx.max_moment_score := max_moment_score;
         MdbSingleEx.media_orientation := 0;
         MdbSingleEx.media_status := media_status;
         MdbSingleEx.has_hdr := has_hdr;
         MdbSingleEx.fov := 0;
         MdbSingleEx.f_meta_present := f_meta_present;
         MdbSingleEx.latitude := None;
         MdbSingleEx.longitude := None;
         MdbSingleEx.altitude := None |}).

Definition _parse_grouped_ex_data (self : t) (data : bytes)
  : M (option MdbGroupedEx.t) :=
  if len data <? 50 then ret None
  else
    file_handle <- read_u64 data 0 ;;
    frame_rate_timescale <- read_u32 data 8 ;;
    frame_rate_duration <- read_u32 data 12 ;;
    n_elems <- read_u32 data 16 ;;
    grp_ctm <- read_datetime data 20 ;;
    grp_no <- read_u16 data 28 ;;
    width <- read_u16 data 30 ;;
    height <- read_u16 data 32 ;;
    frame_rate_duration_indicator <- read_u8 data 34 ;;
    frame_rate_timescale_indicator <- read_u8 data 35 ;;
    let gusi_raw := read_bytes data 36 16 in
    gusi <- (if len gusi_raw >=? 12 then
               session_id <- unpack_I gusi_raw 0 ;;
               recording_id <- unpack_I gusi_raw 8 ;;
               ret (GusiBlob.mk gusi_raw session_id recording_id)
             else ret (GusiBlob.mk gusi_raw 0 0)) ;;
    f_is_subsample <- read_u8 data 52 ;;
    f_is_progressive <- read_u8 data 53 ;;
    f_is_progressive_indicator <- read_u8 data 54 ;;
    grp_no_indicator <- read_u8 data 55 ;;
    f_is_subsample_indicator <- read_u8 data 56 ;;
    let blob_raw := read_bytes data 57 16 in
    blob <- (if len blob_raw >=? 16 then
               content_id_high <- unpack_Q blob_raw 0 ;;
               content_id_low <- unpack_Q blob_raw 8 ;;
               ret (ContentBlob.mk blob_raw content_id_high content_id_low)
             else ret (ContentBlob.mk blob_raw 0 0)) ;;
    ret (Some
      {| MdbGroupedEx.file_handle := file_handle;
         MdbGroupedEx.frame_rate_timescale := frame_rate_timescale;
         MdbGroupedEx.frame_rate_duration := frame_rate_duration;
         MdbGroupedEx.n_elems := n_elems;
         MdbGroupedEx.grp_ctm := grp_ctm;
         MdbGroupedEx.grp_no := grp_no;
         MdbGroupedEx.width := width;
         MdbGroupedEx.height := height;
         MdbGroupedEx.frame_rate_duration_indicator := frame_rate_duration_indicator;
         MdbGroupedEx.frame_rate_timescale_indicator := frame_rate_timescale_indicator;
         MdbGroupedEx.gusi_blob := gusi;
         MdbGroupedEx.f_is_subsample := f_is_subsample;
         MdbGroupedEx.f_is_progressive := f_is_progressive;
         MdbGroupedEx.f_is_progressive_indicator := f_is_progressive_indicator;
         MdbGroupedEx.grp_no_indicator := grp_no_indicator;
         MdbGroupedEx.f_is_subsample_indicator := f_is_subsample_indicator;
         MdbGroupedEx.blob := blob |}).

(* --------------------------------------------------------------- *)
(** *** Record discovery and the entry point *)

(** The body of the loop over [raw_records] in
    [_find_and_parse_records]. *)
Definition parse_raw_record (self : t) (entry : RecordHeader.t * bytes)
  : M t :=
  let '(header, data) := entry in
  if RecordHeader.table_id header =? 3 then
    record <- _parse_single_ex_data self data ;;
    match record with
    | Some r => ret (set_singles_ex (singles_ex self ++ [r]) self)
    | None => ret self
    end
  else if RecordHeader.table_id header =? 4 then
    record <- _parse_grouped_ex_data self data ;;
    match record with
    | Some r => ret (set_grouped_ex (grouped_ex self ++ [r]) self)
    | None => ret self
    end
  else ret self.

Definition _find_and_parse_records (self : t) : M t :=
  let table_locs := _find_table_locations self in
  self <- _scan_for_records self ;;
  for_each (raw_records self) parse_raw_record self.

(** [parse]; the argument [content] is what [f.read()] returns, the
    diagnostic [print] is not modelled. *)
Definition parse (content : bytes) (self : t) : M (bool * t) :=
  let self := set_data content self in
  let self := set_file_size (len (data self)) self in
  if file_size self <? HEADER_SIZE + 0x100 then ret (false, self)
  else
    let self := _parse_header self in
    let self := _detect_schema self in
    self <- _parse_config_block self ;;
    self <- _find_and_parse_records self ;;
    ret (true, self).

(** The part of [main] between the construction of the parser and the
    output modes: [sys.exit(1)] when [parse] answers [False]. *)
Definition main_parse (content : bytes) : M (option Z * t) :=
  r <- parse content init ;;
  let '(ok, parser) := r in
  if negb ok then ret (Some 1, parser) else ret (None, parser).

(* --------------------------------------------------------------- *)
(** *** Further helper methods *)

Definition _read_datetime (self : t) (offset : Z) : M DateTime.t :=
  year <- _read_u16 self offset ;;
  month <- _read_u8 self (offset + 2) ;;
  day <- _read_u8 self (offset + 3) ;;
  min <- _read_u8 self (offset + 4) ;;
  hour <- _read_u8 self (offset + 5) ;;
  second <- _read_u8 self (offset + 6) ;;
  ret (DateTime.mk (DateField.mk year month day)
                   (TimeField.mk min hour second)).

(** The [while] loop of [_read_cstring]: it moves [end_] forward while it
    is inside the buffer, below the limit and on a non-null byte.  Every
    turn advances [end_] towards [len(data)], so [len(data) - offset] turns
    are enough, also from a negative offset. *)
Fixpoint cstring_end (fuel : nat) (data : bytes) (limit end_ : Z) : M Z :=
  match fuel with
  | O => ret end_
  | S fuel' =>
      if (end_ <? len data) && (end_ <? limit) then
        c <- getitem data end_ ;;
        if negb (c =? 0) then cstring_end fuel' data limit (end_ + 1)
        else ret end_
      else ret end_
  end.

Section Decode.

(** [bytes.decode('utf-8', errors='replace')], taken as given. *)
Variable decode : bytes -> string.

Definition _read_cstring (self : t) (offset max_len : Z) : M string :=
  end_ <- cstring_end (Z.to_nat (len (data self) - offset)) (data self)
                      (offset + max_len) offset ;;
  ret (decode (slice (data self) offset end_)).

End Decode.

(** The body of the loop of [find_all_strings]; the state is
    [(strings, current, start)], [i] is the index of the byte [c]. *)
Definition strings_step (min_len : Z)
           (st : list (Z * string) * list ascii * Z) (i : Z) (c : byte)
  : list (Z * string) * list ascii * Z :=
  let '(strings, current, start) := st in
  if printable c then
    let start := match current with [] => i | _ => start end in
    (strings, current ++ [ascii_of_byte c], start)
  else
    ((if len current >=? min_len
      then strings ++ [(start, string_of_list_ascii current)]
      else strings),
     [], start).

(** [for i, b in enumerate(data)] *)
Fixpoint strings_loop (min_len : Z) (d : bytes) (i : Z)
         (st : list (Z * string) * list ascii * Z)
  : list (Z * string) * list ascii * Z :=
  match d with
  | [] => st
  | c :: r => strings_loop min_len r (i + 1) (strings_step min_len st i c)
  end.

Definition find_all_strings (self : t) (min_len : Z) : list (Z * string) :=
  let '(strings, current, start) :=
    strings_loop min_len (data self) 0 ([], [], 0) in
  if len current >=? min_len
  then strings ++ [(start, string_of_list_ascii current)]
  else strings.

Definition known_fields : list string :=
  [ "file_handle"; "file_scanned"; "duration"; "size"; "file_type_ex";
    "camera_model"; "width"; "height"; "latitude"; "longitude"; "altitude";
    "frame_rate_duration"; "frame_rate_timescale"; "tag_cnt"; "moment_cnt";
    "avc_profile"; "avc_level"; "has_eis"; "has_hdr"; "is_clip"; "projection";
    "lens_config"; "protune_option"; "aud_option"; "chp_cnt"; "grp_no";
    "dir_no"; "n_elems"; "blob"; "autoid"; "version";
    "last_db_scan_time" ]%string.

Definition find_field_names (self : t) : dict Z :=
  fold_left
    (fun found field =>
       let pos := find (data self) (b field ++ [x00]) in
       if negb (pos =? -1) then dict_set found field pos else found)
    known_fields [].

(* --------------------------------------------------------------- *)
(** *** Output: the converters of [to_dict]

    Python's float arithmetic enters through [int / int] and
    [round(float, ndigits)]; both are taken as given. *)

Definition FILE_TYPES : list (Z * string) :=
  [ (0, "Unknown"); (1, "Video"); (2, "Photo"); (3, "Timelapse");
    (4, "Burst"); (5, "Audio"); (0x1000, "Video"); (0x1100, "Timelapse");
    (0x1200, "Photo") ]%string.

Fixpoint file_types_get (m : list (Z * string)) (k : Z) (default : string)
  : string :=
  match m with
  | [] => default
  | (k', v) :: r => if k =? k' then v else file_types_get r k default
  end.

Section ToDict.

Variable F : Type.
Variable truediv : Z -> Z -> F.
Variable round_float : F -> Z -> F.

(** A Python number: an [int] or a [float]. *)
Inductive num :=
| Int (z : Z)
| Float (f : F).

(** [round(x, ndigits)] for [ndigits >= 0]: an [int] is returned
    unchanged. *)
Definition round (x : num) (ndigits : Z) : num :=
  match x with
  | Int z => Int z
  | Float f => Float (round_float f ndigits)
  end.

Record DateTimeDict := {
  dd_year : Z;
  dd_actual_year : Z;
  dd_month : Z;
  dd_day : Z;
  dd_hour : Z;
  dd_minute : Z;
  dd_second : Z;
  dd_formatted : option string }.

Definition datetime_to_dict (dt : DateTime.t) : DateTimeDict :=
  let d := DateTime.dt dt in
  let tm := DateTime.tm dt in
  let actual_year :=
    if DateField.year d >? 0 then DateField.year d + 1980 else 0 in
  {| dd_year := DateField.year d;
     dd_actual_year := actual_year;
     dd_month := DateField.month d;
     dd_day := DateField.day d;
     dd_hour := TimeField.hour tm;
     dd_minute := TimeField.min tm;
     dd_second := TimeField.second tm;
     dd_formatted :=
       if actual_year >? 0
       then Some (Fmt.d 0 actual_year ++ "-" ++ Fmt.d 2 (DateField.month d)
                  ++ "-" ++ Fmt.d 2 (DateField.day d) ++ " "
                  ++ Fmt.d 2 (TimeField.hour tm) ++ ":"
                  ++ Fmt.d 2 (TimeField.min tm) ++ ":"
                  ++ Fmt.d 2 (TimeField.second tm))%string
       else None |}.

Record SingleExDict := {
  sd_file_type_ex : Z;
  sd_file_type_name : string;
  sd_duration_raw : Z;
  sd_duration_ms : Z;
  sd_duration_seconds : F;
  sd_size : Z;
  sd_size_mb : num;
  sd_file_handle : Z;
  sd_file_handle_hex : option string;
  sd_file_info : option FileInfo.t;
  sd_camera_model : string;
  sd_sub_model : string;
  sd_full_model : string;
  sd_ctm : option DateTimeDict;
  sd_last_scan_time : option DateTimeDict;
  sd_latm : option DateTimeDict;
  sd_tag_cnt : Z;
  sd_chp_cnt : Z;
  sd_dir_no : Z;
  sd_grp_no : Z;
  sd_width : Z;
  sd_height : Z;
  sd_has_eis : Z;
  sd_has_hdr : Z;
  sd_is_clip : Z;
  sd_projection : Z;
  sd_lens_config : Z;
  sd_avc_profile : Z;
  sd_avc_level : Z;
  sd_moment_cnt : Z;
  sd_total_tag_cnt : Z;
  sd_max_moment_score : spec_float;
  sd_media_orientation : Z;
  sd_media_status : Z;
  sd_upload_status : Z;
  sd_fov : Z;
  sd_f_meta_present : Z;
  sd_file_scanned : Z;
  sd_protune_option : Z;
  sd_aud_option : Z;
  sd_latitude : option spec_float;
  sd_longitude : option spec_float;
  sd_altitude : option spec_float }.

Definition single_ex_to_dict (rec : MdbSingleEx.t) : SingleExDict :=
  let fh := MdbSingleEx.file_handle rec in
  let camera_model := MdbSingleEx.camera_model rec in
  let sub_model := MdbSingleEx.sub_model rec in
  {| sd_file_type_ex := MdbSingleEx.file_type_ex rec;
     sd_file_type_name :=
       file_types_get FILE_TYPES (MdbSingleEx.file_type_ex rec)
         ("Type " ++ Fmt.d 0 (MdbSingleEx.file_type_ex rec))%string;
     sd_duration_raw := MdbSingleEx.duration rec;
     sd_duration_ms := MdbSingleEx.duration rec;
     sd_duration_seconds := truediv (MdbSingleEx.duration rec) 1000;
     sd_size := MdbSingleEx.size rec;
     sd_size_mb :=
       if negb (MdbSingleEx.size rec =? 0)
       then round (Float (truediv (MdbSingleEx.size rec) (1024 * 1024))) 2
       else Int 0;
     sd_file_handle := fh;
     sd_file_handle_hex :=
       if negb (fh =? 0) then Some ("0x" ++ Fmt.x 16 fh)%string else None;
     sd_file_info :=
       if negb (fh =? 0) then Some (decode_file_handle fh) else None;
     sd_camera_model := camera_model;
     sd_sub_model := sub_model;
     sd_full_model :=
       if nonempty sub_model
       then string_of_list_ascii
              (strip (list_ascii_of_string
                        (camera_model ++ " " ++ sub_model)%string))
       else camera_model;
     sd_ctm := Some (datetime_to_dict (MdbSingleEx.ctm rec));
     sd_last_scan_time :=
       Some (datetime_to_dict (MdbSingleEx.last_scan_time rec));
     sd_latm := Some (datetime_to_dict (MdbSingleEx.latm rec));
     sd_tag_cnt := MdbSingleEx.tag_cnt rec;
     sd_chp_cnt := MdbSingleEx.chp_cnt rec;
     sd_dir_no := MdbSingleEx.dir_no rec;
     sd_grp_no := MdbSingleEx.grp_no rec;
     sd_width := MdbSingleEx.width rec;
     sd_height := MdbSingleEx.height rec;
     sd_has_eis := MdbSingleEx.has_eis rec;
     sd_has_hdr := MdbSingleEx.has_hdr rec;
     sd_is_clip := MdbSingleEx.is_clip rec;
     sd_projection := MdbSingleEx.projection rec;
     sd_lens_config := MdbSingleEx.lens_config rec;
     sd_avc_profile := MdbSingleEx.avc_profile rec;
     sd_avc_level := MdbSingleEx.avc_level rec;
     sd_moment_cnt := MdbSingleEx.moment_cnt rec;
     sd_total_tag_cnt := MdbSingleEx.total_tag_cnt rec;
     sd_max_moment_score := MdbSingleEx.max_moment_score rec;
     sd_media_orientation := MdbSingleEx.media_orientation rec;
     sd_media_status := MdbSingleEx.media_status rec;
     sd_upload_status := MdbSingleEx.upload_status rec;
     sd_fov := MdbSingleEx.fov rec;
     sd_f_meta_present := MdbSingleEx.f_meta_present rec;
     sd_file_scanned := MdbSingleEx.file_scanned rec;
     sd_protune_option := MdbSingleEx.protune_option rec;
     sd_aud_option := MdbSingleEx.aud_option rec;
     sd_latitude := MdbSingleEx.latitude rec;
     sd_longitude := MdbSingleEx.longitude rec;
     sd_altitude := MdbSingleEx.altitude rec |}.

Record GusiDict := {
  gu_raw : string;
  gu_session_id : Z;
  gu_session_id_hex : option string;
  gu_recording_id : Z;
  gu_recording_id_hex : option string }.

Record BlobDict := {
  bl_raw : string;
  bl_content_id_high : Z;
  bl_content_id_low : Z;
  bl_content_id_hex : string }.

Record GroupedExDict := {
  gd_file_handle : Z;
  gd_file_handle_hex : option string;
  gd_file_info : option FileInfo.t;
  gd_frame_rate_timescale : Z;
  gd_frame_rate_duration : Z;
  gd_frame_rate_fps : num;
  gd_n_elems : Z;
  gd_grp_no : Z;
  gd_grp_ctm : option DateTimeDict;
  gd_width : Z;
  gd_height : Z;
  gd_resolution : option string;
  gd_f_is_progressive : Z;
  gd_f_is_subsample : Z;
  gd_gusi_blob : option GusiDict;
  gd_blob : option BlobDict }.

Definition grouped_ex_to_dict (rec : MdbGroupedEx.t) : GroupedExDict :=
  let fps :=
    if MdbGroupedEx.frame_rate_duration rec >? 0
    then Float (truediv (MdbGroupedEx.frame_rate_timescale rec)
                        (MdbGroupedEx.frame_rate_duration rec))
    else Int 0 in
  let gusi := MdbGroupedEx.gusi_blob rec in
  let gusi_dict :=
    match GusiBlob.raw gusi with
    | [] => None
    | _ =>
        Some {| gu_raw := Fmt.hex (GusiBlob.raw gusi);
                gu_session_id := GusiBlob.session_id gusi;
                gu_session_id_hex :=
                  if negb (GusiBlob.session_id gusi =? 0)
                  then Some ("0x" ++ Fmt.x 8 (GusiBlob.session_id gusi))%string
                  else None;
                gu_recording_id := GusiBlob.recording_id gusi;
                gu_recording_id_hex :=
                  if negb (GusiBlob.recording_id gusi =? 0)
                  then Some ("0x" ++ Fmt.x 8 (GusiBlob.recording_id gusi))%string
                  else None |}
    end in
  let blob := MdbGroupedEx.blob rec in
  let blob_dict :=
    match ContentBlob.raw blob with
    | [] => None
    | _ =>
        Some {| bl_raw := Fmt.hex (ContentBlob.raw blob);
                bl_content_id_high := ContentBlob.content_id_high blob;
                bl_content_id_low := ContentBlob.content_id_low blob;
                bl_content_id_hex :=
                  (Fmt.x 16 (ContentBlob.content_id_high blob)
                   ++ Fmt.x 16 (ContentBlob.content_id_low blob))%string |}
    end in
  let fh := MdbGroupedEx.file_handle rec in
  {| gd_file_handle := fh;
     gd_file_handle_hex :=
       if negb (fh =? 0) then Some ("0x" ++ Fmt.x 16 fh)%string else None;
     gd_file_info :=
       if negb (fh =? 0) then Some (decode_file_handle fh) else None;
     gd_frame_rate_timescale := MdbGroupedEx.frame_rate_timescale rec;
     gd_frame_rate_duration := MdbGroupedEx.frame_rate_duration rec;
     gd_frame_rate_fps := round fps 2;
     gd_n_elems := MdbGroupedEx.n_elems rec;
     gd_grp_no := MdbGroupedEx.grp_no rec;
     gd_grp_ctm := Some (datetime_to_dict (MdbGroupedEx.grp_ctm rec));
     gd_width := MdbGroupedEx.width rec;
     gd_height := MdbGroupedEx.height rec;
     gd_resolution :=
       if negb (MdbGroupedEx.width rec =? 0)
          && negb (MdbGroupedEx.height rec =? 0)
       then Some (Fmt.d 0 (MdbGroupedEx.width rec) ++ "x"
                  ++ Fmt.d 0 (MdbGroupedEx.height rec))%string
       else None;
     gd_f_is_progressive := MdbGroupedEx.f_is_progressive rec;
     gd_f_is_subsample := MdbGroupedEx.f_is_subsample rec;
     gd_gusi_blob := gusi_dict;
     gd_blob := blob_dict |}.

End ToDict.

End GoproMDBParser.

(* ================================================================= *)
(** ** gopro_mdb_parser.py: classes PageInfo and PageAnalyzer *)

Module PageInfo.

Record t := mk {
  offset : Z;
  kind : Z;
  kind_name : string;
  flags : Z;
  extraflags : Z;
  user : Z;
  align_data : Z;
  data : bytes }.

Definition default : t := mk 0 0 EmptyString 0 0 0 0 [].

Definition PAGE_KIND_NAMES : list (Z * string) :=
  [ (0, "DATA"); (1, "EXTENSION"); (2, "BTREE_LEAF"); (3, "BTREE_NODE");
    (4, "AUTOID_HASH"); (5, "AUTOID_OVF"); (6, "BLOB_HEAD"); (7, "BLOB_CONT");
    (8, "INDEX_DIR"); (9, "HASH_OVF"); (10, "TRANS"); (11, "FREELIST");
    (12, "FIXREC"); (13, "UNKNOWN_13"); (14, "STRING_EXT"); (15, "TEMP") ]%string.

Definition TABLE_NAMES : list (Z * string) :=
  [ (0, "header"); (1, "mdb_global"); (2, "mdb_single");
    (3, "mdb_single_ex"); (4, "mdb_grouped_ex") ]%string.

(** The [table_name] property. *)
Definition table_name (self : t) : string :=
  RecordHeader.table_map_get TABLE_NAMES (user self)
                             ("table_" ++ Fmt.d 0 (user self))%string.

(** The [flag_names] property. *)
Definition flag_names (self : t) : list string :=
  (if negb (Z.land (flags self) 0x10 =? 0) then ["COMPACT"%string] else [])
  ++ (if negb (Z.land (flags self) 0x20 =? 0) then ["HAS_BLOBS"%string] else [])
  ++ (if negb (Z.land (flags self) 0x40 =? 0) then ["FLAG_2"%string] else [])
  ++ (if negb (Z.land (flags self) 0x80 =? 0) then ["FLAG_3"%string] else []).

End PageInfo.

Module PageAnalyzer.

Record t := mk {
  data : bytes;
  page_size : Z;
  pages : list PageInfo.t }.

(** [__init__] *)
Definition init (data : bytes) (page_size : Z) : t := mk data page_size [].

Definition _parse_page (self : t) (offset : Z) : M PageInfo.t :=
  let page_data := slice (data self) offset (offset + page_size self) in
  if len page_data <? 8
  then ret (PageInfo.mk offset 0 EmptyString 0 0 0 0 page_data)
  else
    k <- getitem page_data 0 ;;
    let kind := Z.land k 0x0F in
    f <- getitem page_data 0 ;;
    let flags := Z.land f 0xF0 in
    extraflags <- getitem page_data 1 ;;
    user <- unpack_H page_data 2 ;;
    align_data <- unpack_I page_data 4 ;;
    let kind_name :=
      RecordHeader.table_map_get PageInfo.PAGE_KIND_NAMES kind
                                 ("UNKNOWN_" ++ Fmt.d 0 kind)%string in
    ret (PageInfo.mk offset kind kind_name flags extraflags user align_data
                     page_data).

Definition analyze_all (self : t) : M t :=
  let self := mk (data self) (page_size self) [] in
  for_each (range 0 (len (data self)) (page_size self))
    (fun self offset =>
       page <- _parse_page self offset ;;
       ret (mk (data self) (page_size self) (pages self ++ [page])))
    self.

Definition get_pages_by_kind (self : t) (kind : Z) : list PageInfo.t :=
  filter (fun p => PageInfo.kind p =? kind) (pages self).

(** A pointer entry of [parse_autoid_ovf_page]. *)
Record pointer_entry := { pe_offset : Z; pe_pointer : string }.

(** What the page interpreters return: an error dict or the fields of the
    page. *)
Inductive parsed :=
| error (message : string)
| EXTENSION (offset : string) (table_id : Z) (table_name : string)
            (data_size : Z) (content_preview : string)
| AUTOID_OVF (offset : string) (user : Z) (flags : list string)
             (pointers : list pointer_entry)
| INDEX_DIR (offset : string) (user : Z) (align_data : Z)
            (content_preview : string).

Definition parse_extension_page (self : t) (page : PageInfo.t) : parsed :=
  if negb (PageInfo.kind page =? 1) then error "Not an extension page"
  else EXTENSION (Fmt.hex_int (PageInfo.offset page))
                 (PageInfo.user page)
                 (PageInfo.table_name page)
                 (PageInfo.align_data page)
                 (Fmt.hex (slice (PageInfo.data page) 8 40)).

Definition parse_autoid_ovf_page (self : t) (page : PageInfo.t) : M parsed :=
  if negb (PageInfo.kind page =? 5) then ret (error "Not an AUTOID_OVF page")
  else
    pointers <-
      for_each (range 8 (len (PageInfo.data page) - 8) 8)
        (fun pointers i =>
           ptr <- unpack_Q (PageInfo.data page) i ;;
           if (0x100 <? ptr) && (ptr <? len (data self))
           then ret (pointers ++ [{| pe_offset := i;
                                     pe_pointer := Fmt.hex_int ptr |}])
           else ret pointers)
        [] ;;
    ret (AUTOID_OVF (Fmt.hex_int (PageInfo.offset page))
                    (PageInfo.user page)
                    (PageInfo.flag_names page)
                    (slice pointers 0 20)).

Definition parse_index_dir_page (self : t) (page : PageInfo.t) : parsed :=
  if negb (PageInfo.kind page =? 8) then error "Not an INDEX_DIR page"
  else INDEX_DIR (Fmt.hex_int (PageInfo.offset page))
                 (PageInfo.user page)
                 (PageInfo.align_data page)
                 (Fmt.hex (slice (PageInfo.data page) 8 48)).

(** The dict [kind_counts] of [get_summary]. *)
Definition kind_counts (self : t) : dict Z :=
  fold_left
    (fun counts page =>
       let name := PageInfo.kind_name page in
       dict_set counts name (dict_get counts name 0 + 1))
    (pages self) [].

Record summary := {
  total_pages : Z;
  summary_page_size : Z;
  kinds : dict Z }.

Definition get_summary (self : t) : summary :=
  {| total_pages := len (pages self);
     summary_page_size := page_size self;
     kinds := kind_counts self |}.

End PageAnalyzer.

(* ================================================================= *)
(** ** gopro_mdb_parser.py: classes DictionaryParser and SchemaAnalyzer *)

Module DictionaryParser.

Definition DICT_OFFSET : Z := 0x0C00.

(** The parser object.  The lists [classes], [indexes] and [structs] and
    the counter [num_structs] are not touched by the methods below and are
    left out. *)
Record t := mk {
  data : bytes;
  mco_version : MCOVersion.t;
  num_classes : Z;
  num_indexes : Z }.

(** [__init__] *)
Definition init (data : bytes) : t := mk data MCOVersion.default 0 0.

Definition _read_u8 (self : t) (offset : Z) : M Z :=
  if offset <? len (data self) then getitem (data self) offset else ret 0.

Definition _read_u16 (self : t) (offset : Z) : M Z :=
  if offset + 2 <=? len (data self) then unpack_H (data self) offset else ret 0.

Definition _read_u32 (self : t) (offset : Z) : M Z :=
  if offset + 4 <=? len (data self) then unpack_I (data self) offset else ret 0.

Definition _read_u64 (self : t) (offset : Z) : M Z :=
  if offset + 8 <=? len (data self) then unpack_Q (data self) offset else ret 0.

Definition _parse_header (self : t) : M t :=
  let base := DICT_OFFSET in
  major <- _read_u16 self (base + 0x10) ;;
  minor <- _read_u16 self (base + 0x12) ;;
  build <- _read_u16 self (base + 0x14) ;;
  let self := mk (data self) (MCOVersion.mk major minor build)
                 (num_classes self) (num_indexes self) in
  n <- _read_u32 self (base + 0x20) ;;
  let self := mk (data self) (mco_version self) n (num_indexes self) in
  let self := if num_classes self >? 10
              then mk (data self) (mco_version self) 4 (num_indexes self)
              else self in
  n <- _read_u32 self (base + 0x38) ;;
  let self := mk (data self) (mco_version self) (num_classes self) n in
  let self := if num_indexes self >? 20
              then mk (data self) (mco_version self) (num_classes self) 6
              else self in
  ret self.

End DictionaryParser.

Module SchemaAnalyzer.

(** A pointer entry of [_find_pointers]. *)
Record pointer := { at_ : string; points_to : string }.

Definition _find_pointers (data : bytes) : M (list pointer) :=
  let file_size := len data in
  for_each (range HEADER_SIZE (Z.min 0x1000 (file_size - 4)) 4)
    (fun pointers i =>
       val <- unpack_I data i ;;
       if (0x1000 <? val) && (val <? file_size) && (val mod 4 =? 0)
       then ret (pointers ++ [{| at_ := Fmt.hex_int i;
                                 points_to := Fmt.hex_int val |}])
       else ret pointers)
    [].

(** An entry of [_analyze_tables]. *)
Record table := { table_name : string; name_offset : string }.

Definition _analyze_tables (data : bytes) : list table :=
  fold_left
    (fun tables name =>
       let pos := find data (b name ++ [x00]) in
       if negb (pos =? -1)
       then tables ++ [{| table_name := name; name_offset := Fmt.hex_int pos |}]
       else tables)
    ["mdb_global"; "mdb_single"; "mdb_single_ex"; "mdb_grouped_ex"]%string
    [].

End SchemaAnalyzer.

(* ================================================================= *)
(** ** mco_page_analyzer.py *)

Module MCOPageKind.

Definition names : list (Z * string) :=
  [ (0, "DATA"); (1, "EXTENSION"); (2, "BTREE_LEAF"); (3, "BTREE_NODE");
    (4, "AUTOID_HASH"); (5, "AUTOID_OVF"); (6, "BLOB_HEAD"); (7, "BLOB_CONT");
    (8, "INDEX_DIR"); (9, "HASH_OVF"); (10, "TRANS"); (11, "FREELIST");
    (12, "FIXREC"); (13, "UNKNOWN_13"); (14, "STRING_EXT"); (15, "TEMP") ]%string.

Fixpoint names_get (m : list (Z * string)) (k : Z) (default : string)
  : string :=
  match m with
  | [] => default
  | (k', v) :: r => if k =? k' then v else names_get r k default
  end.

Definition name_for (kind : Z) : string :=
  let base_kind := Z.land kind 0x0F in
  names_get names base_kind ("UNKNOWN_" ++ Fmt.d 0 base_kind)%string.

End MCOPageKind.

Module MCOPageHeader.

Record t := mk { kind : Z; extraflags : Z; user : Z; align : bytes }.

Definition default : t := mk 0 0 0 [x00; x00; x00; x00].

Definition page_type (self : t) : Z := Z.land (kind self) 0x0F.

Definition page_flags (self : t) : Z := Z.land (kind self) 0xF0.

Definition type_name (self : t) : string := MCOPageKind.name_for (page_type self).

Definition flags_desc (self : t) : list string :=
  (if negb (Z.land (page_flags self) 0x10 =? 0) then ["COMPACT"%string] else [])
  ++ (if negb (Z.land (page_flags self) 0x20 =? 0) then ["HAS_BLOBS"%string] else [])
  ++ (if negb (Z.land (page_flags self) 0x40 =? 0) then ["FLAG_2"%string] else [])
  ++ (if negb (Z.land (page_flags self) 0x80 =? 0) then ["FLAG_3"%string] else []).

Definition from_bytes (data : bytes) : M t :=
  if len data <? 8 then ret default
  else
    k <- getitem data 0 ;;
    e <- getitem data 1 ;;
    u <- unpack_H data 2 ;;
    ret (mk k e u (slice data 4 8)).

End MCOPageHeader.

Module MCOPage.
Record t := mk {
  offset : Z;
  size : Z;
  header : MCOPageHeader.t;
  data : bytes }.
End MCOPage.

Module MCODatabaseInfo.
Record t := mk {
  format_version : Z;
  mco_version_major : Z;
  mco_version_minor : Z;
  mco_version_build : Z;
  page_size : Z;
  n_pages : Z;
  dictionary_offset : Z }.
Definition default : t := mk 0 0 0 0 0 0 0.
End MCODatabaseInfo.

Module MCOPageAnalyzer.

Definition COMMON_PAGE_SIZES : list Z := [256; 512; 1024; 2048; 4096].

(** An entry of [self.unknowns]. *)
Inductive unknown :=
| unknown_page_kind (offset : string) (kind : Z) (kind_hex : string)
                    (data_preview : string)
| unusual_flags (offset : string) (flags : Z) (flags_desc : list string).

Record t := mk {
  data : bytes;
  file_size : Z;
  page_size : Z;
  pages : list MCOPage.t;
  db_info : MCODatabaseInfo.t;
  unknowns : list unknown }.

(** [__init__] *)
Definition init : t :=
  {| data := []; file_size := 0; page_size := 0; pages := [];
     db_info := MCODatabaseInfo.default; unknowns := [] |}.

Definition set_page_size v (s : t) : t :=
  mk (data s) (file_size s) v (pages s) (db_info s) (unknowns s).
Definition set_pages v (s : t) : t :=
  mk (data s) (file_size s) (page_size s) v (db_info s) (unknowns s).
Definition set_db_info v (s : t) : t :=
  mk (data s) (file_size s) (page_size s) (pages s) v (unknowns s).
Definition set_unknowns v (s : t) : t :=
  mk (data s) (file_size s) (page_size s) (pages s) (db_info s) v.

(** The body of the probe loop of [_detect_page_size]: the pair
    [(valid_count, invalid_count)] after the probe at [offset]. *)
Definition probe (self : t) (counts : Z * Z) (offset : Z) : M (Z * Z) :=
  let '(valid_count, invalid_count) := counts in
  header <- MCOPageHeader.from_bytes (slice (data self) offset (offset + 8)) ;;
  let base_kind := MCOPageHeader.page_type header in
  let raw_kind := MCOPageHeader.kind header in
  if mem base_kind [0; 1; 2; 3; 4; 5; 6; 7; 8; 10; 11; 12; 15]
     && (mem (Z.land raw_kind 0xF0) [0x00; 0x10; 0x20; 0x30]
         || (raw_kind =? 0xFF))
     && ((MCOPageHeader.user header <? 0x100)
         || (MCOPageHeader.user header =? 0xFFFF))
  then ret (valid_count + 1, invalid_count)
  else if (raw_kind =? 0xFF) || (raw_kind =? 0x00)
  then ret (valid_count + 1, invalid_count)
  else ret (valid_count, invalid_count + 1).

(** [score = valid_count - invalid_count] of one candidate. *)
Definition page_score (self : t) (ps : Z) : M Z :=
  counts <- for_each (range ps (Z.min (ps * 20) (file_size self)) ps)
                     (probe self) (0, 0) ;;
  ret (fst counts - snd counts).

(** The body of the candidate loop: the pair [(best_ps, best_score)]. *)
Definition try_candidate (self : t) (best : Z * Z) (ps : Z) : M (Z * Z) :=
  let '(best_ps, best_score) := best in
  if file_size self >=? ps * 4 then
    score <- page_score self ps ;;
    if score >? best_score then ret (ps, score) else ret (best_ps, best_score)
  else ret (best_ps, best_score).

Definition _detect_page_size (self : t) : M t :=
  best <- for_each COMMON_PAGE_SIZES (try_candidate self) (1024, 0) ;;
  let best_ps := fst best in
  let self := set_page_size best_ps self in
  let info := db_info self in
  ret (set_db_info
         (MCODatabaseInfo.mk
            (MCODatabaseInfo.format_version info)
            (MCODatabaseInfo.mco_version_major info)
            (MCODatabaseInfo.mco_version_minor info)
            (MCODatabaseInfo.mco_version_build info)
            (page_size self)
            (file_size self / page_size self)
            (MCODatabaseInfo.dictionary_offset info))
         self).

(** The [while] loop of [_scan_pages]; with a page size that is not
    negative, every turn that does not leave the loop advances [offset] by
    a page of at least 8 bytes, so [file_size] turns are enough
    ([scan_pages_enough_fuel] below). *)
Fixpoint scan_pages_loop (fuel : nat) (offset : Z) (self : t) : M t :=
  match fuel with
  | O => ret self
  | S fuel' =>
      if offset <? file_size self then
        let page_data := slice (data self) offset (offset + page_size self) in
        if len page_data <? 8 then ret self
        else
          header <- MCOPageHeader.from_bytes (slice page_data 0 8) ;;
          let page :=
            MCOPage.mk offset (page_size self) header
              (if len page_data >? 8 then slice page_data 8 (len page_data)
               else []) in
          scan_pages_loop fuel' (offset + page_size self)
                          (set_pages (pages self ++ [page]) self)
      else ret self
  end.

Definition _scan_pages (self : t) : M t :=
  scan_pages_loop (Z.to_nat (file_size self)) 0 self.

Definition known_kinds : list Z := [0; 1; 2; 3; 4; 5; 6; 7; 8; 10; 11; 12; 15].

(** The entries one turn of the loop of [_identify_unknowns] appends. *)
Definition page_unknowns (page : MCOPage.t) : list unknown :=
  let h := MCOPage.header page in
  let base_kind := MCOPageHeader.page_type h in
  (if negb (mem base_kind known_kinds) && negb (base_kind =? 0xFF)
   then [unknown_page_kind
           ("0x" ++ Fmt.X 4 (MCOPage.offset page))%string
           base_kind
           ("0x" ++ Fmt.X 2 (MCOPageHeader.kind h))%string
           (match MCOPage.data page with
            | [] => EmptyString
            | _ => Fmt.hex (slice (MCOPage.data page) 0 32)
            end)]
   else [])
  ++
  (if negb (Z.land (MCOPageHeader.page_flags h) 0xC0 =? 0)
   then [unusual_flags
           ("0x" ++ Fmt.X 4 (MCOPage.offset page))%string
           (MCOPageHeader.page_flags h)
           (MCOPageHeader.flags_desc h)]
   else []).

Definition _identify_unknowns (self : t) : t :=
  fold_left
    (fun self page => set_unknowns (unknowns self ++ page_unknowns page) self)
    (pages self) self.

Definition _parse_database_info (self : t) : M t :=
let dict_offset := 0x0C10 in
self <- (if file_size self >? dict_offset + 8 then
           v1 <- unpack_H (data self) dict_offset ;;
           v2 <- unpack_H (data self) (dict_offset + 2) ;;
           v3 <- unpack_H (data self) (dict_offset + 4) ;;
           if (1 <=? v1) && (v1 <=? 15) && (v2 <=? 99) && (v3 <? 10000)
           then
             let info := db_info self in
             ret (set_db_info
                    (MCODatabaseInfo.mk
                       (MCODatabaseInfo.format_version info)
                       v1 v2 v3
                       (MCODatabaseInfo.page_size info)
                       (MCODatabaseInfo.n_pages info)
                       dict_offset)
                    self)
           else ret self
         else ret self) ;;
if file_size self >? 0x410 then
  fv <- unpack_I (data self) (0x400 + 8) ;;
  if (1 <=? fv) && (fv <=? 10)
  then
    let info := db_info self in
    ret (set_db_info
           (MCODatabaseInfo.mk
              fv
              (MCODatabaseInfo.mco_version_major info)
              (MCODatabaseInfo.mco_version_minor info)
              (MCODatabaseInfo.mco_version_build info)
              (MCODatabaseInfo.page_size info)
              (MCODatabaseInfo.n_pages info)
              (MCODatabaseInfo.dictionary_offset info))
           self)
  else ret self
else ret self.

(** [analyze]; the argument [content] is what [f.read()] returns, the
    diagnostic [print] is not modelled. *)
Definition analyze (content : bytes) (self : t) : M (bool * t) :=
let self := mk content (len content) (page_size self) (pages self)
               (db_info self) (unknowns self) in
if file_size self <? 0x400 then ret (false, self)
else
  self <- _detect_page_size self ;;
  self <- _parse_database_info self ;;
  self <- _scan_pages self ;;
  ret (true, _identify_unknowns self).

Definition get_page_summary (self : t) : dict Z :=
  fold_left
    (fun summary page =>
       let type_name := MCOPageHeader.type_name (MCOPage.header page) in
       dict_set summary type_name (dict_get summary type_name 0 + 1))
    (pages self) [].

Definition get_pages_by_kind (self : t) (kind : Z) : list MCOPage.t :=
  filter (fun p => MCOPageHeader.page_type (MCOPage.header p) =? kind)
         (pages self).

(** An entry of [analyze_btree_pages]; [n_keys] is present when the page
    data holds at least 8 bytes. *)
Record btree_info := {
  bt_offset : string;
  bt_type : string;
  bt_user : Z;
  bt_n_keys : option Z }.

Definition analyze_btree_pages (self : t) : M (list btree_info) :=
  for_each (pages self)
    (fun btree_pages page =>
       let h := MCOPage.header page in
       if mem (MCOPageHeader.page_type h) [2; 3] then
         n_keys <- (if len (MCOPage.data page) >=? 8
                    then v <- unpack_H (MCOPage.data page) 0 ;; ret (Some v)
                    else ret None) ;;
         ret (btree_pages
              ++ [{| bt_offset := ("0x" ++ Fmt.X 4 (MCOPage.offset page))%string;
                     bt_type := (if MCOPageHeader.page_type h =? 2
                                 then "leaf"%string else "node"%string);
                     bt_user := MCOPageHeader.user h;
                     bt_n_keys := n_keys |}])
       else ret btree_pages)
    [].

End MCOPageAnalyzer.

(* ================================================================= *)
(** * Properties *)

(** ** The monad *)

Lemma res_bind {A B} (m : M A) (f : A -> M B) :
  res (bind m f) = match res m with
                   | Ok a => res (f a)
                   | Raise e => Raise e
                   end.
Proof.
  destruct m as [l [a|e]]; simpl; auto.
  destruct (f a); reflexivity.
Qed.

Lemma touched_bind {A B} (m : M A) (f : A -> M B) :
  touched (bind m f) = touched m ++ match res m with
                                    | Ok a => touched (f a)
                                    | Raise _ => []
                                    end.
Proof.
  destruct m as [l [a|e]]; simpl.
  - destruct (f a); reflexivity.
  - now rewrite app_nil_r.
Qed.

Lemma res_bind_ok {A B} (m : M A) (f : A -> M B) a :
  res m = Ok a -> res (bind m f) = res (f a).
Proof. intro H. now rewrite res_bind, H. Qed.

(** A computation is safe on a buffer of [n] bytes when every index it
    asks for lies inside the buffer. *)
Definition within {A} (n : Z) (m : M A) : Prop :=
  Forall (fun i => 0 <= i < n) (touched m).

Lemma within_ret {A} n (a : A) : within n (ret a).
Proof. constructor. Qed.

(** ** Bytes and little-endian values *)

Lemma byte_val_range c : 0 <= byte_val c < 256.
Proof.
  unfold byte_val. pose proof (Byte.to_N_bounded c). lia.
Qed.

(** The little-endian value of the [w] bytes stored from index [off] on. *)
Fixpoint le_sum (d : bytes) (off : Z) (w : nat) : Z :=
  match w with
  | O => 0
  | S w' => byte_val (nth_byte d off) + 256 * le_sum d (off + 1) w'
  end.

Lemma skipn_nth_cons {A} (l : list A) n x :
  (n < List.length l)%nat -> skipn n l = nth n l x :: skipn (S n) l.
Proof.
  revert n. induction l as [|a l IH]; intros n Hn; simpl in *.
  - lia.
  - destruct n; simpl; auto. apply IH. lia.
Qed.

Lemma le_value_window (d : bytes) (w : nat) (o : Z) :
  0 <= o -> o + Z.of_nat w <= len d ->
  le_value (firstn w (skipn (Z.to_nat o) d)) = le_sum d o w.
Proof.
  revert o. induction w as [|w IH]; intros o Ho Hw.
  - reflexivity.
  - unfold len in Hw.
    rewrite (skipn_nth_cons d (Z.to_nat o) x00) by lia.
    cbn [firstn le_value le_sum]. unfold nth_byte at 1.
    f_equal. f_equal.
    replace (S (Z.to_nat o)) with (Z.to_nat (o + 1)) by lia.
    apply IH; unfold len; lia.
Qed.

(** ** The primitives of the runtime *)

Lemma getitem_ok (d : bytes) (i : Z) :
  0 <= i < len d ->
  getitem d i = ([i], Ok (byte_val (nth_byte d i))).
Proof.
  intro H. unfold getitem.
  destruct (Z.ltb_spec i 0); try lia. cbv zeta.
  destruct (Z.leb_spec 0 i); try lia.
  destruct (Z.ltb_spec i (len d)); try lia.
  reflexivity.
Qed.

Lemma unpack_uint_ok (w : nat) (d : bytes) (o : Z) :
  0 <= o -> o + Z.of_nat w <= len d ->
  unpack_uint w d o =
  (map (fun k => o + Z.of_nat k) (seq 0 w), Ok (le_sum d o w)).
Proof.
  intros Ho Hw. unfold unpack_uint.
  destruct (Z.ltb_spec o 0); try lia. cbv zeta.
  destruct (Z.ltb_spec o 0); try lia.
  destruct (Z.ltb_spec (len d - o) (Z.of_nat w)); try lia.
  now rewrite le_value_window.
Qed.

Lemma window_within (w : nat) (n o : Z) :
  0 <= o -> o + Z.of_nat w <= n ->
  Forall (fun i => 0 <= i < n) (map (fun k => o + Z.of_nat k) (seq 0 w)).
Proof.
  intros Ho Hw. apply Forall_forall. intros i Hi.
  apply in_map_iff in Hi. destruct Hi as [k [<- Hk]].
  apply in_seq in Hk. lia.
Qed.

Lemma within_unpack_uint w d o :
  0 <= o -> o + Z.of_nat w <= len d -> within (len d) (unpack_uint w d o).
Proof.
  intros. unfold within. rewrite unpack_uint_ok by assumption.
  now apply window_within.
Qed.

(** ** The byte readers of the parser *)

(** What a reader of [w] bytes must do at [off]: answer the decoded
    little-endian value of the bytes [off .. off+w-1] when they all lie in
    the buffer, the type's zero otherwise, and ask for no index outside the
    buffer. *)
Definition reads {A} (d : bytes) (w : nat) (decode : Z -> A) (zero : A)
           (off : Z) (m : M A) : Prop :=
  res m = Ok (if off + Z.of_nat w <=? len d then decode (le_sum d off w)
              else zero)
  /\ within (len d) m.

Lemma reads_uint d (w : nat) off :
  0 <= off ->
  reads d w (fun v => v) 0 off
        (if off + Z.of_nat w <=? len d then unpack_uint w d off else ret 0).
Proof.
  intro H. unfold reads.
  destruct (Z.leb_spec (off + Z.of_nat w) (len d)).
  - split.
    + now rewrite unpack_uint_ok.
    + now apply within_unpack_uint.
  - split; [reflexivity | apply within_ret].
Qed.

Lemma reads_decoded {A} d (w : nat) (decode : Z -> A) zero off :
  0 <= off ->
  reads d w decode zero off
        (if off + Z.of_nat w <=? len d
         then bind (unpack_uint w d off) (fun v => ret (decode v))
         else ret zero).
Proof.
  intro H. unfold reads.
  destruct (Z.leb_spec (off + Z.of_nat w) (len d)).
  - rewrite unpack_uint_ok by assumption. split.
    + reflexivity.
    + unfold within. simpl. rewrite app_nil_r. now apply window_within.
  - split; [reflexivity | apply within_ret].
Qed.

Lemma reads_u8 (self : GoproMDBParser.t) (off : Z) :
  0 <= off ->
  reads (GoproMDBParser.data self) 1 (fun v => v) 0 off
        (GoproMDBParser._read_u8 self off).
Proof.
  intro Hoff. unfold GoproMDBParser._read_u8, reads.
  set (d := GoproMDBParser.data self).
  destruct (Z.ltb_spec off (len d));
    destruct (Z.leb_spec (off + Z.of_nat 1) (len d)); try lia.
  - rewrite getitem_ok by lia. split.
    + cbn [res snd le_sum]. f_equal. lia.
    + repeat constructor; lia.
  - split; [reflexivity | apply within_ret].
Qed.

(** C8.  Every primitive reader of the parser answers the little-endian
    value of the bytes [off, off+W) when they fit in the buffer and the
    type's zero otherwise (two's complement for [i32], IEEE 754 for
    [f32]/[f64]), and it never asks for an index at or past the buffer
    length.  Offsets are byte offsets from the start of the buffer. *)
Theorem byte_readers_bounds_safe (self : GoproMDBParser.t) (off : Z) :
  0 <= off ->
  let d := GoproMDBParser.data self in
  reads d 1 (fun v => v) 0 off (GoproMDBParser._read_u8 self off)
  /\ reads d 2 (fun v => v) 0 off (GoproMDBParser._read_u16 self off)
  /\ reads d 4 (fun v => v) 0 off (GoproMDBParser._read_u32 self off)
  /\ reads d 8 (fun v => v) 0 off (GoproMDBParser._read_u64 self off)
  /\ reads d 4 (to_signed 4) 0 off (GoproMDBParser._read_i32 self off)
  /\ reads d 4 (float_of_bits 23 8) float_zero off
           (GoproMDBParser._read_f32 self off)
  /\ reads d 8 (float_of_bits 52 11) float_zero off
           (GoproMDBParser._read_f64 self off).
Proof.
  intros Hoff d.
  exact (conj (reads_u8 self off Hoff)
        (conj (reads_uint d 2 off Hoff)
        (conj (reads_uint d 4 off Hoff)
        (conj (reads_uint d 8 off Hoff)
        (conj (reads_decoded d 4 (to_signed 4) 0 off Hoff)
        (conj (reads_decoded d 4 (float_of_bits 23 8) float_zero off Hoff)
              (reads_decoded d 8 (float_of_bits 52 11) float_zero off Hoff))))))).
Qed.

(** ** File handles *)

(** The digit [d] as a character, and numbers written with exactly three
    and four decimal digits. *)
Definition digit_char (d : Z) : ascii := ascii_of_N (Z.to_N (48 + d)).

Definition dec3 (n : Z) : string :=
  String (digit_char (n / 100))
    (String (digit_char (n / 10 mod 10))
       (String (digit_char (n mod 10)) EmptyString)).

Definition dec4 (n : Z) : string :=
  String (digit_char (n / 1000)) (dec3 (n mod 1000)).

(** Byte [k] of an integer. *)
Definition byte_of (v : Z) (k : Z) : Z := (v / 256 ^ k) mod 256.

(** [P] holds on the [n] integers from [z] on. *)
Fixpoint all_from (P : Z -> bool) (n : nat) (z : Z) : bool :=
  match n with
  | O => true
  | S n' => P z && all_from P n' (z + 1)
  end.

Lemma all_from_spec (P : Z -> bool) (n : nat) :
  forall z, all_from P n z = true ->
  forall x, z <= x < z + Z.of_nat n -> P x = true.
Proof.
  induction n as [|n IH]; intros z H x Hx; [lia|].
  cbn [all_from] in H. apply andb_true_iff in H. destruct H as [Hz Hr].
  destruct (Z.eq_dec x z) as [->|Hne]; [exact Hz|].
  apply (IH (z + 1) Hr). lia.
Qed.

Lemma fmt_d3 (n : Z) : 0 <= n <= 255 -> Fmt.d 3 n = dec3 n.
Proof.
  intro H. apply String.eqb_eq.
  apply (all_from_spec (fun z => String.eqb (Fmt.d 3 z) (dec3 z))
                       (Z.to_nat 256) 0);
    [vm_compute; reflexivity | lia].
Qed.

Lemma fmt_d4 (n : Z) : 0 <= n <= 9999 -> Fmt.d 4 n = dec4 n.
Proof.
  intro H. apply String.eqb_eq.
  apply (all_from_spec (fun z => String.eqb (Fmt.d 4 z) (dec4 z))
                       (Z.to_nat 10000) 0);
    [vm_compute; reflexivity | lia].
Qed.

Lemma land_shiftr_byte (v k : Z) :
  0 <= k -> Z.land (Z.shiftr v (8 * k)) 0xFF = byte_of v k.
Proof.
  intro Hk. unfold byte_of.
  change 0xFF with (Z.ones 8).
  rewrite Z.land_ones by lia. rewrite Z.shiftr_div_pow2 by lia.
  replace (2 ^ (8 * k)) with (256 ^ k).
  - reflexivity.
  - change 256 with (2 ^ 8). now rewrite <- Z.pow_mul_r by lia.
Qed.

Lemma land_low16 (v : Z) : Z.land v 0xFFFF = v mod 65536.
Proof.
  change 0xFFFF with (Z.ones 16). now rewrite Z.land_ones by lia.
Qed.

(** C9.  For [dir] in [0,255] and [file_no] in [0,9999], a 64-bit handle
    whose byte 4 is [dir] and whose low 16 bits are [file_no] decodes to
    the directory "<dir as 3 digits>GOPRO", the file number [file_no], the
    type flag byte 7, and the path
    "<directory>/GX0<file_no as 4 digits>.MP4". *)
Theorem decode_file_handle_round_trip (fh dir file_no : Z) :
  0 <= fh < 2 ^ 64 ->
  0 <= dir <= 255 ->
  0 <= file_no <= 9999 ->
  byte_of fh 4 = dir ->
  fh mod 65536 = file_no ->
  let r := decode_file_handle fh in
  FileInfo.directory r = (dec3 dir ++ "GOPRO")%string
  /\ FileInfo.file_number r = file_no
  /\ FileInfo.type_flag r = byte_of fh 7
  /\ FileInfo.estimated_path r
     = (FileInfo.directory r ++ "/" ++ "GX0" ++ dec4 file_no ++ ".MP4")%string.
Proof.
  intros Hfh Hdir Hfile Hb4 Hlow r.
  assert (Ed : Z.land (Z.shiftr fh 32) 0xFF = dir)
    by (rewrite <- Hb4; apply (land_shiftr_byte fh 4); lia).
  assert (Ef : Z.land fh 0xFFFF = file_no)
    by (rewrite <- Hlow; apply land_low16).
  assert (Et : Z.land (Z.shiftr fh 56) 0xFF = byte_of fh 7)
    by (apply (land_shiftr_byte fh 7); lia).
  subst r. unfold decode_file_handle.
  cbn [FileInfo.directory FileInfo.file_number FileInfo.type_flag
       FileInfo.estimated_path].
  rewrite Ed, Ef, Et, (fmt_d3 dir Hdir), (fmt_d4 file_no Hfile).
  repeat split.
Qed.

Lemma decode_file_handle_round_trip_witness :
  let fh := 0x0100006400000001 in
  (0 <= fh < 2 ^ 64) /\ (0 <= 100 <= 255) /\ (0 <= 1 <= 9999)
  /\ byte_of fh 4 = 100 /\ fh mod 65536 = 1
  /\ FileInfo.directory (decode_file_handle fh) = "100GOPRO"%string
  /\ FileInfo.file_number (decode_file_handle fh) = 1
  /\ FileInfo.type_flag (decode_file_handle fh) = 1
  /\ FileInfo.estimated_path (decode_file_handle fh)
     = "100GOPRO/GX00001.MP4"%string.
Proof.
  intro fh.
  assert (H1 : 0 <= fh < 2 ^ 64) by (subst fh; lia).
  assert (H2 : 0 <= 100 <= 255) by lia.
  assert (H3 : 0 <= 1 <= 9999) by lia.
  assert (H4 : byte_of fh 4 = 100) by reflexivity.
  assert (H5 : fh mod 65536 = 1) by reflexivity.
  repeat (split; [assumption|]).
  exact (decode_file_handle_round_trip fh 100 1 H1 H2 H3 H4 H5).
Defined.

(** ** Datetimes *)

Lemma read_datetime_from_buffer_ok (data : bytes) (off : Z) :
  0 <= off -> off + 7 <= len data ->
  res (GoproMDBParser._read_datetime_from_buffer data off)
  = Ok (DateTime.mk
          (DateField.mk (le_sum data off 2)
                        (byte_val (nth_byte data (off + 2)))
                        (byte_val (nth_byte data (off + 3))))
          (TimeField.mk (byte_val (nth_byte data (off + 4)))
                        (byte_val (nth_byte data (off + 5)))
                        (byte_val (nth_byte data (off + 6))))).
Proof.
  intros Ho Hl. unfold GoproMDBParser._read_datetime_from_buffer, unpack_H.
  destruct (Z.leb_spec (off + 7) (len data)); try lia.
  rewrite unpack_uint_ok by (simpl; lia).
  rewrite !getitem_ok by lia.
  reflexivity.
Qed.

(** C7.  A 7-byte datetime stored at [off] is decoded as: year = the
    little-endian u16 at byte 0, month = byte 2, day = byte 3, minute =
    byte 4, hour = byte 5, second = byte 6.  When the stored year is
    positive the surfaced actual year is year + 1980 and a formatted value
    is present; when the stored year is 0 there is no formatted value. *)
Theorem datetime_layout_and_year (data : bytes) (off : Z) :
  0 <= off -> off + 7 <= len data ->
  let at_ k := byte_val (nth_byte data (off + k)) in
  let year := byte_val (nth_byte data off) + 256 * at_ 1 in
  exists dt,
    res (GoproMDBParser._read_datetime_from_buffer data off) = Ok dt
    /\ DateField.year (DateTime.dt dt) = year
    /\ DateField.month (DateTime.dt dt) = at_ 2
    /\ DateField.day (DateTime.dt dt) = at_ 3
    /\ TimeField.min (DateTime.tm dt) = at_ 4
    /\ TimeField.hour (DateTime.tm dt) = at_ 5
    /\ TimeField.second (DateTime.tm dt) = at_ 6
    /\ (let dd := GoproMDBParser.datetime_to_dict dt in
        GoproMDBParser.dd_year dd = year
        /\ GoproMDBParser.dd_month dd = at_ 2
        /\ GoproMDBParser.dd_day dd = at_ 3
        /\ GoproMDBParser.dd_minute dd = at_ 4
        /\ GoproMDBParser.dd_hour dd = at_ 5
        /\ GoproMDBParser.dd_second dd = at_ 6
        /\ (year > 0 ->
            GoproMDBParser.dd_actual_year dd = year + 1980
            /\ DateField.actual_year (DateTime.dt dt) = year + 1980
            /\ GoproMDBParser.dd_formatted dd <> None)
        /\ (year = 0 ->
            GoproMDBParser.dd_formatted dd = None)).
Proof.
  intros Ho Hl at_ year.
  eexists. split; [apply read_datetime_from_buffer_ok; assumption|].
  assert (Ey : le_sum data off 2 = year).
  { subst year at_. cbn [le_sum]. lia. }
  cbn [DateTime.dt DateTime.tm DateField.year DateField.month DateField.day
       TimeField.min TimeField.hour TimeField.second].
  unfold GoproMDBParser.datetime_to_dict, DateField.actual_year.
  cbn [DateTime.dt DateTime.tm DateField.year DateField.month DateField.day
       TimeField.min TimeField.hour TimeField.second
       GoproMDBParser.dd_year GoproMDBParser.dd_month GoproMDBParser.dd_day
       GoproMDBParser.dd_minute GoproMDBParser.dd_hour
       GoproMDBParser.dd_second GoproMDBParser.dd_actual_year
       GoproMDBParser.dd_formatted].
  rewrite Ey.
  repeat (split; [reflexivity|]).
  split.
  - intro Hy. destruct (Z.gtb_spec year 0); try lia.
    destruct (Z.gtb_spec (year + 1980) 0); try lia.
    repeat split. discriminate.
  - intro Hy. rewrite Hy. reflexivity.
Qed.

(** 2024-05-17 12:30:45 as stored on disk (year 44, minute before hour). *)
Definition sample_datetime : bytes := [x2c; x00; x05; x11; x1e; x0c; x2d].

Lemma datetime_layout_and_year_witness :
  0 <= 0 /\ 0 + 7 <= len sample_datetime
  /\ exists dt,
      res (GoproMDBParser._read_datetime_from_buffer sample_datetime 0) = Ok dt
      /\ GoproMDBParser.dd_actual_year (GoproMDBParser.datetime_to_dict dt)
         = 2024.
Proof.
  assert (H1 : 0 <= 0) by lia.
  assert (H2 : 0 + 7 <= len sample_datetime) by (vm_compute; discriminate).
  split; [exact H1|]. split; [exact H2|].
  destruct (datetime_layout_and_year sample_datetime 0 H1 H2)
    as (dt & Hr & _ & _ & _ & _ & _ & _ & _ & _ & _ & _ & _ & _ & Hy & _).
  exists dt. split; [exact Hr|].
  apply Hy. vm_compute. reflexivity.
Defined.

Definition sample_reader : GoproMDBParser.t :=
  GoproMDBParser.set_data [x01; x02; x03; x04; x05; x06; x07; x08; x09]
                          GoproMDBParser.init.

Lemma byte_readers_bounds_safe_witness :
  0 <= 1
  /\ res (GoproMDBParser._read_u16 sample_reader 1) = Ok 0x0302
  /\ res (GoproMDBParser._read_u64 sample_reader 1) = Ok 0x0908070605040302
  /\ res (GoproMDBParser._read_u64 sample_reader 2) = Ok 0.
Proof.
  assert (H : 0 <= 1) by lia.
  assert (H' : 0 <= 2) by lia.
  split; [exact H|].
  destruct (byte_readers_bounds_safe sample_reader 1 H)
    as (_ & [R16 _] & _ & [R64 _] & _).
  destruct (byte_readers_bounds_safe sample_reader 2 H')
    as (_ & _ & _ & [R64' _] & _).
  repeat split; assumption.
Defined.

(** ** The reader closures of the record decoders *)

(** The value of a field at a raw offset of a record body, with the
    closures' answer for a field that does not fit: zero. *)
Definition u8_at (d : bytes) (o : Z) : Z :=
  if o <? len d then byte_val (nth_byte d o) else 0.

Definition uint_at (w : nat) (d : bytes) (o : Z) : Z :=
  if o + Z.of_nat w <=? len d then le_sum d o w else 0.

Definition f32_at (d : bytes) (o : Z) : spec_float :=
  if o + 4 <=? len d then float_of_bits 23 8 (le_sum d o 4) else float_zero.

Definition datetime_at (d : bytes) (o : Z) : DateTime.t :=
  if o + 7 <=? len d then
    DateTime.mk
      (DateField.mk (le_sum d o 2) (byte_val (nth_byte d (o + 2)))
                    (byte_val (nth_byte d (o + 3))))
      (TimeField.mk (byte_val (nth_byte d (o + 4)))
                    (byte_val (nth_byte d (o + 5)))
                    (byte_val (nth_byte d (o + 6))))
  else DateTime.default.

Lemma read_u8_res d u :
  0 <= u -> res (GoproMDBParser.read_u8 d u) = Ok (u8_at d (u + 8)).
Proof.
  intro H. unfold GoproMDBParser.read_u8, u8_at, GoproMDBParser.OID_SIZE.
  destruct (Z.ltb_spec (u + 8) (len d)); [|reflexivity].
  now rewrite getitem_ok by lia.
Qed.

Lemma guarded_unpack_res (w : nat) d o :
  0 <= o ->
  res (if o + Z.of_nat w <=? len d then unpack_uint w d o else ret 0)
  = Ok (uint_at w d o).
Proof.
  intro H. unfold uint_at.
  destruct (Z.leb_spec (o + Z.of_nat w) (len d)); [|reflexivity].
  now rewrite unpack_uint_ok.
Qed.

Lemma read_u16_res d u :
  0 <= u -> res (GoproMDBParser.read_u16 d u) = Ok (uint_at 2 d (u + 8)).
Proof. intro H. apply (guarded_unpack_res 2). lia. Qed.

Lemma read_u32_res d u :
  0 <= u -> res (GoproMDBParser.read_u32 d u) = Ok (uint_at 4 d (u + 8)).
Proof. intro H. apply (guarded_unpack_res 4). lia. Qed.

Lemma read_u64_res d u :
  0 <= u -> res (GoproMDBParser.read_u64 d u) = Ok (uint_at 8 d (u + 8)).
Proof. intro H. apply (guarded_unpack_res 8). lia. Qed.

Lemma read_f32_res d u :
  0 <= u -> res (GoproMDBParser.read_f32 d u) = Ok (f32_at d (u + 8)).
Proof.
  intro H. unfold GoproMDBParser.read_f32, f32_at, GoproMDBParser.OID_SIZE,
             unpack_f.
  destruct (Z.leb_spec (u + 8 + 4) (len d)); [|reflexivity].
  now rewrite unpack_uint_ok by (simpl; lia).
Qed.

Lemma read_datetime_res d u :
  0 <= u ->
  res (GoproMDBParser.read_datetime d u) = Ok (datetime_at d (u + 8)).
Proof.
  intro H. unfold GoproMDBParser.read_datetime, datetime_at,
             GoproMDBParser.OID_SIZE.
  destruct (Z.leb_spec (u + 8 + 7) (len d)).
  - now apply read_datetime_from_buffer_ok; lia.
  - unfold GoproMDBParser._read_datetime_from_buffer.
    destruct (Z.leb_spec (u + 8 + 7) (len d)); [lia | reflexivity].
Qed.

(** One step through a decoder: the next read succeeds with its value. *)
Ltac read_step :=
  match goal with
  | |- context [res (bind (GoproMDBParser.read_u8 ?d ?u) ?f)] =>
      rewrite (res_bind_ok _ f _ (read_u8_res d u ltac:(lia)))
  | |- context [res (bind (GoproMDBParser.read_u16 ?d ?u) ?f)] =>
      rewrite (res_bind_ok _ f _ (read_u16_res d u ltac:(lia)))
  | |- context [res (bind (GoproMDBParser.read_u32 ?d ?u) ?f)] =>
      rewrite (res_bind_ok _ f _ (read_u32_res d u ltac:(lia)))
  | |- context [res (bind (GoproMDBParser.read_u64 ?d ?u) ?f)] =>
      rewrite (res_bind_ok _ f _ (read_u64_res d u ltac:(lia)))
  | |- context [res (bind (GoproMDBParser.read_f32 ?d ?u) ?f)] =>
      rewrite (res_bind_ok _ f _ (read_f32_res d u ltac:(lia)))
  | |- context [res (bind (GoproMDBParser.read_datetime ?d ?u) ?f)] =>
      rewrite (res_bind_ok _ f _ (read_datetime_res d u ltac:(lia)))
  end.

(** The record the [single_ex] decoder builds from a body: every field is
    read at its Hero11 unpacked offset plus the 8-byte OID prefix. *)
Definition single_ex_of (d : bytes) : MdbSingleEx.t :=
  {| MdbSingleEx.file_type_ex := uint_at 4 d 44;
     MdbSingleEx.duration := uint_at 8 d 8;
     MdbSingleEx.size := uint_at 8 d 16;
     MdbSingleEx.upload_status := 0;
     MdbSingleEx.file_handle := uint_at 8 d 24;
     MdbSingleEx.vtag := 0;
     MdbSingleEx.tag_cnt := uint_at 2 d 68;
     MdbSingleEx.ctm := datetime_at d 60;
     MdbSingleEx.last_scan_time := datetime_at d 86;
     MdbSingleEx.chp_cnt := uint_at 2 d 70;
     MdbSingleEx.latm := datetime_at d 74;
     MdbSingleEx.protune_option := u8_at d 98;
     MdbSingleEx.aud_option := u8_at d 99;
     MdbSingleEx.protune_option_indicator := 0;
     MdbSingleEx.has_eis := u8_at d 100;
     MdbSingleEx.is_clip := u8_at d 94;
     MdbSingleEx.vtag_indicator := 0;
     MdbSingleEx.avc_level := u8_at d 96;
     MdbSingleEx.chp_cnt_indicator := 0;
     MdbSingleEx.has_eis_indicator := 0;
     MdbSingleEx.aud_option_indicator := 0;
     MdbSingleEx.file_scanned := u8_at d 95;
     MdbSingleEx.avc_profile := u8_at d 97;
     MdbSingleEx.camera_model := GoproMDBParser.read_string d 97 30 2;
     MdbSingleEx.sub_model := GoproMDBParser.read_string d 128 16 2;
     MdbSingleEx.dir_no := uint_at 2 d 84;
     MdbSingleEx.grp_no := uint_at 2 d 72;
     MdbSingleEx.width := 0;
     MdbSingleEx.height := 0;
     MdbSingleEx.projection := u8_at d 102;
     MdbSingleEx.lens_config := u8_at d 104;
     MdbSingleEx.moment_cnt := uint_at 2 d 58;
     MdbSingleEx.total_tag_cnt := uint_at 2 d 82;
     MdbSingleEx.max_moment_score := f32_at d 48;
     MdbSingleEx.media_orientation := 0;
     MdbSingleEx.media_status := uint_at 4 d 32;
     MdbSingleEx.has_hdr := u8_at d 93;
     MdbSingleEx.fov := 0;
     MdbSingleEx.f_meta_present := u8_at d 101;
     MdbSingleEx.latitude := None;
     MdbSingleEx.longitude := None;
     MdbSingleEx.altitude := None |}.

Lemma parse_single_ex_data_res (self : GoproMDBParser.t) (d : bytes) :
  100 <= len d ->
  res (GoproMDBParser._parse_single_ex_data self d) = Ok (Some (single_ex_of d)).
Proof.
  intro H. unfold GoproMDBParser._parse_single_ex_data.
  destruct (Z.ltb_spec (len d) 100); [lia|].
  repeat read_step.
  reflexivity.
Qed.

Definition gusi_of (d : bytes) : GusiBlob.t :=
  let raw := GoproMDBParser.read_bytes d 36 16 in
  if len raw >=? 12
  then GusiBlob.mk raw (le_sum raw 0 4) (le_sum raw 8 4)
  else GusiBlob.mk raw 0 0.

Definition content_blob_of (d : bytes) : ContentBlob.t :=
  let raw := GoproMDBParser.read_bytes d 57 16 in
  if len raw >=? 16
  then ContentBlob.mk raw (le_sum raw 0 8) (le_sum raw 8 8)
  else ContentBlob.mk raw 0 0.

Definition grouped_ex_of (d : bytes) : MdbGroupedEx.t :=
  {| MdbGroupedEx.file_handle := uint_at 8 d 8;
     MdbGroupedEx.frame_rate_timescale := uint_at 4 d 16;
     MdbGroupedEx.frame_rate_duration := uint_at 4 d 20;
     MdbGroupedEx.n_elems := uint_at 4 d 24;
     MdbGroupedEx.grp_ctm := datetime_at d 28;
     MdbGroupedEx.grp_no := uint_at 2 d 36;
     MdbGroupedEx.width := uint_at 2 d 38;
     MdbGroupedEx.height := uint_at 2 d 40;
     MdbGroupedEx.frame_rate_duration_indicator := u8_at d 42;
     MdbGroupedEx.frame_rate_timescale_indicator := u8_at d 43;
     MdbGroupedEx.gusi_blob := gusi_of d;
     MdbGroupedEx.f_is_subsample := u8_at d 60;
     MdbGroupedEx.f_is_progressive := u8_at d 61;
     MdbGroupedEx.f_is_progressive_indicator := u8_at d 62;
     MdbGroupedEx.grp_no_indicator := u8_at d 63;
     MdbGroupedEx.f_is_subsample_indicator := u8_at d 64;
     MdbGroupedEx.blob := content_blob_of d |}.

Lemma gusi_res (raw : bytes) :
  res (if len raw >=? 12 then
         session_id <- unpack_I raw 0 ;;
         recording_id <- unpack_I raw 8 ;;
         ret (GusiBlob.mk raw session_id recording_id)
       else ret (GusiBlob.mk raw 0 0))
  = Ok (if len raw >=? 12
        then GusiBlob.mk raw (le_sum raw 0 4) (le_sum raw 8 4)
        else GusiBlob.mk raw 0 0).
Proof.
  destruct (Z.geb_spec (len raw) 12); [|reflexivity].
  unfold unpack_I.
  rewrite !unpack_uint_ok by (simpl; lia).
  reflexivity.
Qed.

Lemma content_blob_res (raw : bytes) :
  res (if len raw >=? 16 then
         content_id_high <- unpack_Q raw 0 ;;
         content_id_low <- unpack_Q raw 8 ;;
         ret (ContentBlob.mk raw content_id_high content_id_low)
       else ret (ContentBlob.mk raw 0 0))
  = Ok (if len raw >=? 16
        then ContentBlob.mk raw (le_sum raw 0 8) (le_sum raw 8 8)
        else ContentBlob.mk raw 0 0).
Proof.
  destruct (Z.geb_spec (len raw) 16); [|reflexivity].
  unfold unpack_Q.
  rewrite !unpack_uint_ok by (simpl; lia).
  reflexivity.
Qed.

Lemma parse_grouped_ex_data_res (self : GoproMDBParser.t) (d : bytes) :
  50 <= len d ->
  res (GoproMDBParser._parse_grouped_ex_data self d)
  = Ok (Some (grouped_ex_of d)).
Proof.
  intro H. unfold GoproMDBParser._parse_grouped_ex_data.
  destruct (Z.ltb_spec (len d) 50); [lia|].
  repeat read_step. cbv zeta.
  rewrite (res_bind_ok _ _ _ (gusi_res _)).
  repeat read_step. cbv zeta.
  rewrite (res_bind_ok _ _ _ (content_blob_res _)).
  reflexivity.
Qed.

(** ** Loops *)

Lemma in_range (x start stop step : Z) :
  0 < step -> In x (range start stop step) ->
  start <= x < stop /\ (x - start) mod step = 0.
Proof.
  intros Hs Hin. unfold range in Hin.
  apply in_map_iff in Hin. destruct Hin as (k & <- & Hk).
  apply in_seq in Hk.
  assert (Hq : Z.of_nat k < (stop - start + step - 1) / step) by lia.
  assert (Hlt : step * Z.of_nat k < stop - start).
  { assert (Z.of_nat k + 1 <= (stop - start + step - 1) / step) by lia.
    pose proof (Z.mul_div_le (stop - start + step - 1) step Hs). nia. }
  split; [nia|].
  replace (start + step * Z.of_nat k - start) with (Z.of_nat k * step) by lia.
  apply Z.mod_mul. lia.
Qed.

(** ** The record-slot scanner *)

Lemma land_low4 (v : Z) : Z.land v 0x0F = v mod 16.
Proof. change 0x0F with (Z.ones 4). now rewrite Z.land_ones by lia. Qed.

Lemma getitem_res d i :
  0 <= i < len d -> res (getitem d i) = Ok (byte_val (nth_byte d i)).
Proof. intro H. now rewrite getitem_ok. Qed.

Lemma _read_u16_res (self : GoproMDBParser.t) o :
  0 <= o ->
  res (GoproMDBParser._read_u16 self o)
  = Ok (uint_at 2 (GoproMDBParser.data self) o).
Proof. intro H. now apply (guarded_unpack_res 2). Qed.

Lemma _read_u32_res (self : GoproMDBParser.t) o :
  0 <= o ->
  res (GoproMDBParser._read_u32 self o)
  = Ok (uint_at 4 (GoproMDBParser.data self) o).
Proof. intro H. now apply (guarded_unpack_res 4). Qed.

(** The three header fields the scanner looks at. *)
Definition slot_kind_lo (d : bytes) (slot : Z) : Z :=
  byte_val (nth_byte d slot) mod 16.

Definition slot_table_id (d : bytes) (slot : Z) : Z := le_sum d (slot + 2) 2.

Definition slot_rec_size (d : bytes) (slot : Z) : Z := le_sum d (slot + 4) 4.

(** The expected record size: the Hero11 table when the schema is
    "hero11+", the Hero5 table for every other schema. *)
Definition expected_size (schema : string) (table_id : Z) : Z :=
  if String.eqb schema "hero11+"
  then (if table_id =? 3 then 134 else 73)
  else (if table_id =? 3 then 78 else 57).

Definition slot_accepted (schema : string) (d : bytes) (slot : Z) : Prop :=
  slot_kind_lo d slot = 0
  /\ (slot_table_id d slot = 3 \/ slot_table_id d slot = 4)
  /\ 40 < slot_rec_size d slot < 200
  /\ Z.abs (slot_rec_size d slot - expected_size schema (slot_table_id d slot))
     < 20.

Definition slot_accepted_b (schema : string) (d : bytes) (slot : Z) : bool :=
  (slot_kind_lo d slot =? 0)
  && ((slot_table_id d slot =? 3) || (slot_table_id d slot =? 4))
  && (40 <? slot_rec_size d slot) && (slot_rec_size d slot <? 200)
  && (Z.abs (slot_rec_size d slot
             - expected_size schema (slot_table_id d slot)) <? 20).

Lemma slot_accepted_reflect schema d slot :
  slot_accepted_b schema d slot = true <-> slot_accepted schema d slot.
Proof.
  unfold slot_accepted_b, slot_accepted.
  rewrite !andb_true_iff, orb_true_iff, !Z.eqb_eq, !Z.ltb_lt. tauto.
Qed.

(** The raw record an accepted slot contributes. *)
Definition slot_record (d : bytes) (slot : Z) : RecordHeader.t * bytes :=
  (RecordHeader.mk (slot_table_id d slot) 0 (slot_rec_size d slot) 0,
   slice d (slot + 16) (Z.min (slot + 192) (len d))).

Lemma expected_sizes_for_get (self : GoproMDBParser.t) (table_id : Z) :
  dict_get (GoproMDBParser.expected_sizes_for self)
    (if table_id =? 3 then "mdb_single_ex"%string else "mdb_grouped_ex"%string) 0
  = expected_size (GoproMDBParser.schema_version self) table_id.
Proof.
  unfold GoproMDBParser.expected_sizes_for, expected_size.
  destruct (String.eqb (GoproMDBParser.schema_version self) "hero11+");
    destruct (table_id =? 3); reflexivity.
Qed.

Lemma scan_slot_res (self : GoproMDBParser.t) (slot : Z) :
  GoproMDBParser.file_size self = len (GoproMDBParser.data self) ->
  0 <= slot < GoproMDBParser.file_size self - 128 ->
  res (GoproMDBParser.scan_slot (GoproMDBParser.expected_sizes_for self)
                                self slot)
  = Ok (if slot_accepted_b (GoproMDBParser.schema_version self)
                           (GoproMDBParser.data self) slot
        then GoproMDBParser.set_raw_records
               (GoproMDBParser.raw_records self
                ++ [slot_record (GoproMDBParser.data self) slot]) self
        else self).
Proof.
  intros Hfs Hslot. unfold GoproMDBParser.scan_slot.
  set (d := GoproMDBParser.data self) in *.
  rewrite (res_bind_ok _ _ _ (getitem_res d slot ltac:(lia))).
  rewrite (res_bind_ok _ _ _ (_read_u16_res self (slot + 2) ltac:(lia))).
  rewrite (res_bind_ok _ _ _ (_read_u32_res self (slot + 4) ltac:(lia))).
  fold d. cbv zeta.
  rewrite expected_sizes_for_get, land_low4.
  unfold uint_at.
  destruct (Z.leb_spec (slot + 2 + Z.of_nat 2) (len d)); [|lia].
  destruct (Z.leb_spec (slot + 4 + Z.of_nat 4) (len d)); [|lia].
  unfold slot_accepted_b, slot_record, slot_kind_lo, slot_table_id,
    slot_rec_size, mem, GoproMDBParser.SLOT_SIZE.
  cbn [existsb]. rewrite orb_false_r, Hfs.
  replace (slot + 128 + 64) with (slot + 192) by lia.
  destruct (byte_val (nth_byte d slot) mod 16 =? 0); [|reflexivity].
  destruct ((le_sum d (slot + 2) 2 =? 3) || (le_sum d (slot + 2) 2 =? 4));
    [|reflexivity].
  destruct (40 <? le_sum d (slot + 4) 4); [|reflexivity].
  destruct (le_sum d (slot + 4) 4 <? 200); [|reflexivity].
  cbn [andb].
  destruct (Z.abs (le_sum d (slot + 4) 4
                   - expected_size (GoproMDBParser.schema_version self)
                                   (le_sum d (slot + 2) 2)) <? 20);
    reflexivity.
Qed.

(** C1 (amended).  For every slot offset the scanner visits (128-byte
    strides from 0x2C00 below file_size - 128) the slot is accepted, that
    is, its raw record is appended, if and only if kind_lo = 0, table_id is
    3 or 4, 40 < rec_size < 200 and |rec_size - expected| < 20 (strictly),
    where expected is 134 / 73 for the schema "hero11+" and 78 / 57 for
    every other schema. *)
Theorem slot_acceptance_rule (self : GoproMDBParser.t) (slot : Z) :
  GoproMDBParser.file_size self = len (GoproMDBParser.data self) ->
  In slot (range 0x2C00 (GoproMDBParser.file_size self - 128) 128) ->
  let d := GoproMDBParser.data self in
  let schema := GoproMDBParser.schema_version self in
  (expected_size "hero11+" 3 = 134 /\ expected_size "hero11+" 4 = 73)
  /\ (schema <> "hero11+"%string ->
      expected_size schema 3 = 78 /\ expected_size schema 4 = 57)
  /\ (slot - 0x2C00) mod 128 = 0
  /\ exists self',
      res (GoproMDBParser.scan_slot (GoproMDBParser.expected_sizes_for self)
                                    self slot) = Ok self'
      /\ (slot_accepted schema d slot ->
          GoproMDBParser.raw_records self'
          = GoproMDBParser.raw_records self ++ [slot_record d slot])
      /\ (~ slot_accepted schema d slot -> self' = self).
Proof.
  intros Hfs Hin d schema.
  apply in_range in Hin; [|lia]. destruct Hin as [Hr Hm].
  split; [split; reflexivity|].
  split.
  { intro Hs. unfold expected_size.
    destruct (String.eqb_spec schema "hero11+"); [contradiction|].
    split; reflexivity. }
  split; [exact Hm|].
  eexists. split; [apply scan_slot_res; [assumption | lia]|].
  fold d schema.
  destruct (slot_accepted_b schema d slot) eqn:E.
  - split; [reflexivity|].
    intro Hn. apply slot_accepted_reflect in E. contradiction.
  - split; [|reflexivity].
    intro Ha. apply slot_accepted_reflect in Ha. congruence.
Qed.

(** Test buffers: [patch d off bs] overwrites [d] from index [off] on. *)
Fixpoint patch (d : bytes) (off : nat) (bs : bytes) : bytes :=
  match off, d with
  | O, _ => bs ++ skipn (List.length bs) d
  | S k, x :: r => x :: patch r k bs
  | S _, [] => []
  end.

Definition blank (n : Z) : bytes := repeat x00 (Z.to_nat n).

(** A Hero11 file ("camera_model" and "vmoment" in the dictionary) with one
    slot at 0x2C00: kind 0, table 3, record size [rec_size]. *)
Definition hero11_file (rec_size : byte) : bytes :=
  patch (patch (patch (blank (0x2C00 + 256))
                      (Z.to_nat 0x1000) (b "camera_model" ++ [x00]))
               (Z.to_nat 0x1100) (b "vmoment" ++ [x00]))
        (Z.to_nat 0x2C00) [x00; x00; x03; x00; rec_size; x00; x00; x00].

Lemma slot_acceptance_rule_witness :
  let self :=
    GoproMDBParser.set_schema_version "hero11+"
      (GoproMDBParser.set_file_size (len (hero11_file x99))
         (GoproMDBParser.set_data (hero11_file x99) GoproMDBParser.init)) in
  GoproMDBParser.file_size self = len (GoproMDBParser.data self)
  /\ In 0x2C00 (range 0x2C00 (GoproMDBParser.file_size self - 128) 128)
  /\ exists self',
      res (GoproMDBParser.scan_slot (GoproMDBParser.expected_sizes_for self)
                                    self 0x2C00) = Ok self'
      /\ len (GoproMDBParser.raw_records self') = 1.
Proof.
  intro self.
  assert (H1 : GoproMDBParser.file_size self = len (GoproMDBParser.data self))
    by reflexivity.
  assert (H2 : In 0x2C00 (range 0x2C00 (GoproMDBParser.file_size self - 128) 128))
    by (vm_compute; auto).
  split; [exact H1|]. split; [exact H2|].
  destruct (slot_acceptance_rule self 0x2C00 H1 H2)
    as (_ & _ & _ & self' & Hres & Hacc & _).
  exists self'. split; [exact Hres|].
  rewrite Hacc.
  - vm_compute. reflexivity.
  - apply slot_accepted_reflect. vm_compute. reflexivity.
Defined.

(** ** From accepted slots to decoded records *)

Lemma len_slice {A} (d : list A) (a c : Z) :
  0 <= a -> a <= c -> c <= len d -> len (slice d a c) = c - a.
Proof.
  intros Ha Hac Hc. unfold slice, clamp, len in *.
  destruct (Z.ltb_spec a 0); [lia|]. destruct (Z.ltb_spec c 0); [lia|].
  rewrite length_firstn, length_skipn. lia.
Qed.

Definition accepted_records (schema : string) (d : bytes) (slots : list Z)
  : list (RecordHeader.t * bytes) :=
  flat_map (fun slot => if slot_accepted_b schema d slot
                        then [slot_record d slot] else [])
           slots.

Lemma set_raw_records_same (self : GoproMDBParser.t) :
  GoproMDBParser.set_raw_records (GoproMDBParser.raw_records self) self = self.
Proof. destruct self; reflexivity. Qed.

Lemma scan_slots_res (slots : list Z) :
  forall (self : GoproMDBParser.t) (sizes : dict Z),
    GoproMDBParser.file_size self = len (GoproMDBParser.data self) ->
    (forall s, In s slots -> 0 <= s < GoproMDBParser.file_size self - 128) ->
    sizes = GoproMDBParser.expected_sizes_for self ->
    res (for_each slots (GoproMDBParser.scan_slot sizes) self)
    = Ok (GoproMDBParser.set_raw_records
            (GoproMDBParser.raw_records self
             ++ accepted_records (GoproMDBParser.schema_version self)
                                 (GoproMDBParser.data self) slots)
            self).
Proof.
  induction slots as [|a l IH]; intros self sizes Hfs Hin Hsz.
  - cbn [for_each accepted_records flat_map].
    now rewrite app_nil_r, set_raw_records_same.
  - cbn [for_each]. subst sizes.
    rewrite (res_bind_ok _ _ _
               (scan_slot_res self a Hfs (Hin a (or_introl eq_refl)))).
    cbn [accepted_records flat_map].
    destruct (slot_accepted_b (GoproMDBParser.schema_version self)
                              (GoproMDBParser.data self) a).
    + rewrite IH; auto.
      * unfold GoproMDBParser.set_raw_records.
        cbn [GoproMDBParser.raw_records GoproMDBParser.data
             GoproMDBParser.schema_version GoproMDBParser.file_size
             GoproMDBParser.header_valid GoproMDBParser.db_version
             GoproMDBParser.mco_version GoproMDBParser.singles_ex
             GoproMDBParser.grouped_ex GoproMDBParser.struct_sizes
             GoproMDBParser.page_size GoproMDBParser.dictionary_offset].
        now rewrite <- app_assoc.
      * intros s Hs. apply Hin. now right.
    + rewrite IH; auto. intros s Hs. apply Hin. now right.
Qed.

Lemma scan_for_records_res (self : GoproMDBParser.t) :
  GoproMDBParser.file_size self = len (GoproMDBParser.data self) ->
  res (GoproMDBParser._scan_for_records self)
  = Ok (GoproMDBParser.set_raw_records
          (GoproMDBParser.raw_records self
           ++ accepted_records
                (GoproMDBParser.schema_version self)
                (GoproMDBParser.data self)
                (range 0x2C00 (GoproMDBParser.file_size self - 128) 128))
          self).
Proof.
  intro Hfs. unfold GoproMDBParser._scan_for_records, GoproMDBParser.SLOT_SIZE.
  apply scan_slots_res; auto.
  intros s Hs. apply in_range in Hs; lia.
Qed.

Lemma accepted_records_shape schema d slots :
  (forall s, In s slots -> 0 <= s < len d - 128) ->
  forall h body, In (h, body) (accepted_records schema d slots) ->
    113 <= len body <= 176
    /\ (RecordHeader.table_id h = 3 \/ RecordHeader.table_id h = 4).
Proof.
  intros Hs h body Hin. unfold accepted_records in Hin.
  apply in_flat_map in Hin. destruct Hin as (slot & Hslot & Hin).
  specialize (Hs slot Hslot).
  destruct (slot_accepted_b schema d slot) eqn:E; [|contradiction].
  destruct Hin as [Heq|[]]. unfold slot_record in Heq.
  injection Heq as <- <-.
  apply slot_accepted_reflect in E. destruct E as (_ & Ht & _).
  split; [|exact Ht].
  rewrite len_slice by lia. lia.
Qed.

Definition is_table (k : Z) (e : RecordHeader.t * bytes) : bool :=
  RecordHeader.table_id (fst e) =? k.

Definition singles_of (recs : list (RecordHeader.t * bytes))
  : list MdbSingleEx.t :=
  map (fun e => single_ex_of (snd e)) (filter (is_table 3) recs).

Definition grouped_of (recs : list (RecordHeader.t * bytes))
  : list MdbGroupedEx.t :=
  map (fun e => grouped_ex_of (snd e)) (filter (is_table 4) recs).

Lemma parse_raw_records_res (recs : list (RecordHeader.t * bytes)) :
  forall self : GoproMDBParser.t,
    (forall e, In e recs -> 100 <= len (snd e)) ->
    res (for_each recs GoproMDBParser.parse_raw_record self)
    = Ok (GoproMDBParser.set_grouped_ex
            (GoproMDBParser.grouped_ex self ++ grouped_of recs)
            (GoproMDBParser.set_singles_ex
               (GoproMDBParser.singles_ex self ++ singles_of recs) self)).
Proof.
  induction recs as [|[h body] l IH]; intros self Hlen.
  - cbn. rewrite !app_nil_r. destruct self; reflexivity.
  - assert (Hb : 100 <= len body) by (apply (Hlen (h, body)); now left).
    assert (Hl : forall e, In e l -> 100 <= len (snd e))
      by (intros e He; apply Hlen; now right).
    cbn [for_each]. unfold GoproMDBParser.parse_raw_record at 1.
    unfold singles_of, grouped_of, is_table.
    cbn [filter fst snd].
    destruct (RecordHeader.table_id h =? 3) eqn:E3.
    + assert (E4 : (RecordHeader.table_id h =? 4) = false) by lia.
      rewrite E4.
      rewrite res_bind, res_bind,
        (parse_single_ex_data_res self body Hb).
      cbn [res snd ret]. rewrite (IH _ Hl).
      unfold GoproMDBParser.set_singles_ex, GoproMDBParser.set_grouped_ex.
      cbn. rewrite <- app_assoc. reflexivity.
    + destruct (RecordHeader.table_id h =? 4) eqn:E4.
      * rewrite res_bind, res_bind,
          (parse_grouped_ex_data_res self body ltac:(lia)).
        cbn [res snd ret]. rewrite (IH _ Hl).
        unfold GoproMDBParser.set_singles_ex, GoproMDBParser.set_grouped_ex.
        cbn. rewrite <- app_assoc. reflexivity.
      * rewrite res_bind. cbn [res snd ret]. rewrite (IH _ Hl). reflexivity.
Qed.

Lemma tables_partition (recs : list (RecordHeader.t * bytes)) :
  (forall e, In e recs ->
     RecordHeader.table_id (fst e) = 3 \/ RecordHeader.table_id (fst e) = 4) ->
  len (singles_of recs) + len (grouped_of recs) = len recs.
Proof.
  unfold singles_of, grouped_of, len. rewrite !length_map.
  induction recs as [|e l IH]; intro H; [reflexivity|].
  assert (He := H e (or_introl eq_refl)).
  assert (Hl : forall e0, In e0 l ->
             RecordHeader.table_id (fst e0) = 3
             \/ RecordHeader.table_id (fst e0) = 4)
    by (intros e0 H0; apply H; now right).
  specialize (IH Hl). cbn [filter].
  assert (E : (is_table 3 e = true /\ is_table 4 e = false)
              \/ (is_table 3 e = false /\ is_table 4 e = true)).
  { unfold is_table. destruct He as [-> | ->]; [left | right];
      split; reflexivity. }
  destruct E as [[-> ->] | [-> ->]]; cbn [List.length]; lia.
Qed.

(** C10.  Every accepted slot hands the decoders a body of at least 113
    bytes, so neither decoder answers [None] on it, and the records decoded
    are exactly one per accepted slot: the [single_ex] list holds one
    record for each accepted slot of table 3, the [grouped_ex] list one for
    each accepted slot of table 4, in slot order. *)
Theorem accepted_slots_decoded_once (self : GoproMDBParser.t) :
  GoproMDBParser.file_size self = len (GoproMDBParser.data self) ->
  GoproMDBParser.raw_records self = [] ->
  GoproMDBParser.singles_ex self = [] ->
  GoproMDBParser.grouped_ex self = [] ->
  let recs :=
    accepted_records (GoproMDBParser.schema_version self)
      (GoproMDBParser.data self)
      (range 0x2C00 (GoproMDBParser.file_size self - 128) 128) in
  exists self',
    res (GoproMDBParser._find_and_parse_records self) = Ok self'
    /\ GoproMDBParser.raw_records self' = recs
    /\ (forall h body, In (h, body) recs ->
          113 <= len body
          /\ (RecordHeader.table_id h = 3 \/ RecordHeader.table_id h = 4)
          /\ res (GoproMDBParser._parse_single_ex_data self' body)
             = Ok (Some (single_ex_of body))
          /\ res (GoproMDBParser._parse_grouped_ex_data self' body)
             = Ok (Some (grouped_ex_of body)))
    /\ GoproMDBParser.singles_ex self' = singles_of recs
    /\ GoproMDBParser.grouped_ex self' = grouped_of recs
    /\ len (GoproMDBParser.singles_ex self')
       + len (GoproMDBParser.grouped_ex self') = len recs.
Proof.
  intros Hfs Hraw Hs Hg recs.
  assert (Hshape : forall h body, In (h, body) recs ->
            113 <= len body <= 176
            /\ (RecordHeader.table_id h = 3 \/ RecordHeader.table_id h = 4)).
  { apply accepted_records_shape. intros s Hin.
    apply in_range in Hin; lia. }
  unfold GoproMDBParser._find_and_parse_records. cbv zeta.
  rewrite (res_bind_ok _ _ _ (scan_for_records_res self Hfs)).
  rewrite Hraw. cbn [app]. fold recs.
  unfold GoproMDBParser.set_raw_records at 1.
  cbn [GoproMDBParser.raw_records].
  rewrite parse_raw_records_res.
  2:{ intros [h body] Hin. apply Hshape in Hin. cbn [snd]. lia. }
  eexists. split; [reflexivity|].
  cbn [GoproMDBParser.set_raw_records GoproMDBParser.set_grouped_ex
       GoproMDBParser.set_singles_ex GoproMDBParser.raw_records
       GoproMDBParser.singles_ex GoproMDBParser.grouped_ex].
  rewrite Hs, Hg. cbn [app].
  split; [reflexivity|].
  split.
  { intros h body Hin. destruct (Hshape h body Hin) as [Hl Ht].
    split; [lia|]. split; [exact Ht|].
    split; [apply parse_single_ex_data_res | apply parse_grouped_ex_data_res];
      lia. }
  split; [reflexivity|]. split; [reflexivity|].
  apply tables_partition.
  intros [h body] Hin. apply Hshape in Hin. cbn [fst]. tauto.
Qed.

Lemma accepted_slots_decoded_once_witness :
  let self :=
    GoproMDBParser.set_schema_version "hero11+"
      (GoproMDBParser.set_file_size (len (hero11_file x99))
         (GoproMDBParser.set_data (hero11_file x99) GoproMDBParser.init)) in
  GoproMDBParser.file_size self = len (GoproMDBParser.data self)
  /\ GoproMDBParser.raw_records self = []
  /\ GoproMDBParser.singles_ex self = []
  /\ GoproMDBParser.grouped_ex self = []
  /\ exists self',
      res (GoproMDBParser._find_and_parse_records self) = Ok self'
      /\ len (GoproMDBParser.singles_ex self') = 1
      /\ len (GoproMDBParser.grouped_ex self') = 0.
Proof.
  intro self.
  assert (H1 : GoproMDBParser.file_size self = len (GoproMDBParser.data self))
    by reflexivity.
  assert (H2 : GoproMDBParser.raw_records self = []) by reflexivity.
  assert (H3 : GoproMDBParser.singles_ex self = []) by reflexivity.
  assert (H4 : GoproMDBParser.grouped_ex self = []) by reflexivity.
  repeat (split; [assumption|]).
  destruct (accepted_slots_decoded_once self H1 H2 H3 H4)
    as (self' & Hres & _ & _ & Hs & Hg & _).
  exists self'. split; [exact Hres|].
  rewrite Hs, Hg. vm_compute. split; reflexivity.
Defined.

(** ** Generations *)





(** ** Frame rate *)

(** C4 (amended).  For every decoded [grouped_ex] record (body of at least
    50 bytes) the surfaced fps is the integer 0, a number and not an absent
    value, when frame_rate_duration (the u32 at raw offset 20) is 0; it is
    [round(timescale / duration, 2)] when frame_rate_duration > 0. *)
Theorem grouped_ex_fps
        (F : Type) (truediv : Z -> Z -> F) (round_float : F -> Z -> F)
        (self : GoproMDBParser.t) (d : bytes) :
  50 <= len d ->
  exists rec,
    res (GoproMDBParser._parse_grouped_ex_data self d) = Ok (Some rec)
    /\ MdbGroupedEx.frame_rate_timescale rec = le_sum d 16 4
    /\ MdbGroupedEx.frame_rate_duration rec = le_sum d 20 4
    /\ (let fps :=
          GoproMDBParser.gd_frame_rate_fps F
            (GoproMDBParser.grouped_ex_to_dict F truediv round_float rec) in
        (le_sum d 20 4 = 0 -> fps = GoproMDBParser.Int F 0)
        /\ (le_sum d 20 4 > 0 ->
            fps = GoproMDBParser.Float F
                    (round_float (truediv (le_sum d 16 4) (le_sum d 20 4)) 2))).
Proof.
  intro H. exists (grouped_ex_of d).
  split; [now apply parse_grouped_ex_data_res|].
  unfold GoproMDBParser.grouped_ex_to_dict, grouped_ex_of, uint_at.
  cbn [MdbGroupedEx.frame_rate_timescale MdbGroupedEx.frame_rate_duration
       GoproMDBParser.gd_frame_rate_fps].
  destruct (Z.leb_spec (16 + Z.of_nat 4) (len d)); [|simpl in *; lia].
  destruct (Z.leb_spec (20 + Z.of_nat 4) (len d)); [|simpl in *; lia].
  repeat split.
  - intros ->. reflexivity.
  - intro Hd. destruct (Z.gtb_spec (le_sum d 20 4) 0); [reflexivity | lia].
Qed.

(** A [grouped_ex] body with timescale 30000 and duration [dur]. *)
Definition grouped_body (dur : byte) : bytes :=
  patch (patch (blank 176) 16 [x30; x75]) 20 [dur].

(** C4, as stated, fails: with duration 0 the emitted fps is the number 0. *)
Lemma fps_with_zero_duration_is_zero :
  exists rec,
    res (GoproMDBParser._parse_grouped_ex_data GoproMDBParser.init
                                               (grouped_body x00))
    = Ok (Some rec)
    /\ MdbGroupedEx.frame_rate_timescale rec = 30000
    /\ MdbGroupedEx.frame_rate_duration rec = 0
    /\ GoproMDBParser.gd_frame_rate_fps spec_float
         (GoproMDBParser.grouped_ex_to_dict
            spec_float PyFloat.truediv PyFloat.round_float rec)
       = GoproMDBParser.Int spec_float 0.
Proof.
  eexists. split; [vm_compute; reflexivity|].
  vm_compute. repeat split.
Qed.

Lemma grouped_ex_fps_witness :
  50 <= len (grouped_body x01)
  /\ exists rec,
      res (GoproMDBParser._parse_grouped_ex_data GoproMDBParser.init
                                                 (grouped_body x01))
      = Ok (Some rec)
      /\ GoproMDBParser.gd_frame_rate_fps spec_float
           (GoproMDBParser.grouped_ex_to_dict
              spec_float PyFloat.truediv PyFloat.round_float rec)
         = GoproMDBParser.Float spec_float
             (S754_finite false 8246337208320000 (-38)).
Proof.
  assert (H : 50 <= len (grouped_body x01)) by (vm_compute; discriminate).
  split; [exact H|].
  destruct (grouped_ex_fps spec_float PyFloat.truediv PyFloat.round_float
                           GoproMDBParser.init (grouped_body x01) H)
    as (rec & Hres & _ & _ & _ & Hpos).
  exists rec. split; [exact Hres|].
  rewrite Hpos; [vm_compute; reflexivity | vm_compute; reflexivity].
Defined.

(** ** Loops with pure bodies *)

Lemma for_each_pure {A S} (l : list A) (body : S -> A -> M S)
      (g : S -> A -> S) :
  (forall s a, In a l -> res (body s a) = Ok (g s a)) ->
  forall s, res (for_each l body s) = Ok (fold_left g l s).
Proof.
  induction l as [|a l IH]; intros Hb s; [reflexivity|].
  cbn [for_each fold_left].
  rewrite (res_bind_ok _ _ _ (Hb s a (or_introl eq_refl))).
  apply IH. intros s0 a0 Hin. apply Hb. now right.
Qed.

(** The first element on which [g] answers [Some]. *)
Fixpoint first_some {A R} (g : A -> option R) (l : list A) : option R :=
  match l with
  | [] => None
  | a :: r => match g a with
              | Some v => Some v
              | None => first_some g r
              end
  end.

Lemma for_first_pure {A R} (l : list A) (body : A -> M (option R))
      (g : A -> option R) :
  (forall a, In a l -> res (body a) = Ok (g a)) ->
  res (for_first l body) = Ok (first_some g l).
Proof.
  induction l as [|a l IH]; intro Hb; [reflexivity|].
  cbn [for_first first_some].
  rewrite (res_bind_ok _ _ _ (Hb a (or_introl eq_refl))).
  destruct (g a); [reflexivity|].
  apply IH. intros a0 Hin. apply Hb. now right.
Qed.

Lemma for_first_post {A R} (Q : R -> Prop) (l : list A)
      (body : A -> M (option R)) :
  (forall a, In a l ->
     exists o, res (body a) = Ok o /\ forall v, o = Some v -> Q v) ->
  exists o, res (for_first l body) = Ok o /\ forall v, o = Some v -> Q v.
Proof.
  induction l as [|a l IH]; intro Hb.
  - exists None. split; [reflexivity | discriminate].
  - destruct (Hb a (or_introl eq_refl)) as (o & E & HQ).
    cbn [for_first]. rewrite (res_bind_ok _ _ _ E).
    destruct o as [v|].
    + exists (Some v). split; [reflexivity | exact HQ].
    + apply IH. intros a0 Hin. apply Hb. now right.
Qed.

Lemma count_by_fold {A} (p : A -> bool) (l : list A) (v0 : Z) :
  fold_left (fun v a => if p a then v + 1 else v) l v0
  = v0 + len (filter p l).
Proof.
  revert v0. induction l as [|a l IH]; intro v0.
  - cbn. lia.
  - cbn [fold_left filter]. rewrite IH.
    destruct (p a); unfold len; cbn [List.length]; lia.
Qed.

(** ** Page size, as the parser detects it *)

(** A plausible page header at [offset], for the parser: a recognised kind
    and a small (or null) user value. *)
Definition header_plausible (d : bytes) (offset : Z) : bool :=
  mem (byte_val (nth_byte d offset) mod 16)
      [0; 1; 2; 3; 4; 5; 6; 7; 8; 10; 11; 12; 15]
  && ((uint_at 2 d (offset + 2) <? 0x100)
      || (uint_at 2 d (offset + 2) =? 0xFFFF)).

Definition plausible_headers (d : bytes) (ps : Z) : Z :=
  len (filter (header_plausible d) (range ps (Z.min (ps * 16) (len d)) ps)).

Lemma count_valid_res (self : GoproMDBParser.t) (ps : Z) :
  GoproMDBParser.file_size self = len (GoproMDBParser.data self) ->
  0 < ps ->
  res (GoproMDBParser.count_valid self ps)
  = Ok (plausible_headers (GoproMDBParser.data self) ps).
Proof.
  intros Hfs Hps. unfold GoproMDBParser.count_valid, plausible_headers.
  rewrite Hfs. set (d := GoproMDBParser.data self).
  rewrite (for_each_pure _ _
             (fun v o => if header_plausible d o then v + 1 else v)).
  - now rewrite count_by_fold.
  - intros v o Hin. apply in_range in Hin; [|lia].
    rewrite (res_bind_ok _ _ _ (getitem_res d o ltac:(lia))).
    cbv zeta. rewrite land_low4. unfold header_plausible.
    destruct (mem _ _); [|reflexivity].
    rewrite (res_bind_ok _ _ _ (_read_u16_res self (o + 2) ltac:(lia))).
    fold d. cbn [andb].
    destruct ((uint_at 2 d (o + 2) <? 256) || (uint_at 2 d (o + 2) =? 65535));
      reflexivity.
Qed.

(** The candidate the parser settles on: the first of 512, 1024, 256, 2048
    that fits four times in the file and shows at least three plausible
    headers. *)
Definition parser_candidate (d : bytes) (ps : Z) : option Z :=
  if (len d >=? ps * 4) && (plausible_headers d ps >=? 3)
  then Some ps else None.

Definition parser_page_size (d : bytes) : Z :=
  match first_some (parser_candidate d) [512; 1024; 256; 2048] with
  | Some ps => ps
  | None => 512
  end.

Lemma parser_detect_page_size_res (self : GoproMDBParser.t) :
  GoproMDBParser.file_size self = len (GoproMDBParser.data self) ->
  GoproMDBParser.page_size self = 0 ->
  res (GoproMDBParser._detect_page_size self)
  = Ok (GoproMDBParser.set_page_size
          (parser_page_size (GoproMDBParser.data self)) self).
Proof.
  intros Hfs Hps0. unfold GoproMDBParser._detect_page_size.
  rewrite (res_bind_ok _ _ (first_some (parser_candidate (GoproMDBParser.data self))
                                       [512; 1024; 256; 2048])).
  - unfold parser_page_size.
    destruct (first_some _ _) as [ps|] eqn:E.
    + assert (Hne : ps <> 0).
      { cbn in E. unfold parser_candidate in E.
        repeat match type of E with
               | context [if ?c then _ else _] => destruct c
               end; try discriminate; injection E as <-; lia. }
      replace (GoproMDBParser.page_size (GoproMDBParser.set_page_size ps self))
        with ps by reflexivity.
      destruct (Z.eqb_spec ps 0); [contradiction | reflexivity].
    + rewrite Hps0. reflexivity.
  - apply for_first_pure. intros ps Hin.
    assert (Hpos : 0 < ps) by (cbn in Hin; lia).
    unfold parser_candidate. rewrite Hfs.
    destruct (len (GoproMDBParser.data self) >=? ps * 4); [|reflexivity].
    rewrite (res_bind_ok _ _ _ (count_valid_res self ps Hfs Hpos)).
    cbn [andb]. destruct (_ >=? 3); reflexivity.
Qed.

Lemma parser_page_size_values (d : bytes) :
  In (parser_page_size d) [256; 512; 1024; 2048].
Proof.
  unfold parser_page_size. cbn [first_some]. unfold parser_candidate.
  repeat match goal with
         | |- context [if ?c then _ else _] => destruct c
         end; cbn; auto.
Qed.

(** ** The entry point *)

(** Two parser states that agree on everything the record scan reads or
    writes. *)
Definition same_input (s s' : GoproMDBParser.t) : Prop :=
  GoproMDBParser.data s' = GoproMDBParser.data s
  /\ GoproMDBParser.file_size s' = GoproMDBParser.file_size s
  /\ GoproMDBParser.raw_records s' = GoproMDBParser.raw_records s
  /\ GoproMDBParser.singles_ex s' = GoproMDBParser.singles_ex s
  /\ GoproMDBParser.grouped_ex s' = GoproMDBParser.grouped_ex s
  /\ GoproMDBParser.schema_version s' = GoproMDBParser.schema_version s.

Lemma same_input_refl s : same_input s s.
Proof. repeat split. Qed.

Lemma same_input_trans s1 s2 s3 :
  same_input s1 s2 -> same_input s2 s3 -> same_input s1 s3.
Proof.
  unfold same_input. intros (A1 & A2 & A3 & A4 & A5 & A6)
                            (B1 & B2 & B3 & B4 & B5 & B6).
  repeat split; congruence.
Qed.

Lemma same_input_set_version v1 v2 v3 o s :
  same_input s (GoproMDBParser.set_version v1 v2 v3 o s).
Proof. repeat split. Qed.

Lemma version_triple_res (self : GoproMDBParser.t) (o : Z)
      (accept : Z -> Z -> Z -> bool) :
  0 <= o ->
  exists r,
    res (v1 <- GoproMDBParser._read_u16 self o ;;
         v2 <- GoproMDBParser._read_u16 self (o + 2) ;;
         v3 <- GoproMDBParser._read_u16 self (o + 4) ;;
         if accept v1 v2 v3
         then ret (Some (GoproMDBParser.set_version v1 v2 v3 o self))
         else ret None) = Ok r
    /\ forall s', r = Some s' -> same_input self s'.
Proof.
  intro Ho.
  rewrite (res_bind_ok _ _ _ (_read_u16_res self o Ho)).
  rewrite (res_bind_ok _ _ _ (_read_u16_res self (o + 2) ltac:(lia))).
  rewrite (res_bind_ok _ _ _ (_read_u16_res self (o + 4) ltac:(lia))).
  destruct (accept _ _ _).
  - eexists. split; [reflexivity|].
    intros s' E. injection E as <-. apply same_input_set_version.
  - exists None. split; [reflexivity | discriminate].
Qed.

Lemma parse_mco_version_total (self : GoproMDBParser.t) :
  0 < GoproMDBParser.page_size self ->
  exists s', res (GoproMDBParser._parse_mco_version self) = Ok s'
             /\ same_input self s'.
Proof.
  intro Hps. unfold GoproMDBParser._parse_mco_version.
  destruct (for_first_post (fun _ : Z => True)
              (range 0x800 (Z.min 0x3000 (GoproMDBParser.file_size self))
                     (GoproMDBParser.page_size self))
              (fun offset =>
                 if offset <? len (GoproMDBParser.data self) then
                   b0 <- getitem (GoproMDBParser.data self) offset ;;
                   let kind := Z.land b0 0x0F in
                   if kind =? 4
                   then ret (Some (Z.max 0x0C00 (offset - 0x1400)))
                   else ret None
                 else ret None)) as (found & Ef & _).
  { intros o Hin. apply in_range in Hin; [|assumption].
    destruct (Z.ltb_spec o (len (GoproMDBParser.data self))).
    - rewrite (res_bind_ok _ _ _
                 (getitem_res (GoproMDBParser.data self) o ltac:(lia))).
      cbv zeta. destruct (_ =? 4); eexists; (split; [reflexivity | trivial]).
    - exists None. split; [reflexivity | trivial]. }
  rewrite (res_bind_ok _ _ _ Ef). cbv zeta.
  set (self1 := match found with
                | Some o => GoproMDBParser.set_dictionary_offset o self
                | None => self
                end).
  set (self2 := if GoproMDBParser.dictionary_offset self1 =? 0
                then GoproMDBParser.set_dictionary_offset 0x0C10 self1
                else self1).
  assert (H12 : same_input self self2).
  { subst self2 self1. destruct found;
      destruct (_ =? 0); repeat split. }
  assert (Hearly : exists r,
             res (if GoproMDBParser.file_size self2 >? 0x0C16 then
                    v1 <- GoproMDBParser._read_u16 self2 0x0C10 ;;
                    v2 <- GoproMDBParser._read_u16 self2 0x0C12 ;;
                    v3 <- GoproMDBParser._read_u16 self2 0x0C14 ;;
                    if (1 <=? v1) && (v1 <=? 15) && (v2 <=? 99) && (v3 <? 10000)
                    then ret (Some (GoproMDBParser.set_version
                                      v1 v2 v3 0x0C10 self2))
                    else ret None
                  else ret None) = Ok r
             /\ forall s', r = Some s' -> same_input self2 s').
  { destruct (_ >? _).
    - apply (version_triple_res self2 0x0C10
               (fun v1 v2 v3 =>
                  (1 <=? v1) && (v1 <=? 15) && (v2 <=? 99) && (v3 <? 10000))).
      lia.
    - exists None. split; [reflexivity | discriminate]. }
  destruct Hearly as (early & Ee & He).
  rewrite (res_bind_ok _ _ _ Ee).
  destruct early as [s'|].
  - exists s'. split; [reflexivity|].
    eapply same_input_trans; [exact H12 | now apply He].
  - destruct (for_first_post (same_input self2)
                (range 0x0C00
                       (Z.min 0x1000 (GoproMDBParser.file_size self2 - 6)) 2)
                (fun offset =>
                   v1 <- GoproMDBParser._read_u16 self2 offset ;;
                   v2 <- GoproMDBParser._read_u16 self2 (offset + 2) ;;
                   v3 <- GoproMDBParser._read_u16 self2 (offset + 4) ;;
                   if (5 <=? v1) && (v1 <=? 10) && (v2 <=? 10)
                      && (1000 <=? v3) && (v3 <? 3000)
                   then ret (Some (GoproMDBParser.set_version
                                     v1 v2 v3 offset self2))
                   else ret None)) as (r & Er & Hr).
    { intros o Hin. apply in_range in Hin; [|lia].
      apply (version_triple_res self2 o
               (fun v1 v2 v3 =>
                  (5 <=? v1) && (v1 <=? 10) && (v2 <=? 10)
                  && (1000 <=? v3) && (v3 <? 3000))).
      lia. }
    rewrite (res_bind_ok _ _ _ Er).
    destruct r as [s'|].
    + exists s'. split; [reflexivity|].
      eapply same_input_trans; [exact H12 | now apply Hr].
    + exists self2. split; [reflexivity | exact H12].
Qed.

Lemma parse_config_block_total (self : GoproMDBParser.t) :
  GoproMDBParser.file_size self = len (GoproMDBParser.data self) ->
  GoproMDBParser.page_size self = 0 ->
  exists s', res (GoproMDBParser._parse_config_block self) = Ok s'
             /\ same_input self s'.
Proof.
  intros Hfs Hps. unfold GoproMDBParser._parse_config_block. cbv zeta.
  set (first_ :=
         if len (slice (GoproMDBParser.data self) HEADER_SIZE
                       (HEADER_SIZE + 256)) >=? 8
         then
           major <- GoproMDBParser._read_u16 self HEADER_SIZE ;;
           minor <- GoproMDBParser._read_u16 self (HEADER_SIZE + 2) ;;
           ret (GoproMDBParser.set_db_version (DbVersion.mk minor major) self)
         else ret self).
  assert (H1 : exists s1, res first_ = Ok s1 /\ same_input self s1
                          /\ GoproMDBParser.page_size s1 = 0).
  { subst first_. destruct (_ >=? 8).
    - rewrite (res_bind_ok _ _ _
                 (_read_u16_res self HEADER_SIZE ltac:(unfold HEADER_SIZE; lia))).
      rewrite (res_bind_ok _ _ _
                 (_read_u16_res self (HEADER_SIZE + 2)
                                ltac:(unfold HEADER_SIZE; lia))).
      eexists. split; [reflexivity|]. split; [repeat split | exact Hps].
    - exists self. split; [reflexivity|]. split; [apply same_input_refl|].
      exact Hps. }
  destruct H1 as (s1 & E1 & S1 & P1).
  rewrite (res_bind_ok _ _ _ E1).
  assert (Hfs1 : GoproMDBParser.file_size s1 = len (GoproMDBParser.data s1)).
  { destruct S1 as (A & B & _). congruence. }
  rewrite (res_bind_ok _ _ _ (parser_detect_page_size_res s1 Hfs1 P1)).
  set (s2 := GoproMDBParser.set_page_size
               (parser_page_size (GoproMDBParser.data s1)) s1).
  destruct (parse_mco_version_total s2) as (s3 & E3 & S3).
  { subst s2. cbn [GoproMDBParser.set_page_size GoproMDBParser.page_size].
    pose proof (parser_page_size_values (GoproMDBParser.data s1)) as Hv.
    cbn in Hv. lia. }
  exists s3. split; [exact E3|].
  eapply same_input_trans; [exact S1|].
  eapply same_input_trans; [|exact S3].
  subst s2. repeat split.
Qed.

Lemma find_and_parse_records_total (self : GoproMDBParser.t) :
  GoproMDBParser.file_size self = len (GoproMDBParser.data self) ->
  GoproMDBParser.raw_records self = [] ->
  exists s', res (GoproMDBParser._find_and_parse_records self) = Ok s'.
Proof.
  intros Hfs Hraw.
  unfold GoproMDBParser._find_and_parse_records. cbv zeta.
  rewrite (res_bind_ok _ _ _ (scan_for_records_res self Hfs)).
  rewrite Hraw. cbn [app].
  unfold GoproMDBParser.set_raw_records at 1.
  cbn [GoproMDBParser.raw_records].
  rewrite parse_raw_records_res.
  - eexists. reflexivity.
  - intros [h body] Hin. cbn [snd].
    apply accepted_records_shape in Hin; [lia|].
    intros s Hs. apply in_range in Hs; lia.
Qed.

(** The state [parse] works on once the file is read, the header checked
    and the schema detected. *)
Definition loaded (content : bytes) : GoproMDBParser.t :=
  GoproMDBParser._detect_schema
    (GoproMDBParser._parse_header
       (GoproMDBParser.set_file_size (len content)
          (GoproMDBParser.set_data content GoproMDBParser.init))).

Lemma loaded_fresh (content : bytes) :
  GoproMDBParser.data (loaded content) = content
  /\ GoproMDBParser.file_size (loaded content) = len content
  /\ GoproMDBParser.page_size (loaded content) = 0
  /\ GoproMDBParser.raw_records (loaded content) = []
  /\ GoproMDBParser.singles_ex (loaded content) = []
  /\ GoproMDBParser.grouped_ex (loaded content) = [].
Proof.
  unfold loaded, GoproMDBParser._detect_schema, GoproMDBParser._parse_header.
  cbv zeta.
  repeat match goal with
         | |- context [if ?c then _ else _] => destruct c
         end; repeat split.
Qed.

Lemma loaded_schema (content : bytes) :
  GoproMDBParser.schema_version (loaded content)
  = (if contains (b "camera_model") content
     then (if contains (b "vmoment") content then "hero11+" else "hero9-10")
     else (if contains (b "vtag") content then "hero5-8" else "legacy"))%string.
Proof.
  unfold loaded, GoproMDBParser._detect_schema, GoproMDBParser._parse_header.
  cbv zeta.
  replace (GoproMDBParser.data
             (GoproMDBParser.set_header_valid
                (GoproMDBParser.bytes_eqb
                   (slice
                      (GoproMDBParser.data
                         (GoproMDBParser.set_file_size (len content)
                            (GoproMDBParser.set_data content GoproMDBParser.init)))
                      0 12)
                   GoproMDBParser.expected_magic)
                (GoproMDBParser.set_file_size (len content)
                   (GoproMDBParser.set_data content GoproMDBParser.init))))
    with content by reflexivity.
  destruct (contains (b "camera_model") content);
    [destruct (contains (b "vmoment") content)
    | destruct (contains (b "vtag") content)]; reflexivity.
Qed.

(** What [parse] decodes from a file of at least 0x500 bytes: the schema
    follows from the three dictionary probes, the raw records are the
    accepted slots, and the two record lists are their decodings. *)
Lemma parse_result (content : bytes) :
  0x500 <= len content ->
  let schema := GoproMDBParser.schema_version (loaded content) in
  let recs :=
    accepted_records schema content (range 0x2C00 (len content - 128) 128) in
  exists st,
    res (GoproMDBParser.parse content GoproMDBParser.init) = Ok (true, st)
    /\ GoproMDBParser.schema_version st = schema
    /\ GoproMDBParser.raw_records st = recs
    /\ GoproMDBParser.singles_ex st = singles_of recs
    /\ GoproMDBParser.grouped_ex st = grouped_of recs.
Proof.
  intros Hlen schema recs.
  unfold GoproMDBParser.parse. cbv zeta.
  replace (GoproMDBParser.file_size
             (GoproMDBParser.set_file_size
                (len (GoproMDBParser.data
                        (GoproMDBParser.set_data content GoproMDBParser.init)))
                (GoproMDBParser.set_data content GoproMDBParser.init)))
    with (len content) by reflexivity.
  unfold HEADER_SIZE.
  destruct (Z.ltb_spec (len content) (1024 + 256)); [lia|].
  fold (loaded content).
  destruct (loaded_fresh content) as (Hd & Hf & Hp & Hr & Hsi & Hg).
  destruct (parse_config_block_total (loaded content)) as (s1 & E1 & S1);
    [congruence | exact Hp |].
  rewrite (res_bind_ok _ _ _ E1).
  destruct S1 as (A1 & A2 & A3 & A4 & A5 & A6).
  assert (Hfs1 : GoproMDBParser.file_size s1 = len (GoproMDBParser.data s1))
    by congruence.
  unfold GoproMDBParser._find_and_parse_records. cbv zeta.
  rewrite !res_bind, (scan_for_records_res s1 Hfs1).
  rewrite A3, Hr, A6, A1, Hd, A2, Hf. cbn [app]. fold schema. fold recs.
  unfold GoproMDBParser.set_raw_records at 1.
  cbn [GoproMDBParser.raw_records].
  rewrite parse_raw_records_res.
  2:{ intros [h body] Hin. cbn [snd].
      apply accepted_records_shape in Hin; [lia|].
      intros s Hs. apply in_range in Hs; lia. }
  eexists. split; [reflexivity|].
  cbn [GoproMDBParser.set_raw_records GoproMDBParser.set_grouped_ex
       GoproMDBParser.set_singles_ex GoproMDBParser.raw_records
       GoproMDBParser.schema_version
       GoproMDBParser.singles_ex GoproMDBParser.grouped_ex].
  rewrite A4, A5, A6, Hsi, Hg. repeat split.
Qed.

(** C1, as stated, fails: a Hero11 slot whose record size is 154 = 134 + 20
    meets every condition of the claim, is visited by the scanner, and is
    rejected; with 153 it is accepted. *)
Lemma slot_size_off_by_20_rejected :
  let d := hero11_file x9a in
  In 0x2C00 (range 0x2C00 (len d - 128) 128)
  /\ slot_kind_lo d 0x2C00 = 0
  /\ slot_table_id d 0x2C00 = 3
  /\ slot_rec_size d 0x2C00 = 154
  /\ Z.abs (slot_rec_size d 0x2C00 - 134) = 20
  /\ (exists st,
        res (GoproMDBParser.parse d GoproMDBParser.init) = Ok (true, st)
        /\ GoproMDBParser.schema_version st = "hero11+"%string
        /\ GoproMDBParser.raw_records st = []
        /\ GoproMDBParser.singles_ex st = [])
  /\ (exists st,
        res (GoproMDBParser.parse (hero11_file x99) GoproMDBParser.init)
        = Ok (true, st)
        /\ GoproMDBParser.schema_version st = "hero11+"%string
        /\ len (GoproMDBParser.raw_records st) = 1).
Proof.
  intro d.
  split; [vm_compute; auto|].
  do 4 (split; [vm_compute; reflexivity|]).
  split.
  - destruct (parse_result d) as (st & E & Hs & Hr & Hsi & _);
      [vm_compute; discriminate|].
    exists st. split; [exact E|].
    rewrite Hs, Hsi, Hr. vm_compute. repeat split.
  - destruct (parse_result (hero11_file x99)) as (st & E & Hs & Hr & _);
      [vm_compute; discriminate|].
    exists st. split; [exact E|].
    rewrite Hs, Hr. vm_compute. repeat split.
Qed.



(** C6.  [parse] answers [False] exactly when the file is shorter than
    0x500 bytes: then nothing is decoded and the command line exits with
    code 1; on every file of at least 0x500 bytes it answers [True]. *)
Theorem parse_refuses_only_short_files (content : bytes) :
  exists st,
    res (GoproMDBParser.parse content GoproMDBParser.init)
    = Ok (0x500 <=? len content, st)
    /\ res (GoproMDBParser.main_parse content)
       = Ok (if 0x500 <=? len content then None else Some 1, st)
    /\ (len content < 0x500 ->
        GoproMDBParser.raw_records st = []
        /\ GoproMDBParser.singles_ex st = []
        /\ GoproMDBParser.grouped_ex st = []).
Proof.
  assert (Hparse : exists st,
             res (GoproMDBParser.parse content GoproMDBParser.init)
             = Ok (0x500 <=? len content, st)
             /\ (len content < 0x500 ->
                 GoproMDBParser.raw_records st = []
                 /\ GoproMDBParser.singles_ex st = []
                 /\ GoproMDBParser.grouped_ex st = [])).
  { unfold GoproMDBParser.parse. cbv zeta.
    replace (GoproMDBParser.file_size
               (GoproMDBParser.set_file_size
                  (len (GoproMDBParser.data
                          (GoproMDBParser.set_data content GoproMDBParser.init)))
                  (GoproMDBParser.set_data content GoproMDBParser.init)))
      with (len content) by reflexivity.
    unfold HEADER_SIZE.
    destruct (Z.ltb_spec (len content) (1024 + 256));
      destruct (Z.leb_spec 1280 (len content)); try lia.
    - eexists. split; [reflexivity|]. intros _. repeat split.
    - fold (loaded content).
      destruct (loaded_fresh content) as (Hd & Hf & Hp & Hr & _).
      destruct (parse_config_block_total (loaded content)) as (s1 & E1 & S1);
        [congruence | exact Hp |].
      rewrite (res_bind_ok _ _ _ E1).
      destruct S1 as (A1 & A2 & A3 & _).
      destruct (find_and_parse_records_total s1) as (s2 & E2);
        [congruence | congruence |].
      rewrite (res_bind_ok _ _ _ E2).
      exists s2. split; [reflexivity | lia]. }
  destruct Hparse as (st & E & Hsmall).
  exists st. split; [exact E|]. split; [|exact Hsmall].
  unfold GoproMDBParser.main_parse.
  rewrite (res_bind_ok _ _ _ E).
  destruct (0x500 <=? len content); reflexivity.
Qed.

Lemma parse_refuses_only_short_files_witness :
  exists st,
    res (GoproMDBParser.parse (blank 100) GoproMDBParser.init) = Ok (false, st)
    /\ res (GoproMDBParser.main_parse (blank 100)) = Ok (Some 1, st)
    /\ GoproMDBParser.singles_ex st = []
    /\ GoproMDBParser.grouped_ex st = [].
Proof.
  destruct (parse_refuses_only_short_files (blank 100)) as (st & E & Em & Hs).
  exists st. split; [exact E|]. split; [exact Em|].
  destruct Hs as (_ & H1 & H2); [vm_compute; reflexivity|].
  split; assumption.
Defined.

(** ** Page size, as the page analyzer detects it *)

(** The header [MCOPageHeader.from_bytes] builds. *)
Definition header_of (data : bytes) : MCOPageHeader.t :=
  if len data <? 8 then MCOPageHeader.default
  else MCOPageHeader.mk (byte_val (nth_byte data 0))
                        (byte_val (nth_byte data 1))
                        (le_sum data 2 2)
                        (slice data 4 8).

Lemma from_bytes_res (data : bytes) :
  res (MCOPageHeader.from_bytes data) = Ok (header_of data).
Proof.
  unfold MCOPageHeader.from_bytes, header_of.
  destruct (Z.ltb_spec (len data) 8); [reflexivity|].
  rewrite (res_bind_ok _ _ _ (getitem_res data 0 ltac:(lia))).
  rewrite (res_bind_ok _ _ _ (getitem_res data 1 ltac:(lia))).
  unfold unpack_H. rewrite unpack_uint_ok by (simpl; lia).
  reflexivity.
Qed.

(** A probe that counts as valid. *)
Definition probe_valid (d : bytes) (offset : Z) : bool :=
  let h := header_of (slice d offset (offset + 8)) in
  let raw_kind := MCOPageHeader.kind h in
  (mem (MCOPageHeader.page_type h) [0; 1; 2; 3; 4; 5; 6; 7; 8; 10; 11; 12; 15]
   && (mem (Z.land raw_kind 0xF0) [0x00; 0x10; 0x20; 0x30]
       || (raw_kind =? 0xFF))
   && ((MCOPageHeader.user h <? 0x100) || (MCOPageHeader.user h =? 0xFFFF)))
  || ((raw_kind =? 0xFF) || (raw_kind =? 0x00)).

Definition count_probe (d : bytes) (counts : Z * Z) (offset : Z) : Z * Z :=
  if probe_valid d offset
  then (fst counts + 1, snd counts)
  else (fst counts, snd counts + 1).

Lemma probe_res (self : MCOPageAnalyzer.t) (counts : Z * Z) (offset : Z) :
  res (MCOPageAnalyzer.probe self counts offset)
  = Ok (count_probe (MCOPageAnalyzer.data self) counts offset).
Proof.
  destruct counts as [v i]. unfold MCOPageAnalyzer.probe.
  rewrite (res_bind_ok _ _ _ (from_bytes_res _)). cbv zeta.
  unfold count_probe, probe_valid. cbv zeta. cbn [fst snd].
  destruct (_ && _ && _); [reflexivity|].
  cbn [orb]. destruct (_ || _); reflexivity.
Qed.

Lemma count_probe_fold (d : bytes) (l : list Z) (v i : Z) :
  fold_left (count_probe d) l (v, i)
  = (v + len (filter (probe_valid d) l),
     i + len (filter (fun o => negb (probe_valid d o)) l)).
Proof.
  revert v i. induction l as [|o l IH]; intros v i.
  - cbn. f_equal; lia.
  - cbn [fold_left filter]. unfold count_probe at 2. cbn [fst snd].
    destruct (probe_valid d o); cbn [negb]; rewrite IH;
      unfold len; cbn [List.length]; f_equal; lia.
Qed.

(** The score of a candidate: valid probes minus invalid probes, the probes
    being the multiples of [ps] from [ps] up to 20 pages or the end of the
    file. *)
Definition probes (fs ps : Z) : list Z := range ps (Z.min (ps * 20) fs) ps.

Definition probe_score (d : bytes) (fs ps : Z) : Z :=
  len (filter (probe_valid d) (probes fs ps))
  - len (filter (fun o => negb (probe_valid d o)) (probes fs ps)).

Lemma page_score_res (self : MCOPageAnalyzer.t) (ps : Z) :
  res (MCOPageAnalyzer.page_score self ps)
  = Ok (probe_score (MCOPageAnalyzer.data self)
                    (MCOPageAnalyzer.file_size self) ps).
Proof.
  unfold MCOPageAnalyzer.page_score.
  rewrite (res_bind_ok _ _ _
             (for_each_pure _ _ (count_probe (MCOPageAnalyzer.data self))
                            (fun s a _ => probe_res self s a) (0, 0))).
  rewrite count_probe_fold. reflexivity.
Qed.

(** The candidate loop, with the scores known. *)
Definition keep_best (fs : Z) (score : Z -> Z) (best : Z * Z) (ps : Z)
  : Z * Z :=
  if fs >=? ps * 4
  then (if score ps >? snd best then (ps, score ps) else best)
  else best.

Lemma keep_best_spec (fs : Z) (score : Z -> Z) (l : list Z) :
  forall bp bs,
    let r := fold_left (keep_best fs score) l (bp, bs) in
    (r = (bp, bs)
     /\ forall ps, In ps l -> fs >= ps * 4 -> score ps <= bs)
    \/ (exists l1 l2,
          l = l1 ++ fst r :: l2
          /\ fs >= fst r * 4
          /\ snd r = score (fst r)
          /\ score (fst r) > bs
          /\ (forall ps, In ps l1 -> fs >= ps * 4 -> score ps < score (fst r))
          /\ (forall ps, In ps l2 -> fs >= ps * 4 -> score ps <= score (fst r))).
Proof.
  induction l as [|a l IH]; intros bp bs; cbv zeta.
  - left. split; [reflexivity | intros ps []].
  - cbn [fold_left].
    assert (Hstep :
              (keep_best fs score (bp, bs) a = (a, score a)
               /\ fs >= a * 4 /\ score a > bs)
              \/ (keep_best fs score (bp, bs) a = (bp, bs)
                  /\ (fs >= a * 4 -> score a <= bs))).
    { unfold keep_best. cbn [snd].
      destruct (Z.geb_spec fs (a * 4)); [|right; split; [reflexivity | lia]].
      destruct (Z.gtb_spec (score a) bs);
        [left | right]; repeat split; lia. }
    destruct Hstep as [(-> & Ha & Hs) | (-> & Ha)].
    + pose proof (IH a (score a)) as IH'. cbv zeta in IH'.
      destruct IH' as [[E Hall] | (l1 & l2 & E & He & Hsc & Hgt & H1 & H2)].
      * right. exists [], l. rewrite E. cbn [fst snd app].
        repeat split; try lia.
        -- intros ps [].
        -- exact Hall.
      * right. exists (a :: l1), l2.
        repeat split; try lia.
        -- cbn [app]. now f_equal.
        -- intros ps [<- | Hin] Hf; [lia | now apply H1].
        -- exact H2.
    + pose proof (IH bp bs) as IH'. cbv zeta in IH'.
      destruct IH' as [[E Hall] | (l1 & l2 & E & He & Hsc & Hgt & H1 & H2)].
      * left. split; [exact E|].
        intros ps [<- | Hin] Hf; [now apply Ha | now apply Hall].
      * right. exists (a :: l1), l2.
        repeat split; try lia.
        -- cbn [app]. now f_equal.
        -- intros ps [<- | Hin] Hf; [specialize (Ha Hf); lia | now apply H1].
        -- exact H2.
Qed.

Lemma try_candidate_res (self : MCOPageAnalyzer.t) (best : Z * Z) (ps : Z) :
  res (MCOPageAnalyzer.try_candidate self best ps)
  = Ok (keep_best (MCOPageAnalyzer.file_size self)
                  (probe_score (MCOPageAnalyzer.data self)
                               (MCOPageAnalyzer.file_size self))
                  best ps).
Proof.
  destruct best as [bp bs]. unfold MCOPageAnalyzer.try_candidate, keep_best.
  destruct (_ >=? _); [|reflexivity].
  rewrite (res_bind_ok _ _ _ (page_score_res self ps)). cbn [snd].
  destruct (_ >? _); reflexivity.
Qed.

Definition analyzer_page_size (d : bytes) (fs : Z) : Z :=
  fst (fold_left (keep_best fs (probe_score d fs))
                 MCOPageAnalyzer.COMMON_PAGE_SIZES (1024, 0)).

Lemma analyzer_detect_page_size_res (self : MCOPageAnalyzer.t) :
  exists self',
    res (MCOPageAnalyzer._detect_page_size self) = Ok self'
    /\ MCOPageAnalyzer.page_size self'
       = analyzer_page_size (MCOPageAnalyzer.data self)
                            (MCOPageAnalyzer.file_size self)
    /\ MCOPageAnalyzer.data self' = MCOPageAnalyzer.data self
    /\ MCOPageAnalyzer.file_size self' = MCOPageAnalyzer.file_size self.
Proof.
  unfold MCOPageAnalyzer._detect_page_size.
  rewrite (res_bind_ok _ _ _
             (for_each_pure _ _ _ (fun s a _ => try_candidate_res self s a)
                            (1024, 0))).
  eexists. split; [reflexivity|]. repeat split.
Qed.

(** C3 (amended).  The page analyzer returns a member of
    {256, 512, 1024, 2048, 4096}: 1024 when no candidate that fits four
    times into the file scores positively, and otherwise the candidate of
    that kind with the highest (valid - invalid) probe score, the earliest
    listed among equals.  The parser has its own detection: it returns a
    member of {256, 512, 1024, 2048}, the first of 512, 1024, 256, 2048
    that fits four times into the file and shows at least three plausible
    headers, and 512 when there is none. *)
Theorem detect_page_size_choice
        (self : MCOPageAnalyzer.t) (p : GoproMDBParser.t) :
  let fs := MCOPageAnalyzer.file_size self in
  let score := probe_score (MCOPageAnalyzer.data self) fs in
  (forall ps, res (MCOPageAnalyzer.page_score self ps) = Ok (score ps))
  /\ (exists self',
        res (MCOPageAnalyzer._detect_page_size self) = Ok self'
        /\ let r := MCOPageAnalyzer.page_size self' in
           In r [256; 512; 1024; 2048; 4096]
           /\ ((r = 1024
                /\ forall ps, In ps MCOPageAnalyzer.COMMON_PAGE_SIZES ->
                              fs >= ps * 4 -> score ps <= 0)
               \/ (exists before after,
                     MCOPageAnalyzer.COMMON_PAGE_SIZES = before ++ r :: after
                     /\ fs >= r * 4
                     /\ score r > 0
                     /\ (forall ps, In ps before -> fs >= ps * 4 ->
                                    score ps < score r)
                     /\ (forall ps, In ps after -> fs >= ps * 4 ->
                                    score ps <= score r))))
  /\ (GoproMDBParser.file_size p = len (GoproMDBParser.data p) ->
      GoproMDBParser.page_size p = 0 ->
      exists p',
        res (GoproMDBParser._detect_page_size p) = Ok p'
        /\ In (GoproMDBParser.page_size p') [256; 512; 1024; 2048]
        /\ GoproMDBParser.page_size p'
           = parser_page_size (GoproMDBParser.data p)).
Proof.
  intros fs score.
  split; [intro ps; apply page_score_res|].
  split.
  - destruct (analyzer_detect_page_size_res self) as (self' & E & Hps & _).
    exists self'. split; [exact E|]. cbv zeta. rewrite Hps.
    unfold analyzer_page_size. fold fs. fold score.
    pose proof (keep_best_spec fs score MCOPageAnalyzer.COMMON_PAGE_SIZES
                               1024 0) as H.
    cbv zeta in H.
    destruct H as [[Er Hall] | (l1 & l2 & El & He & Hsc & Hgt & H1 & H2)].
    + rewrite Er. cbn [fst]. split; [cbn; tauto|].
      left. split; [reflexivity | exact Hall].
    + split.
      * change [256; 512; 1024; 2048; 4096]
          with MCOPageAnalyzer.COMMON_PAGE_SIZES.
        rewrite El at 2. apply in_elt.
      * right. exists l1, l2. repeat split; assumption.
  - intros Hfs Hp0. eexists.
    split; [apply parser_detect_page_size_res; assumption|].
    split; [apply parser_page_size_values | reflexivity].
Qed.

(** A file of four 4096-byte blocks, each a zero byte followed by bytes
    0x09: only the multiples of 4096 carry a plausible page header. *)
Definition sparse_file : bytes :=
  List.concat (repeat (x00 :: repeat x09 (Z.to_nat 4095)) 4).

(** A file of 0x500 bytes 0x09: no offset carries a plausible header. *)
Definition noise_file : bytes := repeat x09 (Z.to_nat 0x500).

Definition analyzer_page_size_of (content : bytes) : option Z :=
  match res (MCOPageAnalyzer.analyze content MCOPageAnalyzer.init) with
  | Ok (true, st) => Some (MCOPageAnalyzer.page_size st)
  | _ => None
  end.

Definition parser_page_size_of (content : bytes) : option Z :=
  match res (GoproMDBParser.parse content GoproMDBParser.init) with
  | Ok (true, st) => Some (GoproMDBParser.page_size st)
  | _ => None
  end.

(** C3, as stated, fails: the analyzer answers 4096, outside
    {256, 512, 1024, 2048}, on [sparse_file]; and the parser answers 512,
    not 1024, on [noise_file], where no candidate has a single valid probe
    (no score is positive). *)
Lemma page_size_outside_the_claim :
  analyzer_page_size_of sparse_file = Some 4096
  /\ parser_page_size_of noise_file = Some 512
  /\ map (probe_score noise_file (len noise_file)) [256; 512; 1024; 2048]
     = [-4; -2; -1; 0]
  /\ map (plausible_headers noise_file) [256; 512; 1024; 2048]
     = [0; 0; 0; 0].
Proof.
  vm_compute. repeat split.
Qed.

Lemma detect_page_size_choice_witness :
  let self :=
    MCOPageAnalyzer.mk sparse_file (len sparse_file) 0 []
                       MCODatabaseInfo.default [] in
  let p :=
    GoproMDBParser.set_file_size (len noise_file)
      (GoproMDBParser.set_data noise_file GoproMDBParser.init) in
  (exists self',
     res (MCOPageAnalyzer._detect_page_size self) = Ok self'
     /\ In (MCOPageAnalyzer.page_size self') [256; 512; 1024; 2048; 4096])
  /\ GoproMDBParser.file_size p = len (GoproMDBParser.data p)
  /\ GoproMDBParser.page_size p = 0
  /\ exists p',
      res (GoproMDBParser._detect_page_size p) = Ok p'
      /\ GoproMDBParser.page_size p' = 512.
Proof.
  intros self p.
  assert (H1 : GoproMDBParser.file_size p = len (GoproMDBParser.data p))
    by reflexivity.
  assert (H2 : GoproMDBParser.page_size p = 0) by reflexivity.
  destruct (detect_page_size_choice self p)
    as (_ & (self' & E & Hin & _) & Hp).
  split; [exists self'; split; assumption|].
  split; [exact H1|]. split; [exact H2|].
  destruct (Hp H1 H2) as (p' & E' & _ & Hv).
  exists p'. split; [exact E'|].
  rewrite Hv. vm_compute. reflexivity.
Defined.

(** ** Diagnostics *)

Lemma identify_unknowns_fold (l : list MCOPage.t) (self : MCOPageAnalyzer.t) :
  MCOPageAnalyzer.unknowns
    (fold_left
       (fun self page =>
          MCOPageAnalyzer.set_unknowns
            (MCOPageAnalyzer.unknowns self
             ++ MCOPageAnalyzer.page_unknowns page) self)
       l self)
  = MCOPageAnalyzer.unknowns self
    ++ flat_map MCOPageAnalyzer.page_unknowns l.
Proof.
  revert self. induction l as [|p l IH]; intro self.
  - cbn. now rewrite app_nil_r.
  - cbn [fold_left flat_map]. rewrite IH.
    cbn [MCOPageAnalyzer.set_unknowns MCOPageAnalyzer.unknowns].
    now rewrite app_assoc.
Qed.

Lemma low4_cases (v : Z) :
  In (Z.land v 0x0F) [0; 1; 2; 3; 4; 5; 6; 7; 8; 9; 10; 11; 12; 13; 14; 15].
Proof.
  rewrite land_low4.
  pose proof (Z.mod_pos_bound v 16 ltac:(lia)) as H.
  cbn [In]. lia.
Qed.

Lemma flags_mask (v : Z) : Z.land (Z.land v 0xF0) 0xC0 = Z.land v 0xC0.
Proof. now rewrite <- Z.land_assoc. Qed.

(** The kind of anomaly an entry reports. *)
Definition is_unknown_kind (u : MCOPageAnalyzer.unknown) : bool :=
  match u with
  | MCOPageAnalyzer.unknown_page_kind _ _ _ _ => true
  | MCOPageAnalyzer.unusual_flags _ _ _ => false
  end.

Definition is_unusual_flags (u : MCOPageAnalyzer.unknown) : bool :=
  negb (is_unknown_kind u).

(** C5 (amended).  The diagnostics list is the concatenation, in page
    order, of what each scanned page contributes.  A page contributes an
    unknown-page-kind entry if and only if its kind_lo is outside the known
    set {0..8, 10, 11, 12, 15}, that is, if and only if kind_lo is 9, 13 or
    14 (STRING_EXT pages are reported as unknown); it contributes a flags
    entry exactly when flags & 0xC0 is not 0. *)
Theorem unknown_pages_listed (self : MCOPageAnalyzer.t) (page : MCOPage.t) :
  let kind_lo := MCOPageHeader.page_type (MCOPage.header page) in
  let flags := MCOPageHeader.page_flags (MCOPage.header page) in
  let entries := MCOPageAnalyzer.page_unknowns page in
  MCOPageAnalyzer.unknowns (MCOPageAnalyzer._identify_unknowns self)
  = MCOPageAnalyzer.unknowns self
    ++ flat_map MCOPageAnalyzer.page_unknowns (MCOPageAnalyzer.pages self)
  /\ (existsb is_unknown_kind entries = true
      <-> (kind_lo = 9 \/ kind_lo = 13 \/ kind_lo = 14))
  /\ (existsb is_unknown_kind entries = true
      <-> ~ In kind_lo [0; 1; 2; 3; 4; 5; 6; 7; 8; 10; 11; 12; 15])
  /\ (existsb is_unusual_flags entries = true <-> Z.land flags 0xC0 <> 0)
  /\ Z.land flags 0xC0 = Z.land (MCOPageHeader.kind (MCOPage.header page)) 0xC0
  /\ (MCOPageHeader.type_name (MCOPage.header page) = "STRING_EXT"%string ->
      existsb is_unknown_kind entries = true).
Proof.
  intros kind_lo flags entries.
  split; [apply identify_unknowns_fold|].
  assert (Hk : existsb is_unknown_kind entries
               = negb (mem kind_lo MCOPageAnalyzer.known_kinds)).
  { subst entries. unfold MCOPageAnalyzer.page_unknowns. cbv zeta.
    fold kind_lo. rewrite existsb_app.
    assert (H255 : (kind_lo =? 0xFF) = false).
    { pose proof (low4_cases (MCOPageHeader.kind (MCOPage.header page))) as H.
      fold (MCOPageHeader.page_type (MCOPage.header page)) in H.
      fold kind_lo in H. cbn [In] in H. lia. }
    rewrite H255. cbn [negb]. rewrite andb_true_r.
    destruct (mem kind_lo MCOPageAnalyzer.known_kinds); cbn [negb];
      destruct (negb _); reflexivity. }
  assert (Hf : existsb is_unusual_flags entries
               = negb (Z.land flags 0xC0 =? 0)).
  { subst entries. unfold MCOPageAnalyzer.page_unknowns. cbv zeta.
    fold flags. rewrite existsb_app.
    destruct (negb _ && negb _); destruct (negb (Z.land flags 192 =? 0));
      reflexivity. }
  assert (Hc : In kind_lo [0; 1; 2; 3; 4; 5; 6; 7; 8; 9; 10; 11; 12; 13; 14; 15])
    by apply low4_cases.
  rewrite Hk, Hf.
  split; [|split; [|split; [|split; [apply flags_mask|]]]].
  - cbn [In] in Hc.
    repeat (destruct Hc as [<- | Hc]; [vm_compute; intuition (discriminate || lia)|]).
    contradiction.
  - cbn [In] in Hc.
    repeat (destruct Hc as [<- | Hc];
            [vm_compute; intuition (discriminate || lia)|]).
    contradiction.
  - destruct (Z.eqb_spec (Z.land flags 0xC0) 0) as [E|E]; cbn [negb].
    + split; [discriminate | intro H; contradiction].
    + split; [intros _; exact E | reflexivity].
  - unfold MCOPageHeader.type_name, MCOPageKind.name_for.
    fold kind_lo.
    cbn [In] in Hc.
    repeat (destruct Hc as [<- | Hc];
            [vm_compute; intuition (discriminate || lia)|]).
    contradiction.
Qed.

(** A 2048-byte file of zero bytes whose page at 0x400 has kind byte 0x0E
    (STRING_EXT). *)
Definition string_ext_file : bytes := patch (blank 2048) (Z.to_nat 1024) [x0e].

(** What [analyze] reports: the page size, the pages of kind 14 (offset and
    type name) and the anomalies. *)
Definition analyzer_report (content : bytes)
  : option (Z * list (Z * string) * list MCOPageAnalyzer.unknown) :=
  match res (MCOPageAnalyzer.analyze content MCOPageAnalyzer.init) with
  | Ok (true, st) =>
      Some (MCOPageAnalyzer.page_size st,
            map (fun p => (MCOPage.offset p,
                           MCOPageHeader.type_name (MCOPage.header p)))
                (filter (fun p =>
                           MCOPageHeader.page_type (MCOPage.header p) =? 14)
                        (MCOPageAnalyzer.pages st)),
            MCOPageAnalyzer.unknowns st)
  | _ => None
  end.

(** C5, as stated, fails: a STRING_EXT page (kind 14) is reported as an
    unknown page kind. *)
Lemma string_ext_page_reported_unknown :
  analyzer_report string_ext_file
  = Some (256, [(1024, "STRING_EXT"%string)],
          [MCOPageAnalyzer.unknown_page_kind
             "0x0400" 14 "0x0E"
             "0000000000000000000000000000000000000000000000000000000000000000"]).
Proof.
  vm_compute. reflexivity.
Qed.

(** ** The page scan always finishes *)

Lemma bind_ext {A B} (m : M A) (f g : A -> M B) :
  (forall a, f a = g a) -> bind m f = bind m g.
Proof.
  intro H. destruct m as [l [a|e]]; cbn; [now rewrite H | reflexivity].
Qed.

Lemma len_slice_le {A} (d : list A) (a c : Z) :
  0 <= a -> 0 <= c -> len (slice d a c) <= Z.max 0 (c - a).
Proof.
  intros Ha Hc. unfold slice, clamp, len.
  destruct (Z.ltb_spec a 0); [lia|].
  destruct (Z.ltb_spec c 0); [lia|].
  rewrite length_firstn, length_skipn. lia.
Qed.

(** Once the fuel covers the bytes that are left, more fuel changes
    nothing: the loop of [_scan_pages] has ended by itself (the page size
    is one of the candidates, hence not negative). *)
Lemma scan_pages_fuel (f1 : nat) :
  forall (f2 : nat) (offset : Z) (self : MCOPageAnalyzer.t),
    0 <= MCOPageAnalyzer.page_size self ->
    0 <= offset ->
    (Z.to_nat (MCOPageAnalyzer.file_size self - offset) <= f1)%nat ->
    (Z.to_nat (MCOPageAnalyzer.file_size self - offset) <= f2)%nat ->
    MCOPageAnalyzer.scan_pages_loop f1 offset self
    = MCOPageAnalyzer.scan_pages_loop f2 offset self.
Proof.
  induction f1 as [|f1 IH]; intros f2 offset self Hp Ho H1 H2.
  - destruct f2 as [|f2]; [reflexivity|].
    cbn [MCOPageAnalyzer.scan_pages_loop].
    destruct (Z.ltb_spec offset (MCOPageAnalyzer.file_size self));
      [lia | reflexivity].
  - destruct f2 as [|f2].
    + cbn [MCOPageAnalyzer.scan_pages_loop].
      destruct (Z.ltb_spec offset (MCOPageAnalyzer.file_size self));
        [lia | reflexivity].
    + cbn [MCOPageAnalyzer.scan_pages_loop].
      destruct (Z.ltb_spec offset (MCOPageAnalyzer.file_size self));
        [|reflexivity].
      cbv zeta.
      destruct (Z.ltb_spec
                  (len (slice (MCOPageAnalyzer.data self) offset
                              (offset + MCOPageAnalyzer.page_size self))) 8)
        as [Hs|Hs]; [reflexivity|].
      pose proof (len_slice_le (MCOPageAnalyzer.data self) offset
                               (offset + MCOPageAnalyzer.page_size self) Ho
                               ltac:(lia)).
      apply bind_ext. intro header.
      apply IH;
        cbn [MCOPageAnalyzer.set_pages MCOPageAnalyzer.file_size
             MCOPageAnalyzer.page_size];
        lia.
Qed.

Lemma scan_pages_enough_fuel (self : MCOPageAnalyzer.t) (extra : nat) :
  0 <= MCOPageAnalyzer.page_size self ->
  MCOPageAnalyzer.scan_pages_loop
    (Z.to_nat (MCOPageAnalyzer.file_size self) + extra) 0 self
  = MCOPageAnalyzer._scan_pages self.
Proof.
  intro Hp. unfold MCOPageAnalyzer._scan_pages. apply scan_pages_fuel; lia.
Qed.

(* ================================================================= *)
(** * Further properties of the two programs *)

(** ** Ranges and slices *)

Lemma range_nil (start stop step : Z) :
  0 < step -> stop <= start -> range start stop step = [].
Proof.
  intros Hs Hle. unfold range.
  assert (H : (stop - start + step - 1) / step <= 0).
  { assert (H0 : (stop - start + step - 1) / step < 1)
      by (apply Z.div_lt_upper_bound; lia).
    lia. }
  replace (Z.to_nat ((stop - start + step - 1) / step)) with O by lia.
  reflexivity.
Qed.

Lemma range_cons (start stop step : Z) :
  0 < step -> start < stop ->
  range start stop step = start :: range (start + step) stop step.
Proof.
  intros Hs Hlt. unfold range.
  replace (stop - start + step - 1)
    with ((stop - (start + step) + step - 1) + 1 * step) by lia.
  rewrite Z.div_add by lia.
  assert (Hq : 0 <= (stop - (start + step) + step - 1) / step)
    by (apply Z.div_pos; lia).
  replace (Z.to_nat ((stop - (start + step) + step - 1) / step + 1))
    with (S (Z.to_nat ((stop - (start + step) + step - 1) / step))) by lia.
  cbn [seq map]. f_equal; [lia|].
  rewrite <- seq_shift, map_map. apply map_ext. intro k. lia.
Qed.

Lemma len_slice_exact {A} (d : list A) (a c : Z) :
  0 <= a -> 0 <= c ->
  len (slice d a c) = Z.max 0 (Z.min c (len d) - Z.min a (len d)).
Proof.
  intros Ha Hc. unfold slice, clamp, len.
  destruct (Z.ltb_spec a 0); [lia|]. destruct (Z.ltb_spec c 0); [lia|].
  rewrite length_firstn, length_skipn. lia.
Qed.

(** ** The page scan of the analyzer *)

(** The page [_scan_pages] records for the offset [o]. *)
Definition page_at (d : bytes) (ps o : Z) : MCOPage.t :=
  let page_data := slice d o (o + ps) in
  MCOPage.mk o ps (header_of (slice page_data 0 8))
             (if len page_data >? 8 then slice page_data 8 (len page_data)
              else []).

Lemma set_pages_same (self : MCOPageAnalyzer.t) :
  MCOPageAnalyzer.set_pages (MCOPageAnalyzer.pages self) self = self.
Proof. destruct self; reflexivity. Qed.

Lemma scan_pages_loop_res (fuel : nat) :
  forall (o : Z) (self : MCOPageAnalyzer.t),
    MCOPageAnalyzer.file_size self = len (MCOPageAnalyzer.data self) ->
    8 <= MCOPageAnalyzer.page_size self ->
    0 <= o ->
    (Z.to_nat (MCOPageAnalyzer.file_size self - o) <= fuel)%nat ->
    res (MCOPageAnalyzer.scan_pages_loop fuel o self)
    = Ok (MCOPageAnalyzer.set_pages
            (MCOPageAnalyzer.pages self
             ++ map (page_at (MCOPageAnalyzer.data self)
                             (MCOPageAnalyzer.page_size self))
                    (range o (MCOPageAnalyzer.file_size self - 7)
                           (MCOPageAnalyzer.page_size self)))
            self).
Proof.
  induction fuel as [|fuel IH]; intros o self Hfs Hps Ho Hf.
  - cbn [MCOPageAnalyzer.scan_pages_loop].
    rewrite range_nil by lia. cbn [map].
    now rewrite app_nil_r, set_pages_same.
  - cbn [MCOPageAnalyzer.scan_pages_loop].
    set (d := MCOPageAnalyzer.data self) in *.
    set (ps := MCOPageAnalyzer.page_size self) in *.
    set (fs := MCOPageAnalyzer.file_size self) in *.
    destruct (Z.ltb_spec o fs) as [Hlt|Hge].
    + cbv zeta.
      pose proof (len_slice_exact d o (o + ps) Ho ltac:(lia)) as Hlen.
      destruct (Z.ltb_spec (len (slice d o (o + ps))) 8) as [Hs|Hs].
      * rewrite range_nil by lia. cbn [map].
        now rewrite app_nil_r, set_pages_same.
      * rewrite (res_bind_ok _ _ _ (from_bytes_res _)).
        rewrite IH;
          cbn [MCOPageAnalyzer.set_pages MCOPageAnalyzer.file_size
               MCOPageAnalyzer.data MCOPageAnalyzer.page_size
               MCOPageAnalyzer.pages];
          fold d ps fs; try lia.
        rewrite (range_cons o (fs - 7) ps) by lia.
        cbn [map]. unfold page_at at 2. cbv zeta.
        rewrite <- app_assoc. reflexivity.
    + rewrite range_nil by lia. cbn [map].
      now rewrite app_nil_r, set_pages_same.
Qed.

Lemma scan_pages_res (self : MCOPageAnalyzer.t) :
  MCOPageAnalyzer.file_size self = len (MCOPageAnalyzer.data self) ->
  8 <= MCOPageAnalyzer.page_size self ->
  res (MCOPageAnalyzer._scan_pages self)
  = Ok (MCOPageAnalyzer.set_pages
          (MCOPageAnalyzer.pages self
           ++ map (page_at (MCOPageAnalyzer.data self)
                           (MCOPageAnalyzer.page_size self))
                  (range 0 (MCOPageAnalyzer.file_size self - 7)
                         (MCOPageAnalyzer.page_size self)))
          self).
Proof.
  intros Hfs Hps. unfold MCOPageAnalyzer._scan_pages.
  apply scan_pages_loop_res; auto; lia.
Qed.

Lemma range_length (start stop step : Z) :
  len (range start stop step)
  = Z.max 0 ((stop - start + step - 1) / step).
Proof.
  unfold range, len. rewrite length_map, length_seq. lia.
Qed.

(** X1.  Page coverage: with a page size of at least 8 bytes,
    [_scan_pages] appends one page for every multiple of the page size
    that has 8 bytes left in the file, in increasing order, each with the
    header and data found there; when the page size divides the file size
    the pages recorded by a fresh analyzer cover the file exactly. *)
Theorem scan_pages_covers_file (self : MCOPageAnalyzer.t) :
  MCOPageAnalyzer.file_size self = len (MCOPageAnalyzer.data self) ->
  8 <= MCOPageAnalyzer.page_size self ->
  let d := MCOPageAnalyzer.data self in
  let ps := MCOPageAnalyzer.page_size self in
  let fs := MCOPageAnalyzer.file_size self in
  exists self',
    res (MCOPageAnalyzer._scan_pages self) = Ok self'
    /\ MCOPageAnalyzer.pages self'
       = MCOPageAnalyzer.pages self ++ map (page_at d ps) (range 0 (fs - 7) ps)
    /\ (forall o, In o (range 0 (fs - 7) ps) ->
          o mod ps = 0 /\ 0 <= o /\ o + 8 <= fs)
    /\ (MCOPageAnalyzer.pages self = [] -> fs mod ps = 0 ->
        len (MCOPageAnalyzer.pages self') * ps = fs).
Proof.
  intros Hfs Hps d ps fs.
  eexists. split; [apply scan_pages_res; assumption|].
  cbn [MCOPageAnalyzer.set_pages MCOPageAnalyzer.pages]. fold d ps fs.
  split; [reflexivity|]. split.
  - intros o Hin. apply in_range in Hin; [|lia].
    destruct Hin as [Hr Hm]. rewrite Z.sub_0_r in Hm. lia.
  - intros Hnil Hdiv. rewrite Hnil. cbn [app].
    unfold len at 1. rewrite length_map. fold (len (range 0 (fs - 7) ps)).
    rewrite range_length.
    assert (Hfs0 : 0 <= fs) by (unfold fs; rewrite Hfs; unfold len; lia).
    apply Z.mod_divide in Hdiv; [|lia]. destruct Hdiv as [k Hk].
    replace (fs - 7 - 0 + ps - 1) with (ps - 8 + k * ps) by lia.
    rewrite Z.div_add by lia.
    rewrite (Z.div_small (ps - 8) ps) by lia.
    assert (0 <= k) by nia. lia.
Qed.

Lemma scan_pages_covers_file_witness :
  let self :=
    MCOPageAnalyzer.mk (blank 2048) 2048 256 [] MCODatabaseInfo.default [] in
  MCOPageAnalyzer.file_size self = len (MCOPageAnalyzer.data self)
  /\ 8 <= MCOPageAnalyzer.page_size self
  /\ exists self',
      res (MCOPageAnalyzer._scan_pages self) = Ok self'
      /\ len (MCOPageAnalyzer.pages self') * 256 = 2048.
Proof.
  intro self.
  assert (H1 : MCOPageAnalyzer.file_size self = len (MCOPageAnalyzer.data self))
    by reflexivity.
  assert (H2 : 8 <= MCOPageAnalyzer.page_size self) by (cbn; lia).
  split; [exact H1|]. split; [exact H2|].
  destruct (scan_pages_covers_file self H1 H2) as (self' & E & _ & _ & Hc).
  exists self'. split; [exact E|].
  apply Hc; reflexivity.
Defined.

(** ** The analyzer's entry point *)

Lemma unpack_uint_res (w : nat) (d : bytes) (o : Z) :
  0 <= o -> o + Z.of_nat w <= len d ->
  res (unpack_uint w d o) = Ok (le_sum d o w).
Proof. intros. now rewrite unpack_uint_ok. Qed.

(** Two analyzer states that differ at most in [db_info]. *)
Definition same_analysis (s s' : MCOPageAnalyzer.t) : Prop :=
  MCOPageAnalyzer.data s' = MCOPageAnalyzer.data s
  /\ MCOPageAnalyzer.file_size s' = MCOPageAnalyzer.file_size s
  /\ MCOPageAnalyzer.page_size s' = MCOPageAnalyzer.page_size s
  /\ MCOPageAnalyzer.pages s' = MCOPageAnalyzer.pages s
  /\ MCOPageAnalyzer.unknowns s' = MCOPageAnalyzer.unknowns s.

Lemma parse_database_info_total (self : MCOPageAnalyzer.t) :
  MCOPageAnalyzer.file_size self = len (MCOPageAnalyzer.data self) ->
  exists s', res (MCOPageAnalyzer._parse_database_info self) = Ok s'
             /\ same_analysis self s'.
Proof.
  intro Hfs. unfold MCOPageAnalyzer._parse_database_info. cbv zeta.
  set (first_ :=
         if MCOPageAnalyzer.file_size self >? 3088 + 8 then _ else _).
  assert (H1 : exists s1, res first_ = Ok s1 /\ same_analysis self s1).
  { subst first_. destruct (Z.gtb_spec (MCOPageAnalyzer.file_size self) (3088 + 8)).
    - unfold unpack_H.
      rewrite (res_bind_ok _ _ _
                 (unpack_uint_res 2 (MCOPageAnalyzer.data self) 3088
                    ltac:(lia) ltac:(simpl; lia))).
      rewrite (res_bind_ok _ _ _
                 (unpack_uint_res 2 (MCOPageAnalyzer.data self) (3088 + 2)
                    ltac:(lia) ltac:(simpl; lia))).
      rewrite (res_bind_ok _ _ _
                 (unpack_uint_res 2 (MCOPageAnalyzer.data self) (3088 + 4)
                    ltac:(lia) ltac:(simpl; lia))).
      destruct (_ && _); eexists; (split; [reflexivity | repeat split]).
    - exists self. split; [reflexivity | repeat split]. }
  destruct H1 as (s1 & E1 & (A1 & A2 & A3 & A4 & A5)).
  rewrite (res_bind_ok _ _ _ E1).
  destruct (Z.gtb_spec (MCOPageAnalyzer.file_size s1) 1040).
  - unfold unpack_I.
    rewrite (res_bind_ok _ _ _
               (unpack_uint_res 4 (MCOPageAnalyzer.data s1) (1024 + 8)
                  ltac:(lia) ltac:(simpl; rewrite A1; lia))).
    destruct (_ && _); eexists;
      (split; [reflexivity | repeat split; assumption]).
  - exists s1. split; [reflexivity | repeat split; assumption].
Qed.

Lemma analyzer_page_size_values (d : bytes) (fs : Z) :
  In (analyzer_page_size d fs) MCOPageAnalyzer.COMMON_PAGE_SIZES.
Proof.
  unfold analyzer_page_size.
  pose proof (keep_best_spec fs (probe_score d fs)
                             MCOPageAnalyzer.COMMON_PAGE_SIZES 1024 0) as H.
  cbv zeta in H.
  destruct H as [[Er _] | (l1 & l2 & El & _)].
  - rewrite Er. cbn. tauto.
  - rewrite El at 2. apply in_elt.
Qed.

Lemma analyzer_detect_page_size_keeps (self : MCOPageAnalyzer.t) :
  exists self',
    res (MCOPageAnalyzer._detect_page_size self) = Ok self'
    /\ MCOPageAnalyzer.page_size self'
       = analyzer_page_size (MCOPageAnalyzer.data self)
                            (MCOPageAnalyzer.file_size self)
    /\ MCOPageAnalyzer.data self' = MCOPageAnalyzer.data self
    /\ MCOPageAnalyzer.file_size self' = MCOPageAnalyzer.file_size self
    /\ MCOPageAnalyzer.pages self' = MCOPageAnalyzer.pages self
    /\ MCOPageAnalyzer.unknowns self' = MCOPageAnalyzer.unknowns self.
Proof.
  unfold MCOPageAnalyzer._detect_page_size.
  rewrite (res_bind_ok _ _ _
             (for_each_pure _ _ _ (fun s a _ => try_candidate_res self s a)
                            (1024, 0))).
  eexists. split; [reflexivity|]. repeat split.
Qed.

Lemma identify_unknowns_fold_keeps (l : list MCOPage.t)
      (self : MCOPageAnalyzer.t) :
  let s' :=
    fold_left
      (fun self page =>
         MCOPageAnalyzer.set_unknowns
           (MCOPageAnalyzer.unknowns self
            ++ MCOPageAnalyzer.page_unknowns page) self)
      l self in
  MCOPageAnalyzer.data s' = MCOPageAnalyzer.data self
  /\ MCOPageAnalyzer.file_size s' = MCOPageAnalyzer.file_size self
  /\ MCOPageAnalyzer.page_size s' = MCOPageAnalyzer.page_size self
  /\ MCOPageAnalyzer.pages s' = MCOPageAnalyzer.pages self.
Proof.
  cbv zeta. revert self. induction l as [|p l IH]; intro self.
  - repeat split.
  - cbn [fold_left].
    destruct (IH (MCOPageAnalyzer.set_unknowns
                    (MCOPageAnalyzer.unknowns self
                     ++ MCOPageAnalyzer.page_unknowns p) self))
      as (B1 & B2 & B3 & B4).
    rewrite B1, B2, B3, B4. repeat split.
Qed.

Lemma identify_unknowns_keeps (self : MCOPageAnalyzer.t) :
  let s' := MCOPageAnalyzer._identify_unknowns self in
  MCOPageAnalyzer.data s' = MCOPageAnalyzer.data self
  /\ MCOPageAnalyzer.file_size s' = MCOPageAnalyzer.file_size self
  /\ MCOPageAnalyzer.page_size s' = MCOPageAnalyzer.page_size self
  /\ MCOPageAnalyzer.pages s' = MCOPageAnalyzer.pages self
  /\ MCOPageAnalyzer.unknowns s'
     = MCOPageAnalyzer.unknowns self
       ++ flat_map MCOPageAnalyzer.page_unknowns (MCOPageAnalyzer.pages self).
Proof.
  cbv zeta. unfold MCOPageAnalyzer._identify_unknowns.
  destruct (identify_unknowns_fold_keeps (MCOPageAnalyzer.pages self) self)
    as (B1 & B2 & B3 & B4).
  rewrite identify_unknowns_fold. auto.
Qed.

(** X2.  [analyze] answers [False] exactly when the file is shorter than
    0x400 bytes and never raises: on a longer file the page size is one of
    the candidates, the pages are those of the page scan, and the anomalies
    are those of the pages, in page order. *)
Theorem analyze_result (content : bytes) (self : MCOPageAnalyzer.t) :
  exists st,
    res (MCOPageAnalyzer.analyze content self)
    = Ok (0x400 <=? len content, st)
    /\ MCOPageAnalyzer.data st = content
    /\ MCOPageAnalyzer.file_size st = len content
    /\ (len content < 0x400 ->
        MCOPageAnalyzer.pages st = MCOPageAnalyzer.pages self
        /\ MCOPageAnalyzer.unknowns st = MCOPageAnalyzer.unknowns self)
    /\ (0x400 <= len content ->
        let ps := MCOPageAnalyzer.page_size st in
        In ps MCOPageAnalyzer.COMMON_PAGE_SIZES
        /\ MCOPageAnalyzer.pages st
           = MCOPageAnalyzer.pages self
             ++ map (page_at content ps) (range 0 (len content - 7) ps)
        /\ MCOPageAnalyzer.unknowns st
           = MCOPageAnalyzer.unknowns self
             ++ flat_map MCOPageAnalyzer.page_unknowns
                         (MCOPageAnalyzer.pages st)).
Proof.
  unfold MCOPageAnalyzer.analyze. cbv zeta.
  set (s0 := MCOPageAnalyzer.mk content (len content)
               (MCOPageAnalyzer.page_size self) (MCOPageAnalyzer.pages self)
               (MCOPageAnalyzer.db_info self) (MCOPageAnalyzer.unknowns self)).
  replace (MCOPageAnalyzer.file_size s0) with (len content) by reflexivity.
  destruct (Z.ltb_spec (len content) 1024);
    destruct (Z.leb_spec 1024 (len content)); try lia.
  - exists s0. split; [reflexivity|]. repeat split; lia.
  - destruct (analyzer_detect_page_size_keeps s0)
      as (s1 & E1 & P1 & D1 & F1 & G1 & U1).
    rewrite (res_bind_ok _ _ _ E1).
    destruct (parse_database_info_total s1) as (s2 & E2 & (A1 & A2 & A3 & A4 & A5));
      [rewrite F1, D1; reflexivity|].
    rewrite (res_bind_ok _ _ _ E2).
    assert (Hps : In (MCOPageAnalyzer.page_size s2)
                     MCOPageAnalyzer.COMMON_PAGE_SIZES).
    { rewrite A3, P1. apply analyzer_page_size_values. }
    rewrite (res_bind_ok _ _ _ (scan_pages_res s2
               ltac:(rewrite A2, A1, F1, D1; reflexivity)
               ltac:(cbn in Hps; lia))).
    eexists. split; [reflexivity|].
    destruct (identify_unknowns_keeps
                (MCOPageAnalyzer.set_pages
                   (MCOPageAnalyzer.pages s2
                    ++ map (page_at (MCOPageAnalyzer.data s2)
                                    (MCOPageAnalyzer.page_size s2))
                           (range 0 (MCOPageAnalyzer.file_size s2 - 7)
                                  (MCOPageAnalyzer.page_size s2))) s2))
      as (B1 & B2 & B3 & B4 & B5).
    rewrite B1, B2, B3, B4, B5.
    cbn [MCOPageAnalyzer.set_pages MCOPageAnalyzer.pages
         MCOPageAnalyzer.data MCOPageAnalyzer.file_size
         MCOPageAnalyzer.page_size MCOPageAnalyzer.unknowns].
    rewrite A1, A2, A4, A5, D1, F1, G1, U1.
    split; [reflexivity|]. split; [reflexivity|].
    split; [intro; lia|]. intros _.
    split; [exact Hps|]. split; reflexivity.
Qed.

(** ** The page summary and the B-tree listing *)

Lemma dict_get_set {V} (m : dict V) (k k' : string) (v d : V) :
  dict_get (dict_set m k v) k' d
  = if String.eqb k' k then v else dict_get m k' d.
Proof.
  induction m as [|[k0 v0] m IH]; cbn [dict_set dict_get].
  - reflexivity.
  - destruct (String.eqb_spec k k0) as [->|Hk]; cbn [dict_get].
    + destruct (String.eqb_spec k' k0); reflexivity.
    + rewrite IH. destruct (String.eqb_spec k' k0) as [->|]; [|reflexivity].
      destruct (String.eqb_spec k0 k); [congruence | reflexivity].
Qed.

Lemma dict_set_keys {V} (m : dict V) (k : string) (v : V) :
  map fst (dict_set m k v)
  = if existsb (String.eqb k) (map fst m) then map fst m
    else map fst m ++ [k].
Proof.
  induction m as [|[k0 v0] m IH]; cbn [dict_set map fst existsb app].
  - reflexivity.
  - destruct (String.eqb_spec k k0) as [->|Hk]; cbn [orb map fst].
    + reflexivity.
    + rewrite IH. destruct (existsb _ _); reflexivity.
Qed.

Lemma dict_set_sum (m : dict Z) (k : string) (v : Z) :
  fold_right Z.add 0 (map snd (dict_set m k v))
  = fold_right Z.add 0 (map snd m) - dict_get m k 0 + v.
Proof.
  induction m as [|[k0 v0] m IH]; cbn [dict_set dict_get map snd fold_right].
  - lia.
  - destruct (String.eqb_spec k k0); cbn [map snd fold_right]; lia.
Qed.

Lemma existsb_eqb_In (k : string) (l : list string) :
  existsb (String.eqb k) l = true <-> In k l.
Proof.
  rewrite existsb_exists. split.
  - intros (x & Hin & E). apply String.eqb_eq in E. now subst.
  - intro Hin. exists k. split; [exact Hin | apply String.eqb_refl].
Qed.

(** The summary after the pages [l], started from [m]. *)
Definition summary_of (l : list MCOPage.t) (m : dict Z) : dict Z :=
  fold_left
    (fun summary page =>
       let type_name := MCOPageHeader.type_name (MCOPage.header page) in
       dict_set summary type_name (dict_get summary type_name 0 + 1))
    l m.

Definition named (name : string) (p : MCOPage.t) : bool :=
  String.eqb (MCOPageHeader.type_name (MCOPage.header p)) name.

Lemma summary_of_spec (l : list MCOPage.t) :
  forall m,
    NoDup (map fst m) ->
    NoDup (map fst (summary_of l m))
    /\ (forall name,
           dict_get (summary_of l m) name 0
           = dict_get m name 0 + len (filter (named name) l))
    /\ (forall name,
           In name (map fst (summary_of l m))
           <-> In name (map fst m)
               \/ exists p, In p l /\ named name p = true)
    /\ fold_right Z.add 0 (map snd (summary_of l m))
       = fold_right Z.add 0 (map snd m) + len l.
Proof.
  induction l as [|p l IH]; intros m Hnd.
  - unfold summary_of, len. cbn [fold_left filter Datatypes.length Z.of_nat].
    split; [exact Hnd|]. split; [intro; lia|].
    split; [|lia].
    intro name. split; [tauto|]. intros [H|(q & [] & _)]. exact H.
  - unfold summary_of. cbn [fold_left]. cbv zeta.
    set (tn := MCOPageHeader.type_name (MCOPage.header p)).
    set (m1 := dict_set m tn (dict_get m tn 0 + 1)).
    assert (Hk : map fst m1
                 = if existsb (String.eqb tn) (map fst m) then map fst m
                   else map fst m ++ [tn])
      by apply dict_set_keys.
    assert (Hnd1 : NoDup (map fst m1)).
    { rewrite Hk. destruct (existsb _ _) eqn:E; [exact Hnd|].
      apply NoDup_app; [exact Hnd | repeat constructor; intros [] |].
      intros x Hx [<-|[]].
      apply existsb_eqb_In in Hx. congruence. }
    destruct (IH m1 Hnd1) as (I1 & I2 & I3 & I4).
    fold (summary_of l m1).
    split; [exact I1|]. split; [|split].
    + intro name. rewrite I2. subst m1. rewrite dict_get_set.
      cbn [filter]. unfold named at 2. fold tn.
      rewrite (String.eqb_sym tn name).
      destruct (String.eqb_spec name tn) as [->|];
        unfold len; cbn [Datatypes.length]; lia.
    + intro name. rewrite I3, Hk. split.
      * intros [H|(q & Hq & Hn)].
        -- destruct (existsb _ _); [now left|].
           apply in_app_or in H. destruct H as [H|[<-|[]]]; [now left|].
           right. exists p. split; [now left|].
           unfold named. fold tn. apply String.eqb_refl.
        -- right. exists q. split; [now right | exact Hn].
      * intros [H|(q & [<-|Hq] & Hn)].
        -- left. destruct (existsb _ _); [exact H|].
           apply in_or_app. now left.
        -- left. unfold named in Hn. fold tn in Hn.
           apply String.eqb_eq in Hn. subst name.
           destruct (existsb _ _) eqn:E.
           ++ now apply existsb_eqb_In.
           ++ apply in_or_app. right. now left.
        -- right. exists q. split; assumption.
    + rewrite I4. subst m1. rewrite dict_set_sum.
      unfold len. cbn [Datatypes.length]. lia.
Qed.

(** X3.  [get_page_summary] is the histogram of the pages by type name:
    every name is listed once, the names listed are those of the pages, the
    count under a name is the number of pages of that name, and the counts
    add up to the number of pages. *)
Theorem page_summary_is_histogram (self : MCOPageAnalyzer.t) :
  let summary := MCOPageAnalyzer.get_page_summary self in
  let pages := MCOPageAnalyzer.pages self in
  NoDup (map fst summary)
  /\ (forall name,
         dict_get summary name 0 = len (filter (named name) pages))
  /\ (forall name,
         In name (map fst summary)
         <-> exists p, In p pages /\ named name p = true)
  /\ fold_right Z.add 0 (map snd summary) = len pages.
Proof.
  cbv zeta. unfold MCOPageAnalyzer.get_page_summary.
  destruct (summary_of_spec (MCOPageAnalyzer.pages self) [] (NoDup_nil _))
    as (I1 & I2 & I3 & I4).
  unfold summary_of in I1, I2, I3, I4.
  split; [exact I1|]. split; [|split].
  - intro name. rewrite I2. reflexivity.
  - intro name. rewrite I3. cbn [map In]. tauto.
  - rewrite I4. reflexivity.
Qed.

Definition is_btree (p : MCOPage.t) : bool :=
  mem (MCOPageHeader.page_type (MCOPage.header p)) [2; 3].

(** The entry of a B-tree page. *)
Definition btree_of (page : MCOPage.t) : MCOPageAnalyzer.btree_info :=
  let h := MCOPage.header page in
  {| MCOPageAnalyzer.bt_offset :=
       ("0x" ++ Fmt.X 4 (MCOPage.offset page))%string;
     MCOPageAnalyzer.bt_type :=
       (if MCOPageHeader.page_type h =? 2 then "leaf"%string
        else "node"%string);
     MCOPageAnalyzer.bt_user := MCOPageHeader.user h;
     MCOPageAnalyzer.bt_n_keys :=
       if len (MCOPage.data page) >=? 8
       then Some (le_sum (MCOPage.data page) 0 2) else None |}.

Lemma fold_append_filter {A B} (f : A -> bool) (g : A -> B) (l : list A) :
  forall acc,
    fold_left (fun acc a => if f a then acc ++ [g a] else acc) l acc
    = acc ++ map g (filter f l).
Proof.
  induction l as [|a l IH]; intro acc; cbn [fold_left filter].
  - cbn. now rewrite app_nil_r.
  - rewrite IH. destruct (f a); [|reflexivity].
    cbn [map]. now rewrite <- app_assoc.
Qed.

Lemma filter_either {A} (f g : A -> bool) (l : list A) :
  (forall a, f a && g a = false) ->
  len (filter (fun a => f a || g a) l) = len (filter f l) + len (filter g l).
Proof.
  intro Hd. unfold len. induction l as [|a l IH]; [reflexivity|].
  cbn [filter]. specialize (Hd a).
  destruct (f a), (g a); cbn [orb andb Datatypes.length] in *; try discriminate; lia.
Qed.

(** X4.  [analyze_btree_pages] never raises and lists, in page order,
    exactly the pages of kind 2 and 3: as many entries as
    [get_pages_by_kind] finds for the two kinds, each with [n_keys] when the
    page holds 8 bytes. *)
Theorem btree_pages_listed (self : MCOPageAnalyzer.t) :
  res (MCOPageAnalyzer.analyze_btree_pages self)
  = Ok (map btree_of (filter is_btree (MCOPageAnalyzer.pages self)))
  /\ len (filter is_btree (MCOPageAnalyzer.pages self))
     = len (MCOPageAnalyzer.get_pages_by_kind self 2)
       + len (MCOPageAnalyzer.get_pages_by_kind self 3).
Proof.
  split.
  - unfold MCOPageAnalyzer.analyze_btree_pages.
    rewrite (for_each_pure _ _
               (fun acc p => if is_btree p then acc ++ [btree_of p] else acc)).
    + now rewrite fold_append_filter.
    + intros acc p _. cbv zeta. fold (is_btree p).
      destruct (is_btree p); [|reflexivity].
      unfold btree_of. cbv zeta.
      destruct (Z.geb_spec (len (MCOPage.data p)) 8).
      * unfold unpack_H.
        assert (E : res (v <- unpack_uint 2 (MCOPage.data p) 0 ;;
                         ret (Some v))
                    = Ok (Some (le_sum (MCOPage.data p) 0 2))).
        { now rewrite (res_bind_ok _ _ _
                         (unpack_uint_res 2 (MCOPage.data p) 0
                            ltac:(lia) ltac:(simpl; lia))). }
        now rewrite (res_bind_ok _ _ _ E).
      * reflexivity.
  - unfold MCOPageAnalyzer.get_pages_by_kind.
    rewrite <- filter_either.
    + f_equal. apply filter_ext. intro p. unfold is_btree, mem.
      cbn [existsb]. now rewrite orb_false_r.
    + intro p. destruct (Z.eqb_spec (MCOPageHeader.page_type (MCOPage.header p)) 2)
        as [->|]; reflexivity.
Qed.

(** ** The two [DateTime] readers *)

Lemma _read_u8_res (self : GoproMDBParser.t) o :
  0 <= o ->
  res (GoproMDBParser._read_u8 self o)
  = Ok (u8_at (GoproMDBParser.data self) o).
Proof.
  intro H. unfold GoproMDBParser._read_u8, u8_at.
  destruct (Z.ltb_spec o (len (GoproMDBParser.data self))); [|reflexivity].
  apply getitem_res. lia.
Qed.

(** X5.  [_read_datetime] never raises at an offset that is not negative:
    every field is read on its own and is 0 when it lies past the end of
    the file.  With the 7 bytes inside the file it returns what
    [_read_datetime_from_buffer] returns; when they are not,
    [_read_datetime_from_buffer] returns the all-zero [DateTime] instead. *)
Theorem read_datetime_two_readers (self : GoproMDBParser.t) (offset : Z) :
  0 <= offset ->
  let d := GoproMDBParser.data self in
  res (GoproMDBParser._read_datetime self offset)
  = Ok (DateTime.mk
          (DateField.mk (uint_at 2 d offset) (u8_at d (offset + 2))
                        (u8_at d (offset + 3)))
          (TimeField.mk (u8_at d (offset + 4)) (u8_at d (offset + 5))
                        (u8_at d (offset + 6))))
  /\ (offset + 7 <= len d ->
      res (GoproMDBParser._read_datetime self offset)
      = res (GoproMDBParser._read_datetime_from_buffer d offset))
  /\ (len d < offset + 7 ->
      res (GoproMDBParser._read_datetime_from_buffer d offset)
      = Ok DateTime.default).
Proof.
  intros Ho d.
  assert (E : res (GoproMDBParser._read_datetime self offset)
              = Ok (DateTime.mk
                      (DateField.mk (uint_at 2 d offset) (u8_at d (offset + 2))
                                    (u8_at d (offset + 3)))
                      (TimeField.mk (u8_at d (offset + 4))
                                    (u8_at d (offset + 5))
                                    (u8_at d (offset + 6))))).
  { unfold GoproMDBParser._read_datetime.
    rewrite (res_bind_ok _ _ _ (_read_u16_res self offset Ho)).
    rewrite (res_bind_ok _ _ _ (_read_u8_res self (offset + 2) ltac:(lia))).
    rewrite (res_bind_ok _ _ _ (_read_u8_res self (offset + 3) ltac:(lia))).
    rewrite (res_bind_ok _ _ _ (_read_u8_res self (offset + 4) ltac:(lia))).
    rewrite (res_bind_ok _ _ _ (_read_u8_res self (offset + 5) ltac:(lia))).
    rewrite (res_bind_ok _ _ _ (_read_u8_res self (offset + 6) ltac:(lia))).
    reflexivity. }
  split; [exact E|]. split.
  - intro Hin. rewrite E, (read_datetime_from_buffer_ok d offset Ho Hin).
    unfold uint_at, u8_at.
    destruct (Z.leb_spec (offset + Z.of_nat 2) (len d)); [|simpl in *; lia].
    repeat match goal with
           | |- context [?a <? ?b] =>
               destruct (Z.ltb_spec a b); [|lia]
           end.
    reflexivity.
  - intro Hout. unfold GoproMDBParser._read_datetime_from_buffer.
    destruct (Z.leb_spec (offset + 7) (len d)); [lia | reflexivity].
Qed.

Lemma read_datetime_two_readers_witness :
  let self := GoproMDBParser.set_data (blank 4 ++ [x07; x00; x0c; x19; x1e; x0a; x05])
                                      GoproMDBParser.init in
  0 <= 4
  /\ res (GoproMDBParser._read_datetime self 4)
     = Ok (DateTime.mk (DateField.mk 7 12 25) (TimeField.mk 30 10 5)).
Proof.
  intro self. split; [lia|].
  destruct (read_datetime_two_readers self 4 ltac:(lia)) as (E & _).
  rewrite E. reflexivity.
Defined.

(** ** The MCO version *)

Lemma uint_at_nonneg (w : nat) (d : bytes) (o : Z) : 0 <= uint_at w d o.
Proof.
  unfold uint_at. destruct (_ <=? _); [|lia].
  revert o. induction w as [|w IH]; intro o; cbn [le_sum]; [lia|].
  specialize (IH (o + 1)).
  pose proof (byte_val_range (nth_byte d o)). lia.
Qed.

Lemma version_triple_accepted (self : GoproMDBParser.t) (o : Z)
      (accept : Z -> Z -> Z -> bool) :
  0 <= o ->
  let d := GoproMDBParser.data self in
  exists r,
    res (v1 <- GoproMDBParser._read_u16 self o ;;
         v2 <- GoproMDBParser._read_u16 self (o + 2) ;;
         v3 <- GoproMDBParser._read_u16 self (o + 4) ;;
         if accept v1 v2 v3
         then ret (Some (GoproMDBParser.set_version v1 v2 v3 o self))
         else ret None) = Ok r
    /\ forall s', r = Some s' ->
         s' = GoproMDBParser.set_version
                (uint_at 2 d o) (uint_at 2 d (o + 2)) (uint_at 2 d (o + 4))
                o self
         /\ accept (uint_at 2 d o) (uint_at 2 d (o + 2)) (uint_at 2 d (o + 4))
            = true.
Proof.
  intros Ho d.
  rewrite (res_bind_ok _ _ _ (_read_u16_res self o Ho)).
  rewrite (res_bind_ok _ _ _ (_read_u16_res self (o + 2) ltac:(lia))).
  rewrite (res_bind_ok _ _ _ (_read_u16_res self (o + 4) ltac:(lia))).
  fold d. destruct (accept _ _ _) eqn:Ea.
  - eexists. split; [reflexivity|].
    intros s' E. injection E as <-. split; reflexivity.
  - exists None. split; [reflexivity | discriminate].
Qed.

(** What [_parse_mco_version] leaves in [s'], started from [self]: a
    dictionary offset in the dictionary region and, when a version was taken,
    the triple of 16-bit words at that offset, inside the ranges of a valid
    version. *)
Definition version_found (self s' : GoproMDBParser.t) : Prop :=
  let d := GoproMDBParser.data self in
  let o := GoproMDBParser.dictionary_offset s' in
  let v := GoproMDBParser.mco_version s' in
  0x0C00 <= o < 0x1000
  /\ v = MCOVersion.mk (uint_at 2 d o) (uint_at 2 d (o + 2))
                       (uint_at 2 d (o + 4))
  /\ 1 <= MCOVersion.major v <= 15
  /\ MCOVersion.minor v <= 99
  /\ MCOVersion.build v < 10000.

Definition version_kept (self s' : GoproMDBParser.t) : Prop :=
  GoproMDBParser.mco_version s' = GoproMDBParser.mco_version self
  /\ 0x0C00 <= GoproMDBParser.dictionary_offset s' < 0x1C00.

Lemma parse_mco_version_post (self : GoproMDBParser.t) :
  0 < GoproMDBParser.page_size self ->
  GoproMDBParser.dictionary_offset self = 0 ->
  exists s',
    res (GoproMDBParser._parse_mco_version self) = Ok s'
    /\ GoproMDBParser.data s' = GoproMDBParser.data self
    /\ (version_kept self s' \/ version_found self s').
Proof.
  intros Hps Hdo. unfold GoproMDBParser._parse_mco_version.
  destruct (for_first_post (fun o : Z => 0x0C00 <= o < 0x1C00)
              (range 0x800 (Z.min 0x3000 (GoproMDBParser.file_size self))
                     (GoproMDBParser.page_size self))
              (fun offset =>
                 if offset <? len (GoproMDBParser.data self) then
                   b0 <- getitem (GoproMDBParser.data self) offset ;;
                   let kind := Z.land b0 0x0F in
                   if kind =? 4
                   then ret (Some (Z.max 0x0C00 (offset - 0x1400)))
                   else ret None
                 else ret None)) as (found & Ef & Hf).
  { intros o Hin. apply in_range in Hin; [|assumption].
    destruct (Z.ltb_spec o (len (GoproMDBParser.data self))).
    - rewrite (res_bind_ok _ _ _
                 (getitem_res (GoproMDBParser.data self) o ltac:(lia))).
      cbv zeta. destruct (_ =? 4); eexists; (split; [reflexivity|]).
      + intros v E. injection E as <-. lia.
      + discriminate.
    - exists None. split; [reflexivity | discriminate]. }
  rewrite (res_bind_ok _ _ _ Ef). cbv zeta.
  set (self1 := match found with
                | Some o => GoproMDBParser.set_dictionary_offset o self
                | None => self
                end).
  set (self2 := if GoproMDBParser.dictionary_offset self1 =? 0
                then GoproMDBParser.set_dictionary_offset 0x0C10 self1
                else self1).
  assert (H2 : GoproMDBParser.data self2 = GoproMDBParser.data self
               /\ GoproMDBParser.mco_version self2
                  = GoproMDBParser.mco_version self
               /\ 0x0C00 <= GoproMDBParser.dictionary_offset self2 < 0x1C00).
  { subst self2 self1. destruct found as [o|].
    - specialize (Hf o eq_refl).
      destruct (Z.eqb_spec (GoproMDBParser.dictionary_offset
                              (GoproMDBParser.set_dictionary_offset o self)) 0)
        as [E|E]; cbn in E |- *; repeat split; lia.
    - rewrite Hdo. cbn. repeat split; lia. }
  destruct H2 as (Hd2 & Hv2 & Ho2).
  assert (Hset : forall v1 v2 v3 o,
             GoproMDBParser.data (GoproMDBParser.set_version v1 v2 v3 o self2)
             = GoproMDBParser.data self2
             /\ GoproMDBParser.mco_version
                  (GoproMDBParser.set_version v1 v2 v3 o self2)
                = MCOVersion.mk v1 v2 v3
             /\ GoproMDBParser.dictionary_offset
                  (GoproMDBParser.set_version v1 v2 v3 o self2) = o)
    by (intros; repeat split).
  assert (Hu : forall o, 0 <= uint_at 2 (GoproMDBParser.data self2) o).
  { intro o. unfold uint_at. destruct (_ <=? _); [|lia].
    cbn [le_sum].
    pose proof (byte_val_range (nth_byte (GoproMDBParser.data self2) o)).
    pose proof (byte_val_range (nth_byte (GoproMDBParser.data self2) (o + 1))).
    lia. }
  assert (Hearly : exists r,
             res (if GoproMDBParser.file_size self2 >? 0x0C16 then
                    v1 <- GoproMDBParser._read_u16 self2 0x0C10 ;;
                    v2 <- GoproMDBParser._read_u16 self2 0x0C12 ;;
                    v3 <- GoproMDBParser._read_u16 self2 0x0C14 ;;
                    if (1 <=? v1) && (v1 <=? 15) && (v2 <=? 99) && (v3 <? 10000)
                    then ret (Some (GoproMDBParser.set_version
                                      v1 v2 v3 0x0C10 self2))
                    else ret None
                  else ret None) = Ok r
             /\ forall s', r = Some s' ->
                  GoproMDBParser.data s' = GoproMDBParser.data self
                  /\ version_found self s').
  { destruct (_ >? _).
    - destruct (version_triple_accepted self2 0x0C10
                  (fun v1 v2 v3 =>
                     (1 <=? v1) && (v1 <=? 15) && (v2 <=? 99) && (v3 <? 10000))
                  ltac:(lia)) as (r & Er & Hr).
      exists r. split; [exact Er|].
      intros s' E. destruct (Hr s' E) as (-> & Ha).
      destruct (Hset (uint_at 2 (GoproMDBParser.data self2) 3088)
                     (uint_at 2 (GoproMDBParser.data self2) (3088 + 2))
                     (uint_at 2 (GoproMDBParser.data self2) (3088 + 4))
                     3088) as (S1 & S2 & S3).
      split; [now rewrite S1|].
      unfold version_found. cbv zeta. rewrite S2, S3, <- Hd2.
      cbn [MCOVersion.major MCOVersion.minor MCOVersion.build].
      split; [lia|]. split; [reflexivity|]. lia.
    - exists None. split; [reflexivity | discriminate]. }
  destruct Hearly as (early & Ee & He).
  rewrite (res_bind_ok _ _ _ Ee).
  destruct early as [s'|].
  - exists s'. split; [reflexivity|].
    destruct (He s' eq_refl) as (A & B). split; [exact A | now right].
  - destruct (for_first_post
                (fun s' => GoproMDBParser.data s' = GoproMDBParser.data self
                           /\ version_found self s')
                (range 0x0C00
                       (Z.min 0x1000 (GoproMDBParser.file_size self2 - 6)) 2)
                (fun offset =>
                   v1 <- GoproMDBParser._read_u16 self2 offset ;;
                   v2 <- GoproMDBParser._read_u16 self2 (offset + 2) ;;
                   v3 <- GoproMDBParser._read_u16 self2 (offset + 4) ;;
                   if (5 <=? v1) && (v1 <=? 10) && (v2 <=? 10)
                      && (1000 <=? v3) && (v3 <? 3000)
                   then ret (Some (GoproMDBParser.set_version
                                     v1 v2 v3 offset self2))
                   else ret None)) as (r & Er & Hr).
    { intros o Hin. apply in_range in Hin; [|lia].
      destruct (version_triple_accepted self2 o
                  (fun v1 v2 v3 =>
                     (5 <=? v1) && (v1 <=? 10) && (v2 <=? 10)
                     && (1000 <=? v3) && (v3 <? 3000))
                  ltac:(lia)) as (r & Er & Hr).
      exists r. split; [exact Er|].
      intros s' E. destruct (Hr s' E) as (-> & Ha).
      destruct (Hset (uint_at 2 (GoproMDBParser.data self2) o)
                     (uint_at 2 (GoproMDBParser.data self2) (o + 2))
                     (uint_at 2 (GoproMDBParser.data self2) (o + 4))
                     o) as (S1 & S2 & S3).
      split; [now rewrite S1|].
      unfold version_found. cbv zeta. rewrite S2, S3, <- Hd2.
      cbn [MCOVersion.major MCOVersion.minor MCOVersion.build].
      split; [lia|]. split; [reflexivity|]. lia. }
    rewrite (res_bind_ok _ _ _ Er).
    destruct r as [s'|].
    + exists s'. split; [reflexivity|].
      destruct (Hr s' eq_refl) as (A & B). split; [exact A | now right].
    + exists self2. split; [reflexivity|]. split; [exact Hd2|].
      left. split; assumption.
Qed.

(** X6.  On a fresh parser with a positive page size [_parse_mco_version]
    never raises and leaves the dictionary offset inside 0x0C00..0x1BFF.  It
    either keeps the version as it was, or stores the three 16-bit words found
    at the dictionary offset, which then lies below 0x1000 and holds a major
    in 1..15, a minor of at most 99 and a build below 10000. *)
Theorem mco_version_found_or_kept (self : GoproMDBParser.t) :
  0 < GoproMDBParser.page_size self ->
  GoproMDBParser.dictionary_offset self = 0 ->
  exists s',
    res (GoproMDBParser._parse_mco_version self) = Ok s'
    /\ GoproMDBParser.data s' = GoproMDBParser.data self
    /\ let d := GoproMDBParser.data self in
       let o := GoproMDBParser.dictionary_offset s' in
       let v := GoproMDBParser.mco_version s' in
       0x0C00 <= o < 0x1C00
       /\ (v = GoproMDBParser.mco_version self
           \/ (o < 0x1000
               /\ v = MCOVersion.mk (uint_at 2 d o) (uint_at 2 d (o + 2))
                                    (uint_at 2 d (o + 4))
               /\ 1 <= MCOVersion.major v <= 15
               /\ 0 <= MCOVersion.minor v <= 99
               /\ 0 <= MCOVersion.build v < 10000)).
Proof.
  intros Hps Hdo.
  destruct (parse_mco_version_post self Hps Hdo) as (s' & E & Hd & Hv).
  exists s'. split; [exact E|]. split; [exact Hd|]. cbv zeta.
  destruct Hv as [(Hk & Ho) | (Ho & Hv & Hmaj & Hmin & Hb)].
  - split; [exact Ho|]. now left.
  - split; [lia|]. right.
    split; [lia|]. split; [exact Hv|]. split; [exact Hmaj|].
    rewrite Hv in Hmin, Hb |- *.
    cbn [MCOVersion.minor MCOVersion.build] in *.
    pose proof (uint_at_nonneg 2 (GoproMDBParser.data self)
                  (GoproMDBParser.dictionary_offset s' + 2)).
    pose proof (uint_at_nonneg 2 (GoproMDBParser.data self)
                  (GoproMDBParser.dictionary_offset s' + 4)).
    lia.
Qed.


(** ** Printable strings *)

(** A byte string that is empty or starts with a byte that is not
    printable. *)
Definition np_head (l : bytes) : Prop :=
  match l with
  | [] => True
  | c :: _ => printable c = false
  end.

(** [run] is a maximal run of printable bytes of [d], at [start]. *)
Definition maximal_run (d : bytes) (start : Z) (run : bytes) : Prop :=
  exists pre post,
    d = pre ++ run ++ post
    /\ len pre = start
    /\ forallb printable run = true
    /\ np_head (rev pre)
    /\ np_head post.

(** [''.join(chr(b) for b in run)] *)
Definition text (run : bytes) : string :=
  string_of_list_ascii (map ascii_of_byte run).

Lemma text_length (run : bytes) : String.length (text run) = List.length run.
Proof.
  unfold text. induction run as [|c r IH]; [reflexivity|].
  cbn [map string_of_list_ascii String.length]. now rewrite IH.
Qed.

Definition strings_inv (min_len : Z) (pre : bytes)
           (st : list (Z * string) * list ascii * Z) : Prop :=
  let '(strings, current, start) := st in
  (exists pre0 run,
      pre = pre0 ++ run
      /\ current = map ascii_of_byte run
      /\ forallb printable run = true
      /\ np_head (rev pre0)
      /\ (run <> [] -> start = len pre0))
  /\ forall s0 s,
      In (s0, s) strings ->
      exists run pre0 c post0,
        pre = pre0 ++ run ++ c :: post0
        /\ len pre0 = s0
        /\ s = text run
        /\ min_len <= len run
        /\ forallb printable run = true
        /\ np_head (rev pre0)
        /\ printable c = false.

Lemma len_app {A} (l1 l2 : list A) : len (l1 ++ l2) = len l1 + len l2.
Proof. unfold len. rewrite length_app. lia. Qed.

Lemma len_map {A B} (f : A -> B) (l : list A) : len (map f l) = len l.
Proof. unfold len. now rewrite length_map. Qed.

Lemma strings_step_inv (min_len : Z) (pre : bytes) st (c : byte) :
  0 < min_len ->
  strings_inv min_len pre st ->
  strings_inv min_len (pre ++ [c])
              (GoproMDBParser.strings_step min_len st (len pre) c).
Proof.
  intros Hmin. destruct st as [[strings current] start].
  intros ((pre0 & run & Epre & Ecur & Hrun & Hnp & Hstart) & Hstr).
  unfold GoproMDBParser.strings_step.
  assert (Hold : forall s0 s,
             In (s0, s) strings ->
             exists run pre0 c0 post0,
               pre ++ [c] = pre0 ++ run ++ c0 :: post0
               /\ len pre0 = s0
               /\ s = text run
               /\ min_len <= len run
               /\ forallb printable run = true
               /\ np_head (rev pre0)
               /\ printable c0 = false).
  { intros s0 s Hin.
    destruct (Hstr s0 s Hin) as (r & p0 & c0 & q0 & E & H1 & H2 & H3 & H4 & H5 & H6).
    exists r, p0, c0, (q0 ++ [c]). rewrite E.
    repeat split; try assumption.
    now rewrite <- !app_assoc. }
  destruct (printable c) eqn:Ec.
  - split; [|exact Hold].
    exists pre0, (run ++ [c]). split; [|split; [|split; [|split]]].
    + rewrite Epre. now rewrite app_assoc.
    + rewrite Ecur, map_app. reflexivity.
    + rewrite forallb_app, Hrun. cbn. now rewrite Ec.
    + exact Hnp.
    + intros _. destruct run as [|b0 run'].
      * cbn in Ecur. subst current. rewrite Epre, app_nil_r. reflexivity.
      * subst current. cbn [map]. apply Hstart. discriminate.
  - split.
    + exists (pre ++ [c]), []. rewrite app_nil_r.
      repeat split; try reflexivity.
      * rewrite rev_unit. exact Ec.
      * intro H. now contradiction H.
    + destruct (Z.geb_spec (len current) min_len) as [Hge|Hlt]; [|exact Hold].
      intros s0 s Hin. apply in_app_or in Hin.
      destruct Hin as [Hin|[E|[]]]; [now apply Hold|].
      injection E as <- <-.
      assert (Hne : run <> []).
      { intro E. subst run. cbn in Ecur. subst current.
        unfold len in Hge. cbn in Hge. lia. }
      exists run, pre0, c, [].
      rewrite Epre, <- app_assoc.
      repeat split; try assumption.
      * symmetry. now apply Hstart.
      * unfold text. now rewrite Ecur.
      * rewrite Ecur, len_map in Hge. exact Hge.
Qed.

Lemma strings_loop_inv (min_len : Z) (rest : bytes) :
  0 < min_len ->
  forall pre st,
    strings_inv min_len pre st ->
    strings_inv min_len (pre ++ rest)
                (GoproMDBParser.strings_loop min_len rest (len pre) st).
Proof.
  intro Hmin. induction rest as [|c rest IH]; intros pre st Hinv.
  - rewrite app_nil_r. exact Hinv.
  - cbn [GoproMDBParser.strings_loop].
    replace (pre ++ c :: rest) with ((pre ++ [c]) ++ rest)
      by now rewrite <- app_assoc.
    replace (len pre + 1) with (len (pre ++ [c]))
      by (rewrite len_app; reflexivity).
    apply IH. now apply strings_step_inv.
Qed.

(** X7.  With a positive [min_len], every pair [(start, s)] that
    [find_all_strings] returns is a maximal run of printable bytes of the
    file: [s] spells the bytes found at [start], it has at least [min_len]
    characters, and the bytes just before and just after the run, when they
    exist, are not printable. *)
Theorem find_all_strings_sound (self : GoproMDBParser.t) (min_len : Z)
        (start : Z) (s : string) :
  0 < min_len ->
  In (start, s) (GoproMDBParser.find_all_strings self min_len) ->
  exists run,
    s = text run
    /\ min_len <= len run
    /\ Z.of_nat (String.length s) = len run
    /\ maximal_run (GoproMDBParser.data self) start run.
Proof.
  intros Hmin Hin. unfold GoproMDBParser.find_all_strings in Hin.
  pose proof (strings_loop_inv min_len (GoproMDBParser.data self) Hmin
                [] ([], [], 0)) as Hinv.
  cbn [app] in Hinv.
  replace (len (@nil byte)) with 0 in Hinv by reflexivity.
  destruct (GoproMDBParser.strings_loop min_len (GoproMDBParser.data self) 0
                                        ([], [], 0))
    as [[strings current] start0].
  destruct Hinv as ((pre0 & run & Epre & Ecur & Hrun & Hnp & Hstart) & Hstr).
  { split.
    - exists [], []. repeat split.
    - intros s0 s1 []. }
  assert (Hold : forall s0 s1,
             In (s0, s1) strings ->
             exists run, s1 = text run /\ min_len <= len run
                         /\ Z.of_nat (String.length s1) = len run
                         /\ maximal_run (GoproMDBParser.data self) s0 run).
  { intros s0 s1 H.
    destruct (Hstr s0 s1 H) as (r & p0 & c0 & q0 & E & H1 & H2 & H3 & H4 & H5 & H6).
    exists r. split; [exact H2|]. split; [exact H3|].
    split; [rewrite H2, text_length; reflexivity|].
    exists p0, (c0 :: q0). repeat split; assumption. }
  destruct (Z.geb_spec (len current) min_len) as [Hge|Hlt];
    [|now apply Hold].
  apply in_app_or in Hin. destruct Hin as [Hin|[E|[]]]; [now apply Hold|].
  injection E as <- <-.
  assert (Hne : run <> []).
  { intro E. subst run. cbn in Ecur. subst current.
    unfold len in Hge. cbn in Hge. lia. }
  exists run. split; [unfold text; now rewrite Ecur|].
  split; [rewrite Ecur, len_map in Hge; exact Hge|].
  split; [rewrite Ecur; fold (text run); rewrite text_length; reflexivity|].
  exists pre0, []. rewrite app_nil_r.
  repeat split; try assumption.
  symmetry. now apply Hstart.
Qed.

Lemma find_all_strings_sound_witness :
  let self :=
    GoproMDBParser.set_data ([x00] ++ b "vtag" ++ [x00; x41])
                            GoproMDBParser.init in
  0 < 4
  /\ In (1, "vtag"%string) (GoproMDBParser.find_all_strings self 4)
  /\ exists run,
      "vtag"%string = text run
      /\ 4 <= len run
      /\ Z.of_nat (String.length "vtag") = len run
      /\ maximal_run (GoproMDBParser.data self) 1 run.
Proof.
  intro self.
  assert (H1 : 0 < 4) by lia.
  assert (H2 : In (1, "vtag"%string) (GoproMDBParser.find_all_strings self 4))
    by (left; reflexivity).
  split; [exact H1|]. split; [exact H2|].
  exact (find_all_strings_sound self 4 1 "vtag" H1 H2).
Defined.

(** ** Null-terminated strings *)

Definition nonzero (c : byte) : bool := negb (byte_val c =? 0).

Lemma slice_window {A} (d : list A) (a b : Z) :
  0 <= a -> a <= b -> b <= len d ->
  slice d a b = firstn (Z.to_nat (b - a)) (skipn (Z.to_nat a) d).
Proof.
  intros Ha Hab Hb. unfold slice, clamp.
  destruct (Z.ltb_spec a 0); [lia|].
  destruct (Z.ltb_spec b 0); [lia|].
  now rewrite !Z.min_l by lia.
Qed.

Lemma slice_snoc (d : bytes) (a b : Z) :
  0 <= a -> a <= b -> b < len d ->
  slice d a (b + 1) = slice d a b ++ [nth_byte d b].
Proof.
  intros Ha Hab Hb.
  rewrite !slice_window by lia.
  replace (Z.to_nat (b + 1 - a)) with (S (Z.to_nat (b - a))) by lia.
  set (n := Z.to_nat (b - a)).
  assert (Hn : (n < List.length (skipn (Z.to_nat a) d))%nat).
  { rewrite length_skipn. unfold len in Hb. lia. }
  assert (E : nth_byte d b = nth n (skipn (Z.to_nat a) d) x00).
  { unfold nth_byte. rewrite nth_skipn. f_equal. lia. }
  rewrite E. clear E.
  revert Hn. generalize (skipn (Z.to_nat a) d). clear.
  induction n as [|n IH]; intros l Hn.
  - destruct l; [cbn in Hn; lia | reflexivity].
  - destruct l as [|x l]; [cbn in Hn; lia|].
    cbn [firstn app nth]. f_equal. apply IH. cbn in Hn. lia.
Qed.

(** Where the loop of [_read_cstring] stops, from [e], with enough fuel:
    at the end of the file, at the limit or on a null byte, and not
    before. *)
Lemma cstring_end_spec (d : bytes) (limit : Z) (fuel : nat) :
  forall e,
    0 <= e ->
    len d - e <= Z.of_nat fuel ->
    exists e',
      res (GoproMDBParser.cstring_end fuel d limit e) = Ok e'
      /\ e <= e'
      /\ (e < e' -> e' <= len d /\ e' <= limit)
      /\ (forall i, e <= i < e' ->
                    i < len d /\ nonzero (nth_byte d i) = true)
      /\ (e' < len d -> e' < limit -> nth_byte d e' = x00).
Proof.
  induction fuel as [|fuel IH]; intros e He Hf.
  - exists e. cbn [GoproMDBParser.cstring_end].
    split; [reflexivity|]. split; [lia|]. split; [lia|].
    split; [intros; lia | intros; lia].
  - cbn [GoproMDBParser.cstring_end].
    destruct (Z.ltb_spec e (len d)) as [H1|H1];
      [destruct (Z.ltb_spec e limit) as [H2|H2]|]; cbn [andb].
    + rewrite (res_bind_ok _ _ _ (getitem_res d e ltac:(lia))).
      destruct (Z.eqb_spec (byte_val (nth_byte d e)) 0) as [E|E]; cbn [negb].
      * exists e. split; [reflexivity|]. split; [lia|]. split; [lia|].
        split; [intros; lia|]. intros _ _.
        unfold byte_val in E.
        apply (f_equal Z.to_N) in E. rewrite N2Z.id in E.
        apply (f_equal Byte.of_N) in E. rewrite Byte.of_to_N in E.
        cbn in E. now injection E.
      * destruct (IH (e + 1) ltac:(lia) ltac:(lia))
          as (e' & Er & H3 & H4 & H5 & H6).
        exists e'. split; [exact Er|]. split; [lia|].
        split; [intros _; destruct (Z.eq_dec (e + 1) e'); [lia | apply H4; lia]|].
        split; [|exact H6].
        intros i Hi. destruct (Z.eq_dec i e) as [->|].
        -- split; [lia|]. unfold nonzero.
           now destruct (Z.eqb_spec (byte_val (nth_byte d e)) 0).
        -- apply H5. lia.
    + exists e. split; [reflexivity|]. split; [lia|]. split; [lia|].
      split; intros; lia.
    + exists e. split; [reflexivity|]. split; [lia|]. split; [lia|].
      split; intros; lia.
Qed.

(** X8.  [_read_cstring] at an offset that is not negative never raises
    and decodes the bytes from [offset] up to the first null byte, the end
    of the file or [max_len] bytes, whichever comes first: the bytes it
    decodes hold no null byte, and it stops before [max_len] bytes only on
    a null byte or at the end of the file. *)
Theorem read_cstring_stops_at_null (decode : bytes -> string)
        (self : GoproMDBParser.t) (offset max_len : Z) :
  0 <= offset ->
  let d := GoproMDBParser.data self in
  exists end_,
    res (GoproMDBParser._read_cstring decode self offset max_len)
    = Ok (decode (slice d offset end_))
    /\ offset <= end_
    /\ len (slice d offset end_) = Z.min (end_ - offset) (Z.max 0 (len d - offset))
    /\ len (slice d offset end_) <= Z.max 0 max_len
    /\ forallb nonzero (slice d offset end_) = true
    /\ (end_ < len d -> end_ < offset + max_len -> nth_byte d end_ = x00).
Proof.
  intros Ho d. unfold GoproMDBParser._read_cstring. fold d.
  destruct (cstring_end_spec d (offset + max_len)
              (Z.to_nat (len d - offset)) offset Ho ltac:(lia))
    as (e' & Er & H1 & H2 & H3 & H4).
  exists e'. rewrite (res_bind_ok _ _ _ Er).
  split; [reflexivity|]. split; [exact H1|].
  destruct (Z.eq_dec offset e') as [<-|Hne].
  - assert (E : slice d offset offset = []).
    { unfold slice. rewrite Z.sub_diag. reflexivity. }
    rewrite E. change (len (@nil byte)) with 0. cbn [forallb].
    split; [lia|]. split; [lia|]. split; [reflexivity | exact H4].
  - destruct (H2 ltac:(lia)) as (H5 & H6).
    assert (Hlen : len (slice d offset e') = e' - offset).
    { rewrite slice_window by lia. unfold len.
      rewrite length_firstn, length_skipn. unfold len in H5. lia. }
    rewrite Hlen.
    split; [lia|]. split; [lia|]. split; [|exact H4].
    assert (Hall : forall n : nat,
               offset + Z.of_nat n <= e' ->
               forallb nonzero (slice d offset (offset + Z.of_nat n)) = true).
    { induction n as [|n IH]; intro Hn.
      - rewrite Z.add_0_r. unfold slice. now rewrite Z.sub_diag.
      - replace (offset + Z.of_nat (S n)) with (offset + Z.of_nat n + 1) by lia.
        rewrite slice_snoc by lia.
        rewrite forallb_app, IH by lia. cbn [forallb andb].
        destruct (H3 (offset + Z.of_nat n) ltac:(lia)) as (_ & ->).
        reflexivity. }
    specialize (Hall (Z.to_nat (e' - offset))).
    replace (offset + Z.of_nat (Z.to_nat (e' - offset))) with e' in Hall by lia.
    apply Hall. lia.
Qed.

Lemma read_cstring_stops_at_null_witness :
  let self :=
    GoproMDBParser.set_data (b "GX01" ++ [x00] ++ b "MP4")
                            GoproMDBParser.init in
  0 <= 2
  /\ exists end_,
      res (GoproMDBParser._read_cstring string_of_list_byte self 2 256)
      = Ok (string_of_list_byte (slice (GoproMDBParser.data self) 2 end_))
      /\ forallb nonzero (slice (GoproMDBParser.data self) 2 end_) = true.
Proof.
  intro self.
  assert (H : 0 <= 2) by lia.
  split; [exact H|].
  destruct (read_cstring_stops_at_null string_of_list_byte self 2 256 H)
    as (e & E & H1 & H2 & H3 & H4 & H5).
  exists e. split; [exact E | exact H4].
Defined.

(** ** PageAnalyzer: the pages of a file *)

(** The [PageInfo] of the page at [o]. *)
Definition page_info_at (d : bytes) (ps o : Z) : PageInfo.t :=
  let page_data := slice d o (o + ps) in
  if len page_data <? 8
  then PageInfo.mk o 0 EmptyString 0 0 0 0 page_data
  else
    let k := byte_val (nth_byte page_data 0) in
    PageInfo.mk o (Z.land k 0x0F)
                (RecordHeader.table_map_get
                   PageInfo.PAGE_KIND_NAMES (Z.land k 0x0F)
                   ("UNKNOWN_" ++ Fmt.d 0 (Z.land k 0x0F))%string)
                (Z.land k 0xF0)
                (byte_val (nth_byte page_data 1))
                (le_sum page_data 2 2) (le_sum page_data 4 4) page_data.

Lemma parse_page_res (self : PageAnalyzer.t) (o : Z) :
  res (PageAnalyzer._parse_page self o)
  = Ok (page_info_at (PageAnalyzer.data self) (PageAnalyzer.page_size self) o).
Proof.
  unfold PageAnalyzer._parse_page, page_info_at. cbv zeta.
  set (pd := slice _ _ _).
  destruct (Z.ltb_spec (len pd) 8); [reflexivity|].
  rewrite (res_bind_ok _ _ _ (getitem_res pd 0 ltac:(lia))).
  rewrite (res_bind_ok _ _ _ (getitem_res pd 0 ltac:(lia))).
  rewrite (res_bind_ok _ _ _ (getitem_res pd 1 ltac:(lia))).
  unfold unpack_H, unpack_I.
  rewrite (res_bind_ok _ _ _
             (unpack_uint_res 2 pd 2 ltac:(lia) ltac:(simpl; lia))).
  rewrite (res_bind_ok _ _ _
             (unpack_uint_res 4 pd 4 ltac:(lia) ltac:(simpl; lia))).
  reflexivity.
Qed.

Lemma analyze_all_fold (l : list Z) :
  forall s : PageAnalyzer.t,
    fold_left
      (fun s o =>
         PageAnalyzer.mk (PageAnalyzer.data s) (PageAnalyzer.page_size s)
           (PageAnalyzer.pages s
            ++ [page_info_at (PageAnalyzer.data s)
                             (PageAnalyzer.page_size s) o]))
      l s
    = PageAnalyzer.mk (PageAnalyzer.data s) (PageAnalyzer.page_size s)
        (PageAnalyzer.pages s
         ++ map (page_info_at (PageAnalyzer.data s) (PageAnalyzer.page_size s))
                l).
Proof.
  induction l as [|o l IH]; intro s; cbn [fold_left map].
  - rewrite app_nil_r. now destruct s.
  - rewrite IH. cbn [PageAnalyzer.data PageAnalyzer.page_size
                     PageAnalyzer.pages].
    now rewrite <- app_assoc.
Qed.

Lemma page_info_data (d : bytes) (ps o : Z) :
  PageInfo.data (page_info_at d ps o) = slice d o (o + ps)
  /\ PageInfo.offset (page_info_at d ps o) = o.
Proof.
  unfold page_info_at. cbv zeta. destruct (_ <? 8); split; reflexivity.
Qed.

(** The slices of [ps] bytes taken at the multiples of [ps] from [o] on
    make up the file from [o] on. *)
Lemma slices_tile (d : bytes) (ps : Z) (fuel : nat) :
  0 < ps ->
  forall o,
    0 <= o ->
    len d - o <= Z.of_nat fuel ->
    List.concat (map (fun o => slice d o (o + ps)) (range o (len d) ps))
    = skipn (Z.to_nat o) d.
Proof.
  intro Hps. induction fuel as [|fuel IH]; intros o Ho Hf.
  - rewrite range_nil by lia. cbn [map List.concat].
    symmetry. apply skipn_all2. unfold len in Hf. lia.
  - destruct (Z.lt_ge_cases o (len d)) as [Hlt|Hge].
    + rewrite range_cons by lia. cbn [map List.concat].
      rewrite IH by lia.
      unfold slice, clamp.
      destruct (Z.ltb_spec o 0); [lia|].
      destruct (Z.ltb_spec (o + ps) 0); [lia|].
      rewrite (Z.min_l o) by lia.
      destruct (Z.le_gt_cases (o + ps) (len d)).
      * rewrite Z.min_l by lia.
        replace (Z.to_nat (o + ps))
          with (Z.to_nat (o + ps - o) + Z.to_nat o)%nat by lia.
        rewrite <- skipn_skipn. apply firstn_skipn.
      * rewrite Z.min_r by lia.
        rewrite (skipn_all2 (n := Z.to_nat (o + ps))) by (unfold len in *; lia).
        rewrite app_nil_r. apply firstn_all2.
        rewrite length_skipn. unfold len. lia.
    + rewrite range_nil by lia. cbn [map List.concat].
      symmetry. apply skipn_all2. unfold len in Hge. lia.
Qed.

(** X9.  With a positive page size [analyze_all] never raises and cuts the
    file into consecutive pages: one page for every multiple of the page
    size inside the file, that is the file length divided by the page size,
    rounded up; every page holds between 1 and [page_size] bytes, starts at
    a multiple of the page size, and the page contents, put end to end, are
    the file. *)
Theorem analyze_all_tiles_file (self : PageAnalyzer.t) :
  0 < PageAnalyzer.page_size self ->
  let d := PageAnalyzer.data self in
  let ps := PageAnalyzer.page_size self in
  exists self',
    res (PageAnalyzer.analyze_all self) = Ok self'
    /\ PageAnalyzer.data self' = d
    /\ PageAnalyzer.page_size self' = ps
    /\ PageAnalyzer.pages self' = map (page_info_at d ps) (range 0 (len d) ps)
    /\ len (PageAnalyzer.pages self') = (len d + ps - 1) / ps
    /\ List.concat (map PageInfo.data (PageAnalyzer.pages self')) = d
    /\ forall p, In p (PageAnalyzer.pages self') ->
                 PageInfo.offset p mod ps = 0
                 /\ 0 <= PageInfo.offset p < len d
                 /\ 0 < len (PageInfo.data p) <= ps
                 /\ p = page_info_at d ps (PageInfo.offset p).
Proof.
  intros Hps d ps. unfold PageAnalyzer.analyze_all. cbv zeta.
  cbn [PageAnalyzer.data PageAnalyzer.page_size].
  rewrite (for_each_pure _ _
             (fun s o =>
                PageAnalyzer.mk (PageAnalyzer.data s) (PageAnalyzer.page_size s)
                  (PageAnalyzer.pages s
                   ++ [page_info_at (PageAnalyzer.data s)
                                    (PageAnalyzer.page_size s) o])));
    [|intros s o _; now rewrite (res_bind_ok _ _ _ (parse_page_res s o))].
  rewrite analyze_all_fold.
  cbn [PageAnalyzer.data PageAnalyzer.page_size PageAnalyzer.pages app].
  fold d ps.
  eexists. split; [reflexivity|].
  cbn [PageAnalyzer.data PageAnalyzer.page_size PageAnalyzer.pages].
  split; [reflexivity|]. split; [reflexivity|]. split; [reflexivity|].
  split; [|split].
  - rewrite len_map, range_length.
    assert (0 <= len d) by (unfold len; lia).
    replace (len d - 0 + ps - 1) with (len d + ps - 1) by lia.
    apply Z.max_r. apply Z.div_pos; lia.
  - rewrite map_map.
    rewrite (map_ext _ (fun o => slice d o (o + ps)))
      by (intro o; apply page_info_data).
    rewrite (slices_tile d ps (List.length d) Hps 0 ltac:(lia)
                         ltac:(unfold len; lia)).
    reflexivity.
  - intros p Hin. apply in_map_iff in Hin. destruct Hin as (o & <- & Hin).
    apply in_range in Hin; [|exact Hps].
    destruct (page_info_data d ps o) as (Ed & Eo).
    rewrite Ed, Eo. rewrite Z.sub_0_r in Hin.
    split; [tauto|]. split; [lia|]. split; [|reflexivity].
    rewrite len_slice_exact by lia. lia.
Qed.

Lemma analyze_all_tiles_file_witness :
  let self := PageAnalyzer.init (blank 1000) 512 in
  0 < PageAnalyzer.page_size self
  /\ exists self',
      res (PageAnalyzer.analyze_all self) = Ok self'
      /\ len (PageAnalyzer.pages self') = 2
      /\ List.concat (map PageInfo.data (PageAnalyzer.pages self'))
         = PageAnalyzer.data self.
Proof.
  intro self.
  assert (H : 0 < PageAnalyzer.page_size self) by reflexivity.
  split; [exact H|].
  destruct (analyze_all_tiles_file self H) as (s' & E & _ & _ & _ & L & C & _).
  exists s'. split; [exact E|]. split; [exact L | exact C].
Defined.

Lemma nth_byte_head (d : bytes) (i : Z) :
  0 <= i < 8 -> 8 <= len d -> nth_byte (slice d 0 8) i = nth_byte d i.
Proof.
  intros Hi Hl. rewrite slice_window by lia. unfold nth_byte.
  cbn [Z.to_nat skipn]. rewrite nth_firstn.
  destruct (Nat.ltb_spec (Z.to_nat i) (Z.to_nat (8 - 0))); [reflexivity | lia].
Qed.

(** X10.  The two programs read a page header alike: on a page of at least
    8 bytes, [PageAnalyzer._parse_page] (gopro_mdb_parser.py) and the header
    that [MCOPageAnalyzer._scan_pages] builds (mco_page_analyzer.py) give
    the same kind, flags, extra flags, user value and kind name, and the
    name is always one of the sixteen names of the table, never the
    formatted default. *)
Theorem page_headers_agree (d : bytes) (ps o : Z) :
  8 <= len (slice d o (o + ps)) ->
  let p := page_info_at d ps o in
  let h := MCOPage.header (page_at d ps o) in
  PageInfo.kind p = MCOPageHeader.page_type h
  /\ PageInfo.flags p = MCOPageHeader.page_flags h
  /\ PageInfo.extraflags p = MCOPageHeader.extraflags h
  /\ PageInfo.user p = MCOPageHeader.user h
  /\ PageInfo.kind_name p = MCOPageHeader.type_name h
  /\ In (PageInfo.kind p, PageInfo.kind_name p) PageInfo.PAGE_KIND_NAMES.
Proof.
  intro Hl. cbv zeta. unfold page_info_at, page_at. cbv zeta.
  set (pd := slice d o (o + ps)) in *.
  destruct (Z.ltb_spec (len pd) 8); [lia|].
  cbn [MCOPage.header PageInfo.kind PageInfo.flags PageInfo.extraflags
       PageInfo.user PageInfo.kind_name].
  unfold header_of.
  assert (H8 : len (slice pd 0 8) = 8) by (rewrite len_slice; lia).
  rewrite H8. cbn [Z.ltb Z.compare Pos.compare Pos.compare_cont].
  unfold MCOPageHeader.type_name, MCOPageHeader.page_type,
    MCOPageHeader.page_flags, MCOPageKind.name_for.
  cbn [MCOPageHeader.kind MCOPageHeader.extraflags MCOPageHeader.user].
  cbn [le_sum].
  rewrite !nth_byte_head by lia.
  replace (2 + 1) with 3 by lia.
  split; [reflexivity|]. split; [reflexivity|]. split; [reflexivity|].
  split; [reflexivity|].
  generalize (low4_cases (byte_val (nth_byte pd 0))).
  generalize (Z.land (byte_val (nth_byte pd 0)) 15).
  intros x Hx. cbn [In] in Hx.
  repeat (destruct Hx as [<-|Hx]; [split; [reflexivity | cbn; tauto]|]).
  contradiction.
Qed.

Lemma page_headers_agree_witness :
  let d := [x25; x01; x03; x00; x00; x00; x00; x00; x41; x42] in
  8 <= len (slice d 0 (0 + 512))
  /\ PageInfo.kind_name (page_info_at d 512 0) = "AUTOID_OVF"%string
  /\ MCOPageHeader.type_name (MCOPage.header (page_at d 512 0))
     = "AUTOID_OVF"%string.
Proof.
  intro d.
  assert (H : 8 <= len (slice d 0 (0 + 512))) by (vm_compute; discriminate).
  split; [exact H|].
  destruct (page_headers_agree d 512 0 H) as (_ & _ & _ & _ & E & _).
  split; [reflexivity|]. rewrite <- E. reflexivity.
Defined.

(** ** Pointer scans *)

(** The word at [i] looks like a pointer into the file, for
    [SchemaAnalyzer._find_pointers]. *)
Definition is_pointer (d : bytes) (i : Z) : bool :=
  (0x1000 <? le_sum d i 4) && (le_sum d i 4 <? len d)
  && (le_sum d i 4 mod 4 =? 0).

Definition pointer_at (d : bytes) (i : Z) : SchemaAnalyzer.pointer :=
  {| SchemaAnalyzer.at_ := Fmt.hex_int i;
     SchemaAnalyzer.points_to := Fmt.hex_int (le_sum d i 4) |}.

(** X11.  [_find_pointers] never raises.  It reports, in file order, the
    4-byte words of the region 0x400..0xFFF that hold a multiple of 4 above
    0x1000 and below the file length; the last word of the file is never
    looked at, and every pointer reported points forward, past the place it
    was found at. *)
Theorem find_pointers_point_forward (d : bytes) :
  let words := range HEADER_SIZE (Z.min 0x1000 (len d - 4)) 4 in
  res (SchemaAnalyzer._find_pointers d)
  = Ok (map (pointer_at d) (filter (is_pointer d) words))
  /\ forall i, In i (filter (is_pointer d) words) ->
               0x400 <= i < 0x1000
               /\ i mod 4 = 0
               /\ i + 4 < len d
               /\ i < le_sum d i 4 < len d
               /\ le_sum d i 4 mod 4 = 0.
Proof.
  cbv zeta. split.
  - unfold SchemaAnalyzer._find_pointers. cbv zeta.
    rewrite (for_each_pure _ _
               (fun acc i => if is_pointer d i then acc ++ [pointer_at d i]
                             else acc)).
    + now rewrite fold_append_filter.
    + intros acc i Hin. apply in_range in Hin; [|lia].
      unfold HEADER_SIZE in Hin. unfold unpack_I.
      rewrite (res_bind_ok _ _ _
                 (unpack_uint_res 4 d i ltac:(lia) ltac:(simpl; lia))).
      fold (is_pointer d i). destruct (is_pointer d i); reflexivity.
  - intros i Hin. apply filter_In in Hin. destruct Hin as (Hin & Hp).
    apply in_range in Hin; [|lia]. unfold HEADER_SIZE in Hin.
    unfold is_pointer in Hp.
    apply andb_prop in Hp. destruct Hp as (Hp & H3).
    apply andb_prop in Hp. destruct Hp as (H1 & H2).
    apply Z.ltb_lt in H1, H2. apply Z.eqb_eq in H3.
    destruct Hin as (Hr & Hm).
    assert (i mod 4 = 0).
    { replace i with ((i - 1024) + 256 * 4) by lia.
      now rewrite Z.mod_add by lia. }
    lia.
Qed.

(** The 8-byte word at [i] of a page points into the file, for
    [PageAnalyzer.parse_autoid_ovf_page]. *)
Definition is_file_pointer (self : PageAnalyzer.t) (page : PageInfo.t)
           (i : Z) : bool :=
  (0x100 <? le_sum (PageInfo.data page) i 8)
  && (le_sum (PageInfo.data page) i 8 <? len (PageAnalyzer.data self)).

Definition pointer_entry_at (page : PageInfo.t) (i : Z)
  : PageAnalyzer.pointer_entry :=
  {| PageAnalyzer.pe_offset := i;
     PageAnalyzer.pe_pointer := Fmt.hex_int (le_sum (PageInfo.data page) i 8) |}.

Lemma slice_head {A} (l : list A) (n : Z) :
  0 <= n -> slice l 0 n = firstn (Z.to_nat n) l.
Proof.
  intro Hn. unfold slice, clamp. cbn [Z.ltb Z.compare].
  destruct (Z.ltb_spec n 0); [lia|].
  assert (0 <= len l) by (unfold len; lia).
  rewrite (Z.min_l 0 (len l)) by lia. cbn [Z.to_nat skipn]. rewrite Z.sub_0_r.
  destruct (Z.le_gt_cases n (len l)).
  - now rewrite (Z.min_l n) by lia.
  - rewrite (Z.min_r n) by lia.
    rewrite !firstn_all2; unfold len in *; try lia. reflexivity.
Qed.

(** X12.  [parse_autoid_ovf_page] never raises.  It refuses every page
    whose kind is not 5; on a page of kind 5 it lists the first 20, at
    most, of the 8-byte words of the page, taken at the multiples of 8 from
    8 on and leaving out the last 8 bytes, whose value lies strictly between
    0x100 and the file length. *)
Theorem autoid_ovf_pointers (self : PageAnalyzer.t) (page : PageInfo.t) :
  let words := range 8 (len (PageInfo.data page) - 8) 8 in
  let found := filter (is_file_pointer self page) words in
  res (PageAnalyzer.parse_autoid_ovf_page self page)
  = Ok (if PageInfo.kind page =? 5
        then PageAnalyzer.AUTOID_OVF
               (Fmt.hex_int (PageInfo.offset page)) (PageInfo.user page)
               (PageInfo.flag_names page)
               (map (pointer_entry_at page) (firstn 20 found))
        else PageAnalyzer.error "Not an AUTOID_OVF page")
  /\ len (firstn 20 found) <= 20
  /\ forall i, In i (firstn 20 found) ->
               8 <= i
               /\ i mod 8 = 0
               /\ i + 8 < len (PageInfo.data page)
               /\ 0x100 < le_sum (PageInfo.data page) i 8
                  < len (PageAnalyzer.data self).
Proof.
  cbv zeta. split; [|split].
  - unfold PageAnalyzer.parse_autoid_ovf_page.
    destruct (PageInfo.kind page =? 5); [|reflexivity]. cbn [negb].
    assert (E : res (for_each (range 8 (len (PageInfo.data page) - 8) 8)
                       (fun pointers i =>
                          ptr <- unpack_Q (PageInfo.data page) i ;;
                          if (0x100 <? ptr)
                             && (ptr <? len (PageAnalyzer.data self))
                          then ret (pointers
                                    ++ [{| PageAnalyzer.pe_offset := i;
                                           PageAnalyzer.pe_pointer :=
                                             Fmt.hex_int ptr |}])
                          else ret pointers) [])
                = Ok (map (pointer_entry_at page)
                          (filter (is_file_pointer self page)
                                  (range 8 (len (PageInfo.data page) - 8) 8)))).
    { rewrite (for_each_pure _ _
                 (fun acc i => if is_file_pointer self page i
                               then acc ++ [pointer_entry_at page i]
                               else acc)).
      - now rewrite fold_append_filter.
      - intros acc i Hin. apply in_range in Hin; [|lia].
        unfold unpack_Q.
        rewrite (res_bind_ok _ _ _
                   (unpack_uint_res 8 (PageInfo.data page) i
                      ltac:(lia) ltac:(simpl; lia))).
        fold (is_file_pointer self page i).
        destruct (is_file_pointer self page i); reflexivity. }
    rewrite (res_bind_ok _ _ _ E). cbn [res ret fst snd].
    rewrite slice_head by lia.
    change (Z.to_nat 20) with 20%nat.
    now rewrite firstn_map.
  - unfold len. rewrite length_firstn. lia.
  - intros i Hin.
    assert (Hin' : In i (filter (is_file_pointer self page)
                                (range 8 (len (PageInfo.data page) - 8) 8))).
    { rewrite <- (firstn_skipn 20). apply in_or_app. now left. }
    apply filter_In in Hin'. destruct Hin' as (Hr & Hp).
    apply in_range in Hr; [|lia].
    unfold is_file_pointer in Hp.
    apply andb_prop in Hp. destruct Hp as (H1 & H2).
    apply Z.ltb_lt in H1, H2. destruct Hr as (Hr & Hm).
    assert (i mod 8 = 0).
    { replace i with ((i - 8) + 1 * 8) by lia.
      now rewrite Z.mod_add by lia. }
    lia.
Qed.

(** ** The dictionary header *)

Lemma uint_at_range (w : nat) (d : bytes) (o : Z) :
  0 <= uint_at w d o < 256 ^ Z.of_nat w.
Proof.
  unfold uint_at. destruct (_ <=? _).
  - revert o. induction w as [|w IH]; intro o.
    + cbn. lia.
    + cbn [le_sum]. specialize (IH (o + 1)).
      pose proof (byte_val_range (nth_byte d o)).
      replace (Z.of_nat (S w)) with (Z.of_nat w + 1) by lia.
      rewrite Z.pow_add_r by lia. lia.
  - split; [lia|]. apply Z.pow_pos_nonneg; lia.
Qed.

Lemma dict_read_u16_res (self : DictionaryParser.t) o :
  0 <= o ->
  res (DictionaryParser._read_u16 self o)
  = Ok (uint_at 2 (DictionaryParser.data self) o).
Proof.
  intro H. unfold DictionaryParser._read_u16, uint_at.
  destruct (Z.leb_spec (o + 2) (len (DictionaryParser.data self)));
    destruct (Z.leb_spec (o + Z.of_nat 2) (len (DictionaryParser.data self)));
    try (simpl in *; lia); [|reflexivity].
  apply unpack_uint_res; simpl; lia.
Qed.

Lemma dict_read_u32_res (self : DictionaryParser.t) o :
  0 <= o ->
  res (DictionaryParser._read_u32 self o)
  = Ok (uint_at 4 (DictionaryParser.data self) o).
Proof.
  intro H. unfold DictionaryParser._read_u32, uint_at.
  destruct (Z.leb_spec (o + 4) (len (DictionaryParser.data self)));
    destruct (Z.leb_spec (o + Z.of_nat 4) (len (DictionaryParser.data self)));
    try (simpl in *; lia); [|reflexivity].
  apply unpack_uint_res; simpl; lia.
Qed.

(** X13.  [DictionaryParser._parse_header] never raises, whatever the
    length of the file: the version is the three 16-bit words at 0x0C10,
    taken without any check (0 where the file ends before them), the class
    count is the word at 0x0C20 when it is at most 10 and 4 otherwise, the
    index count the word at 0x0C38 when it is at most 20 and 6 otherwise.
    So the counts left in the parser never exceed 10 and 20. *)
Theorem dictionary_header_counts (self : DictionaryParser.t) :
  let d := DictionaryParser.data self in
  exists self',
    res (DictionaryParser._parse_header self) = Ok self'
    /\ DictionaryParser.data self' = d
    /\ DictionaryParser.mco_version self'
       = MCOVersion.mk (uint_at 2 d 0x0C10) (uint_at 2 d 0x0C12)
                       (uint_at 2 d 0x0C14)
    /\ DictionaryParser.num_classes self'
       = (if uint_at 4 d 0x0C20 >? 10 then 4 else uint_at 4 d 0x0C20)
    /\ DictionaryParser.num_indexes self'
       = (if uint_at 4 d 0x0C38 >? 20 then 6 else uint_at 4 d 0x0C38)
    /\ 0 <= DictionaryParser.num_classes self' <= 10
    /\ 0 <= DictionaryParser.num_indexes self' <= 20.
Proof.
  intro d. unfold DictionaryParser._parse_header. cbv zeta.
  unfold DictionaryParser.DICT_OFFSET.
  change 3104 with (3072 + 32). change 3128 with (3072 + 56).
  rewrite (res_bind_ok _ _ _ (dict_read_u16_res self (3072 + 16) ltac:(lia))).
  rewrite (res_bind_ok _ _ _ (dict_read_u16_res self (3072 + 18) ltac:(lia))).
  rewrite (res_bind_ok _ _ _ (dict_read_u16_res self (3072 + 20) ltac:(lia))).
  rewrite (res_bind_ok _ _ _ (dict_read_u32_res _ (3072 + 32) ltac:(lia))).
  cbn [DictionaryParser.data DictionaryParser.mco_version
       DictionaryParser.num_classes DictionaryParser.num_indexes].
  fold d.
  pose proof (uint_at_range 4 d (3072 + 32)) as R1.
  pose proof (uint_at_range 4 d (3072 + 56)) as R2.
  assert (E : forall (c : bool) (a b' : DictionaryParser.t),
             DictionaryParser.data a = d -> DictionaryParser.data b' = d ->
             DictionaryParser.data (if c then a else b') = d)
    by (intros [] ? ? ? ?; assumption).
  destruct (Z.gtb_spec (uint_at 4 d (3072 + 32)) 10);
    cbn [DictionaryParser.data DictionaryParser.mco_version
         DictionaryParser.num_classes DictionaryParser.num_indexes];
    rewrite (res_bind_ok _ _ _ (dict_read_u32_res _ (3072 + 56) ltac:(lia)));
    cbn [DictionaryParser.data DictionaryParser.mco_version
         DictionaryParser.num_classes DictionaryParser.num_indexes];
    fold d;
    destruct (Z.gtb_spec (uint_at 4 d (3072 + 56)) 20);
    (eexists; split; [reflexivity|]);
    cbn [DictionaryParser.data DictionaryParser.mco_version
         DictionaryParser.num_classes DictionaryParser.num_indexes];
    repeat split; lia.
Qed.

(** ** Schema detection and the record sizes *)

(** X14.  The struct sizes that [_detect_schema] stores are the sizes the
    record scan expects ([RECORD_SIZES], through [expected_sizes_for]), for
    both tables and whatever the file holds; the schema is one of the four
    names, and it is "hero11+" exactly when the file names both
    [camera_model] and [vmoment]. *)
Theorem schema_sizes_consistent (self : GoproMDBParser.t) :
  let s := GoproMDBParser._detect_schema self in
  let d := GoproMDBParser.data self in
  (forall name,
      In name ["mdb_single_ex"; "mdb_grouped_ex"]%string ->
      dict_get (GoproMDBParser.struct_sizes s) name 0
      = dict_get (GoproMDBParser.expected_sizes_for s) name 0)
  /\ In (GoproMDBParser.schema_version s)
        ["hero11+"; "hero9-10"; "hero5-8"; "legacy"]%string
  /\ (GoproMDBParser.schema_version s = "hero11+"%string
      <-> contains (b "camera_model") d = true
          /\ contains (b "vmoment") d = true)
  /\ GoproMDBParser.data s = d.
Proof.
  cbv zeta. unfold GoproMDBParser._detect_schema. cbv zeta.
  destruct (contains (b "camera_model") (GoproMDBParser.data self));
    [destruct (contains (b "vmoment") (GoproMDBParser.data self))
    |destruct (contains (b "vtag") (GoproMDBParser.data self))];
    cbn [GoproMDBParser.set_schema_version GoproMDBParser.schema_version
         String.eqb Ascii.eqb Bool.eqb andb GoproMDBParser.set_struct_sizes
         GoproMDBParser.struct_sizes GoproMDBParser.data];
    (split; [intros name [<-|[<-|[]]]; reflexivity|]);
    (split; [cbn; tauto|]);
    (split; [|reflexivity]);
    (split; [intro E; try discriminate E; now split
            |intros (E1 & E2); try discriminate E1; try discriminate E2;
             reflexivity]).
Qed.

(** ** The raw records of a parsed file *)

Lemma accepted_records_from schema d slots h body :
  In (h, body) (accepted_records schema d slots) ->
  exists slot, In slot slots
               /\ slot_accepted_b schema d slot = true
               /\ (h, body) = slot_record d slot.
Proof.
  unfold accepted_records. intro Hin. apply in_flat_map in Hin.
  destruct Hin as (slot & Hs & Hin). exists slot.
  destruct (slot_accepted_b schema d slot); [|contradiction].
  destruct Hin as [E|[]]. repeat split; [assumption | now symmetry].
Qed.

(** X15.  After [parse] of a file of at least 0x500 bytes, every raw
    record carries the name of one of the two extended tables, never an
    [unknown_] name; its header has [flags] and [next_ptr] 0, since the
    scanner never reads them; and its body holds between 113 and 176 bytes,
    whatever size below 200 the header announces. *)
Theorem raw_record_headers (content : bytes) :
  0x500 <= len content ->
  exists st,
    res (GoproMDBParser.parse content GoproMDBParser.init) = Ok (true, st)
    /\ forall h body,
        In (h, body) (GoproMDBParser.raw_records st) ->
        (RecordHeader.table_name h = "mdb_single_ex"%string
         \/ RecordHeader.table_name h = "mdb_grouped_ex"%string)
        /\ RecordHeader.flags h = 0
        /\ RecordHeader.next_ptr h = 0
        /\ 40 < RecordHeader.size h < 200
        /\ 113 <= len body <= 176.
Proof.
  intro Hlen.
  destruct (parse_result content Hlen) as (st & E & _ & Hr & _).
  exists st. split; [exact E|].
  intros h body Hin. rewrite Hr in Hin.
  assert (Hslots : forall s, In s (range 0x2C00 (len content - 128) 128) ->
                              0 <= s < len content - 128).
  { intros s Hs. apply in_range in Hs; lia. }
  destruct (accepted_records_shape _ _ _ Hslots h body Hin) as (Hb & Ht).
  destruct (accepted_records_from _ _ _ _ _ Hin) as (slot & _ & Ha & Es).
  apply slot_accepted_reflect in Ha. destruct Ha as (_ & _ & Hsz & _).
  unfold slot_record in Es. injection Es as -> _.
  cbn [RecordHeader.flags RecordHeader.next_ptr RecordHeader.size
       RecordHeader.table_id] in *.
  split.
  - unfold RecordHeader.table_name. cbn [RecordHeader.table_id].
    destruct Ht as [-> | ->]; [left | right]; reflexivity.
  - repeat split; lia.
Qed.

Lemma raw_record_headers_witness :
  0x500 <= len (hero11_file x86)
  /\ exists st h body,
      res (GoproMDBParser.parse (hero11_file x86) GoproMDBParser.init)
      = Ok (true, st)
      /\ GoproMDBParser.raw_records st = [(h, body)]
      /\ RecordHeader.table_name h = "mdb_single_ex"%string
      /\ RecordHeader.flags h = 0
      /\ RecordHeader.next_ptr h = 0
      /\ RecordHeader.size h = 134
      /\ 113 <= len body <= 176.
Proof.
  assert (H : 0x500 <= len (hero11_file x86)) by (vm_compute; discriminate).
  split; [exact H|].
  destruct (raw_record_headers (hero11_file x86) H) as (st & E & Hall).
  destruct (parse_result (hero11_file x86) H) as (st2 & E2 & _ & Hr & _).
  assert (Es : st2 = st) by congruence. subst st2.
  assert (Hrec : GoproMDBParser.raw_records st
                 = [slot_record (hero11_file x86) 0x2C00])
    by (rewrite Hr; vm_compute; reflexivity).
  exists st, (fst (slot_record (hero11_file x86) 0x2C00)),
    (snd (slot_record (hero11_file x86) 0x2C00)).
  split; [exact E|]. split; [exact Hrec|].
  destruct (Hall (fst (slot_record (hero11_file x86) 0x2C00))
                 (snd (slot_record (hero11_file x86) 0x2C00)))
    as (Hn & Hf & Hp & Hs & Hb).
  { rewrite Hrec. left. reflexivity. }
  split; [vm_compute; reflexivity|]. split; [exact Hf|]. split; [exact Hp|].
  split; [vm_compute; reflexivity | exact Hb].
Defined.

(** ** Names located in the file *)

(** [n] occurs in [d] at index [k]. *)
Definition occurs_at (d n : bytes) (k : Z) : Prop :=
  exists pre post, d = pre ++ n ++ post /\ len pre = k.

Lemma starts_with_spec (n d : bytes) :
  starts_with n d = true <-> exists post, d = n ++ post.
Proof.
  revert d. induction n as [|a n IH]; intro d.
  - cbn. split; [intros _; now exists d | reflexivity].
  - destruct d as [|c d]; cbn [starts_with].
    + split; [discriminate | intros (post & E); discriminate E].
    + rewrite andb_true_iff, IH. split.
      * intros (Hac & post & ->). apply Byte.byte_dec_bl in Hac. subst c.
        now exists post.
      * intros (post & E). cbn in E. injection E as -> ->.
        split; [apply Byte.byte_dec_lb; reflexivity | now exists post].
Qed.

Lemma starts_with_occurs (n d : bytes) (k : nat) :
  (k <= List.length d)%nat ->
  starts_with n (skipn k d) = true <-> occurs_at d n (Z.of_nat k).
Proof.
  intro Hk. rewrite starts_with_spec. split.
  - intros (post & E). exists (firstn k d), post. split.
    + rewrite <- E. symmetry. apply firstn_skipn.
    + unfold len. rewrite length_firstn. lia.
  - intros (pre & post & E & Hl). exists post. subst d.
    unfold len in Hl. apply Nat2Z.inj in Hl. subst k.
    rewrite skipn_app, Nat.sub_diag, skipn_all. reflexivity.
Qed.

Lemma occurs_at_bound (d n : bytes) (k : Z) :
  occurs_at d n k -> 0 <= k /\ k + len n <= len d.
Proof.
  intros (pre & post & -> & <-). rewrite !len_app. unfold len. lia.
Qed.

Lemma find_from_spec (needle : bytes) (d : bytes) :
  forall pos,
    (find_from needle d pos = -1
     /\ forall k, (k <= List.length d)%nat ->
                  starts_with needle (skipn k d) = false)
    \/ (exists k : nat,
           find_from needle d pos = pos + Z.of_nat k
           /\ (k <= List.length d)%nat
           /\ starts_with needle (skipn k d) = true
           /\ forall j, (j < k)%nat ->
                        starts_with needle (skipn j d) = false).
Proof.
  induction d as [|c d IH]; intro pos; cbn [find_from].
  - destruct (starts_with needle []) eqn:E.
    + right. exists 0%nat. cbn. repeat split; try lia. exact E.
    + left. split; [reflexivity|]. intros k Hk. cbn in Hk.
      replace k with 0%nat by lia. exact E.
  - destruct (starts_with needle (c :: d)) eqn:E.
    + right. exists 0%nat. cbn [skipn]. repeat split; try lia; exact E.
    + destruct (IH (pos + 1)) as [(E1 & Hn) | (k & E1 & Hk & Hs & Hn)].
      * left. split; [exact E1|]. intros [|k] Hk; [exact E|].
        cbn [skipn]. apply Hn. cbn in Hk. lia.
      * right. exists (S k). cbn [skipn List.length].
        split; [rewrite E1; lia|]. split; [lia|]. split; [exact Hs|].
        intros [|j] Hj; [exact E|]. cbn [skipn]. apply Hn. lia.
Qed.

(** [data.find(needle)]: -1 when [needle] does not occur, its first index
    otherwise. *)
Lemma find_spec (d needle : bytes) :
  (find d needle = -1 /\ forall k, ~ occurs_at d needle k)
  \/ (occurs_at d needle (find d needle)
      /\ forall k, occurs_at d needle k -> find d needle <= k).
Proof.
  unfold find.
  destruct (find_from_spec needle d 0) as [(E & Hn) | (k & E & Hk & Hs & Hn)].
  - left. split; [exact E|]. intros k Ho.
    pose proof (occurs_at_bound _ _ _ Ho) as Hb.
    assert (Hl : (Z.to_nat k <= List.length d)%nat).
    { assert (0 <= len needle) by (unfold len; lia). unfold len in Hb. lia. }
    specialize (Hn _ Hl).
    replace k with (Z.of_nat (Z.to_nat k)) in Ho by lia.
    apply starts_with_occurs in Ho; [congruence | exact Hl].
  - right. rewrite E, Z.add_0_l. split.
    + now apply starts_with_occurs.
    + intros j Ho.
      pose proof (occurs_at_bound _ _ _ Ho) as Hb.
      destruct (Z.lt_ge_cases j (Z.of_nat k)) as [Hlt|]; [|lia].
      specialize (Hn (Z.to_nat j) ltac:(lia)).
      replace j with (Z.of_nat (Z.to_nat j)) in Ho by lia.
      apply starts_with_occurs in Ho; [congruence | lia].
Qed.

(** The names of [names] that occur in [d] followed by a null byte, each
    with the index [find] gives. *)
Definition located (d : bytes) (names : list string) : dict Z :=
  flat_map
    (fun name =>
       let pos := find d (b name ++ [x00]) in
       if negb (pos =? -1) then [(name, pos)] else [])
    names.

Lemma located_keys (d : bytes) (names : list string) (k : string) :
  In k (map fst (located d names)) -> In k names.
Proof.
  intro H. apply in_map_iff in H. destruct H as ((name & pos) & <- & Hin).
  unfold located in Hin. apply in_flat_map in Hin.
  destruct Hin as (n & Hn & Hin). destruct (negb _); [|contradiction].
  destruct Hin as [E|[]]. now injection E as -> _.
Qed.

Lemma dict_set_new {V} (m : dict V) (k : string) (v : V) :
  ~ In k (map fst m) -> dict_set m k v = m ++ [(k, v)].
Proof.
  induction m as [|[k0 v0] m IH]; intro Hn; cbn [dict_set app].
  - reflexivity.
  - cbn [map fst In] in Hn.
    destruct (String.eqb_spec k k0) as [->|]; [tauto|].
    rewrite IH by tauto. reflexivity.
Qed.

Lemma located_app (d : bytes) (l1 l2 : list string) :
  located d (l1 ++ l2) = located d l1 ++ located d l2.
Proof. unfold located. apply flat_map_app. Qed.

Lemma located_single (d : bytes) (name : string) :
  located d [name]
  = if negb (find d (b name ++ [x00]) =? -1)
    then [(name, find d (b name ++ [x00]))] else [].
Proof. unfold located. cbn [flat_map]. apply app_nil_r. Qed.

Lemma field_names_fold (d : bytes) (names : list string) :
  forall done : list string,
    NoDup (done ++ names) ->
    fold_left
      (fun found field =>
         let pos := find d (b field ++ [x00]) in
         if negb (pos =? -1) then dict_set found field pos else found)
      names (located d done)
    = located d (done ++ names).
Proof.
  induction names as [|name names IH]; intros done Hnd; cbn [fold_left].
  - now rewrite app_nil_r.
  - cbv zeta.
    assert (Hstep :
              (if negb (find d (b name ++ [x00]) =? -1)
               then dict_set (located d done) name (find d (b name ++ [x00]))
               else located d done)
              = located d (done ++ [name])).
    { rewrite located_app, located_single.
      destruct (negb _); [|now rewrite app_nil_r].
      apply dict_set_new. intro Hin. apply located_keys in Hin.
      apply NoDup_remove_2 in Hnd. apply Hnd. apply in_or_app. now left. }
    rewrite Hstep.
    replace (done ++ name :: names) with ((done ++ [name]) ++ names)
      by now rewrite <- app_assoc.
    apply IH. now rewrite <- app_assoc.
Qed.

Fixpoint distinct (l : list string) : bool :=
  match l with
  | [] => true
  | x :: r => negb (existsb (String.eqb x) r) && distinct r
  end.

Lemma distinct_NoDup (l : list string) : distinct l = true -> NoDup l.
Proof.
  induction l as [|x r IH]; intro H; [constructor|].
  cbn [distinct] in H. apply andb_prop in H. destruct H as (H1 & H2).
  constructor; [|now apply IH].
  intro Hin. apply existsb_eqb_In in Hin. rewrite Hin in H1. discriminate.
Qed.

Lemma located_spec (d : bytes) (names : list string) (name : string) (pos : Z) :
  In (name, pos) (located d names)
  <-> In name names
      /\ occurs_at d (b name ++ [x00]) pos
      /\ forall k, occurs_at d (b name ++ [x00]) k -> pos <= k.
Proof.
  unfold located. rewrite in_flat_map. split.
  - intros (n & Hn & Hin). cbv zeta in Hin.
    destruct (Z.eqb_spec (find d (b n ++ [x00])) (-1)) as [E|E];
      [contradiction|].
    destruct Hin as [Ei|[]]. injection Ei as -> <-.
    split; [exact Hn|].
    destruct (find_spec d (b name ++ [x00])) as [(E1 & _)|H];
      [contradiction | exact H].
  - intros (Hn & Ho & Hfirst). exists name. split; [exact Hn|]. cbv zeta.
    destruct (find_spec d (b name ++ [x00])) as [(E1 & Hno)|(Hf & Hmin)].
    + now apply Hno in Ho.
    + assert (E : find d (b name ++ [x00]) = pos).
      { apply Z.le_antisymm; [now apply Hmin | now apply Hfirst]. }
      rewrite E.
      destruct (Z.eqb_spec pos (-1)) as [->|];
        [apply occurs_at_bound in Ho; lia | now left].
Qed.

(** X16.  [find_field_names] maps a known field name to an offset exactly
    when the name, followed by a null byte, occurs in the file, and the
    offset is then that of its first occurrence; no name is listed twice. *)
Theorem field_names_first_occurrence (self : GoproMDBParser.t)
        (field : string) (pos : Z) :
  let d := GoproMDBParser.data self in
  let found := GoproMDBParser.find_field_names self in
  (In (field, pos) found
   <-> In field GoproMDBParser.known_fields
       /\ occurs_at d (b field ++ [x00]) pos
       /\ forall k, occurs_at d (b field ++ [x00]) k -> pos <= k)
  /\ NoDup (map fst found).
Proof.
  cbv zeta. unfold GoproMDBParser.find_field_names.
  assert (Hnd : NoDup GoproMDBParser.known_fields)
    by (apply distinct_NoDup; vm_compute; reflexivity).
  pose proof (field_names_fold (GoproMDBParser.data self)
                GoproMDBParser.known_fields [] Hnd) as E.
  cbn [app] in E. change (located (GoproMDBParser.data self) []) with (@nil (string * Z)) in E.
  rewrite E. split; [apply located_spec|].
  assert (Hk : forall names,
             NoDup names ->
             NoDup (map fst (located (GoproMDBParser.data self) names))).
  { induction names as [|n names IH]; intro H; [constructor|].
    change (n :: names) with ([n] ++ names). rewrite located_app, map_app.
    inversion H as [|? ? Hn Hr]; subst.
    rewrite located_single.
    destruct (negb _); cbn [map fst app]; [|now apply IH].
    constructor; [|now apply IH].
    intro Hin. apply located_keys in Hin. contradiction. }
  now apply Hk.
Qed.

(** X17.  The two table scans agree: [SchemaAnalyzer._analyze_tables] and
    [GoproMDBParser._find_table_locations] report the same table names, in
    the same order, with the same offsets (in hexadecimal in the first);
    a table is reported exactly when its name, followed by a null byte,
    occurs in the file, at the offset of the first occurrence. *)
Theorem table_scans_agree (self : GoproMDBParser.t) :
  let d := GoproMDBParser.data self in
  let locations := GoproMDBParser._find_table_locations self in
  SchemaAnalyzer._analyze_tables d
  = map (fun e => {| SchemaAnalyzer.table_name := fst e;
                     SchemaAnalyzer.name_offset := Fmt.hex_int (snd e) |})
        locations
  /\ forall name pos,
      In (name, pos) locations
      <-> In name ["mdb_global"; "mdb_single"; "mdb_single_ex";
                   "mdb_grouped_ex"]%string
          /\ occurs_at d (b name ++ [x00]) pos
          /\ forall k, occurs_at d (b name ++ [x00]) k -> pos <= k.
Proof.
  cbv zeta.
  assert (E : GoproMDBParser._find_table_locations self
              = located (GoproMDBParser.data self)
                        ["mdb_global"; "mdb_single"; "mdb_single_ex";
                         "mdb_grouped_ex"]%string).
  { unfold GoproMDBParser._find_table_locations, located.
    cbn [fold_left flat_map]. cbv zeta.
    repeat match goal with
           | |- context [negb ?c] => destruct (negb c)
           end; reflexivity. }
  rewrite E. split; [|intros; apply located_spec].
  unfold SchemaAnalyzer._analyze_tables, located.
  cbn [fold_left flat_map]. cbv zeta.
  repeat match goal with
         | |- context [negb ?c] => destruct (negb c)
         end; reflexivity.
Qed.

(** ** The database information of a parsed file *)

(** What [_parse_mco_version] leaves alone: a property of the parser that
    the two assignments of the method keep is kept by the method. *)
Lemma parse_mco_version_frame (P : GoproMDBParser.t -> Prop)
      (self : GoproMDBParser.t) :
  0 < GoproMDBParser.page_size self ->
  (forall o s, P s -> P (GoproMDBParser.set_dictionary_offset o s)) ->
  (forall v s, P s -> P (GoproMDBParser.set_mco_version v s)) ->
  P self ->
  exists s', res (GoproMDBParser._parse_mco_version self) = Ok s' /\ P s'.
Proof.
  intros Hps Hdo Hmv HP. unfold GoproMDBParser._parse_mco_version.
  destruct (for_first_post (fun _ : Z => True)
              (range 0x800 (Z.min 0x3000 (GoproMDBParser.file_size self))
                     (GoproMDBParser.page_size self))
              (fun offset =>
                 if offset <? len (GoproMDBParser.data self) then
                   b0 <- getitem (GoproMDBParser.data self) offset ;;
                   let kind := Z.land b0 0x0F in
                   if kind =? 4
                   then ret (Some (Z.max 0x0C00 (offset - 0x1400)))
                   else ret None
                 else ret None)) as (found & Ef & _).
  { intros o Hin. apply in_range in Hin; [|assumption].
    destruct (Z.ltb_spec o (len (GoproMDBParser.data self))).
    - rewrite (res_bind_ok _ _ _
                 (getitem_res (GoproMDBParser.data self) o ltac:(lia))).
      cbv zeta. destruct (_ =? 4); eexists; (split; [reflexivity | trivial]).
    - exists None. split; [reflexivity | trivial]. }
  rewrite (res_bind_ok _ _ _ Ef). cbv zeta.
  set (self1 := match found with
                | Some o => GoproMDBParser.set_dictionary_offset o self
                | None => self
                end).
  set (self2 := if GoproMDBParser.dictionary_offset self1 =? 0
                then GoproMDBParser.set_dictionary_offset 0x0C10 self1
                else self1).
  assert (H2 : P self2).
  { subst self2 self1. destruct found; destruct (_ =? 0); auto. }
  assert (Hset : forall v1 v2 v3 o,
             P (GoproMDBParser.set_version v1 v2 v3 o self2)).
  { intros. unfold GoproMDBParser.set_version. auto. }
  assert (Htriple : forall o (accept : Z -> Z -> Z -> bool),
             0 <= o ->
             exists r,
               res (v1 <- GoproMDBParser._read_u16 self2 o ;;
                    v2 <- GoproMDBParser._read_u16 self2 (o + 2) ;;
                    v3 <- GoproMDBParser._read_u16 self2 (o + 4) ;;
                    if accept v1 v2 v3
                    then ret (Some (GoproMDBParser.set_version
                                      v1 v2 v3 o self2))
                    else ret None) = Ok r
               /\ forall s', r = Some s' -> P s').
  { intros o accept Ho.
    destruct (version_triple_accepted self2 o accept Ho) as (r & Er & Hr).
    exists r. split; [exact Er|].
    intros s' E. destruct (Hr s' E) as (-> & _). apply Hset. }
  assert (Hearly : exists r,
             res (if GoproMDBParser.file_size self2 >? 0x0C16 then
                    v1 <- GoproMDBParser._read_u16 self2 0x0C10 ;;
                    v2 <- GoproMDBParser._read_u16 self2 0x0C12 ;;
                    v3 <- GoproMDBParser._read_u16 self2 0x0C14 ;;
                    if (1 <=? v1) && (v1 <=? 15) && (v2 <=? 99) && (v3 <? 10000)
                    then ret (Some (GoproMDBParser.set_version
                                      v1 v2 v3 0x0C10 self2))
                    else ret None
                  else ret None) = Ok r
             /\ forall s', r = Some s' -> P s').
  { destruct (_ >? _).
    - apply (Htriple 0x0C10
               (fun v1 v2 v3 =>
                  (1 <=? v1) && (v1 <=? 15) && (v2 <=? 99) && (v3 <? 10000))).
      lia.
    - exists None. split; [reflexivity | discriminate]. }
  destruct Hearly as (early & Ee & He).
  rewrite (res_bind_ok _ _ _ Ee).
  destruct early as [s'|].
  - exists s'. split; [reflexivity | now apply He].
  - destruct (for_first_post P
                (range 0x0C00
                       (Z.min 0x1000 (GoproMDBParser.file_size self2 - 6)) 2)
                (fun offset =>
                   v1 <- GoproMDBParser._read_u16 self2 offset ;;
                   v2 <- GoproMDBParser._read_u16 self2 (offset + 2) ;;
                   v3 <- GoproMDBParser._read_u16 self2 (offset + 4) ;;
                   if (5 <=? v1) && (v1 <=? 10) && (v2 <=? 10)
                      && (1000 <=? v3) && (v3 <? 3000)
                   then ret (Some (GoproMDBParser.set_version
                                     v1 v2 v3 offset self2))
                   else ret None)) as (r & Er & Hr).
    { intros o Hin. apply in_range in Hin; [|lia].
      apply (Htriple o
               (fun v1 v2 v3 =>
                  (5 <=? v1) && (v1 <=? 10) && (v2 <=? 10)
                  && (1000 <=? v3) && (v3 <? 3000))).
      lia. }
    rewrite (res_bind_ok _ _ _ Er).
    destruct r as [s'|].
    + exists s'. split; [reflexivity | now apply Hr].
    + exists self2. split; [reflexivity | exact H2].
Qed.

Lemma parse_config_block_post (self : GoproMDBParser.t) :
  GoproMDBParser.file_size self = len (GoproMDBParser.data self) ->
  GoproMDBParser.page_size self = 0 ->
  GoproMDBParser.dictionary_offset self = 0 ->
  0x500 <= len (GoproMDBParser.data self) ->
  let d := GoproMDBParser.data self in
  exists s',
    res (GoproMDBParser._parse_config_block self) = Ok s'
    /\ GoproMDBParser.page_size s' = parser_page_size d
    /\ GoproMDBParser.db_version s'
       = DbVersion.mk (le_sum d 0x402 2) (le_sum d 0x400 2)
    /\ GoproMDBParser.header_valid s' = GoproMDBParser.header_valid self
    /\ (version_kept self s' \/ version_found self s').
Proof.
  intros Hfs Hps Hdo Hlen. cbv zeta.
  unfold GoproMDBParser._parse_config_block. cbv zeta. unfold HEADER_SIZE.
  set (d := GoproMDBParser.data self) in *.
  assert (Hc : len (slice d 1024 (1024 + 256)) = 256) by (rewrite len_slice; lia).
  rewrite Hc. cbn [Z.geb Z.compare Pos.compare Pos.compare_cont].
  assert (E0 : res (major <- GoproMDBParser._read_u16 self 1024 ;;
                    minor <- GoproMDBParser._read_u16 self (1024 + 2) ;;
                    ret (GoproMDBParser.set_db_version
                           (DbVersion.mk minor major) self))
               = Ok (GoproMDBParser.set_db_version
                       (DbVersion.mk (uint_at 2 d (1024 + 2))
                                     (uint_at 2 d 1024)) self)).
  { rewrite (res_bind_ok _ _ _ (_read_u16_res self 1024 ltac:(lia))).
    rewrite (res_bind_ok _ _ _ (_read_u16_res self (1024 + 2) ltac:(lia))).
    reflexivity. }
  rewrite (res_bind_ok _ _ _ E0).
  set (s1 := GoproMDBParser.set_db_version _ self).
  assert (Hv : GoproMDBParser.db_version s1
               = DbVersion.mk (le_sum d 0x402 2) (le_sum d 0x400 2)).
  { subst s1. cbn [GoproMDBParser.set_db_version GoproMDBParser.db_version].
    unfold uint_at.
    destruct (Z.leb_spec (1024 + Z.of_nat 2) (len d)); [|simpl in *; lia].
    destruct (Z.leb_spec (1024 + 2 + Z.of_nat 2) (len d)); [|simpl in *; lia].
    reflexivity. }
  rewrite (res_bind_ok _ _ _ (parser_detect_page_size_res s1 Hfs Hps)).
  set (s2 := GoproMDBParser.set_page_size _ s1).
  assert (Hp2 : 0 < GoproMDBParser.page_size s2).
  { subst s2. cbn [GoproMDBParser.set_page_size GoproMDBParser.page_size].
    pose proof (parser_page_size_values (GoproMDBParser.data s1)) as Hin.
    cbn [In] in Hin. lia. }
  destruct (parse_mco_version_post s2 Hp2 Hdo) as (s3 & E3 & D3 & V3).
  destruct (parse_mco_version_frame
              (fun s => GoproMDBParser.page_size s = parser_page_size d
                        /\ GoproMDBParser.db_version s
                           = DbVersion.mk (le_sum d 0x402 2) (le_sum d 0x400 2)
                        /\ GoproMDBParser.header_valid s
                           = GoproMDBParser.header_valid self)
              s2 Hp2)
    as (s3' & E3' & F1 & F2 & F3).
  { intros o s H. exact H. }
  { intros v s H. exact H. }
  { split; [reflexivity|]. split; [exact Hv | reflexivity]. }
  rewrite E3 in E3'. injection E3' as <-.
  exists s3. split; [exact E3|].
  split; [exact F1|]. split; [exact F2|]. split; [exact F3|].
  exact V3.
Qed.

(** X18.  What [parse] leaves in the parser for a file of at least 0x500
    bytes.  The header flag says whether the file starts with the twelve
    magic bytes, and a file that does not is parsed all the same; the
    database version is the two 16-bit words at 0x400; the page size is one
    of 256, 512, 1024 and 2048; the dictionary offset lies in
    0x0C00..0x1BFF; and the MCO version is either all zero or a triple read
    at the dictionary offset with a major in 1..15, a minor of at most 99
    and a build below 10000. *)
Theorem parsed_database_info (content : bytes) :
  0x500 <= len content ->
  exists st,
    res (GoproMDBParser.parse content GoproMDBParser.init) = Ok (true, st)
    /\ (GoproMDBParser.header_valid st = true
        <-> exists rest, content = GoproMDBParser.expected_magic ++ rest)
    /\ DbVersion.major (GoproMDBParser.db_version st) = le_sum content 0x400 2
    /\ DbVersion.minor (GoproMDBParser.db_version st) = le_sum content 0x402 2
    /\ In (GoproMDBParser.page_size st) [256; 512; 1024; 2048]
    /\ 0x0C00 <= GoproMDBParser.dictionary_offset st < 0x1C00
    /\ (GoproMDBParser.mco_version st = MCOVersion.default
        \/ let o := GoproMDBParser.dictionary_offset st in
           let v := GoproMDBParser.mco_version st in
           o < 0x1000
           /\ v = MCOVersion.mk (uint_at 2 content o) (uint_at 2 content (o + 2))
                                (uint_at 2 content (o + 4))
           /\ 1 <= MCOVersion.major v <= 15
           /\ MCOVersion.minor v <= 99
           /\ MCOVersion.build v < 10000).
Proof.
  intro Hlen.
  unfold GoproMDBParser.parse. cbv zeta.
  replace (GoproMDBParser.file_size
             (GoproMDBParser.set_file_size
                (len (GoproMDBParser.data
                        (GoproMDBParser.set_data content GoproMDBParser.init)))
                (GoproMDBParser.set_data content GoproMDBParser.init)))
    with (len content) by reflexivity.
  unfold HEADER_SIZE.
  destruct (Z.ltb_spec (len content) (1024 + 256)); [lia|].
  fold (loaded content).
  destruct (loaded_fresh content) as (Hd & Hf & Hp & Hr & Hsi & Hg).
  assert (Hdo : GoproMDBParser.dictionary_offset (loaded content) = 0
                /\ GoproMDBParser.mco_version (loaded content)
                   = MCOVersion.default
                /\ GoproMDBParser.header_valid (loaded content)
                   = GoproMDBParser.bytes_eqb (slice content 0 12)
                                              GoproMDBParser.expected_magic).
  { unfold loaded, GoproMDBParser._detect_schema, GoproMDBParser._parse_header.
    cbv zeta.
    repeat match goal with
           | |- context [if contains ?n ?d then _ else _] =>
               destruct (contains n d)
           end; repeat split. }
  destruct Hdo as (Hdo & Hmv & Hhv).
  destruct (parse_config_block_post (loaded content))
    as (s1 & E1 & P1 & V1 & H1 & M1);
    [congruence | exact Hp | exact Hdo | rewrite Hd; exact Hlen |].
  destruct (parse_config_block_total (loaded content))
    as (s1' & E1' & S1); [congruence | exact Hp |].
  rewrite E1 in E1'. injection E1' as <-.
  rewrite (res_bind_ok _ _ _ E1).
  destruct S1 as (A1 & A2 & A3 & A4 & A5 & A6).
  assert (Hfs1 : GoproMDBParser.file_size s1 = len (GoproMDBParser.data s1))
    by congruence.
  unfold GoproMDBParser._find_and_parse_records. cbv zeta.
  rewrite !res_bind, (scan_for_records_res s1 Hfs1).
  unfold GoproMDBParser.set_raw_records at 1.
  cbn [GoproMDBParser.raw_records].
  rewrite parse_raw_records_res.
  2:{ intros [h body] Hin. cbn [snd]. rewrite A3, Hr in Hin. cbn [app] in Hin.
      apply accepted_records_shape in Hin; [lia|].
      intros s Hs. apply in_range in Hs; lia. }
  eexists. split; [reflexivity|].
  cbn [GoproMDBParser.set_raw_records GoproMDBParser.set_grouped_ex
       GoproMDBParser.set_singles_ex GoproMDBParser.header_valid
       GoproMDBParser.db_version GoproMDBParser.page_size
       GoproMDBParser.dictionary_offset GoproMDBParser.mco_version].
  rewrite Hd in P1, V1.
  split; [|split; [|split; [|split; [|split]]]].
  - rewrite H1, Hhv. unfold GoproMDBParser.bytes_eqb.
    destruct (list_eq_dec Byte.byte_eq_dec (slice content 0 12)
                          GoproMDBParser.expected_magic) as [E|E].
    + split; [intros _ | reflexivity].
      exists (skipn 12 content). rewrite <- E.
      rewrite slice_head by lia. symmetry. apply firstn_skipn.
    + split; [discriminate|]. intros (rest & Ec). exfalso. apply E.
      rewrite Ec, slice_head by lia. reflexivity.
  - now rewrite V1.
  - now rewrite V1.
  - rewrite P1. apply parser_page_size_values.
  - destruct M1 as [(_ & Hk) | (Hk & _)]; lia.
  - destruct M1 as [(Hk & _) | (Ho & Hv & Hr1 & Hr2 & Hr3)].
    + left. now rewrite Hk, Hmv.
    + right. cbv zeta. rewrite Hd in Hv. repeat split; try assumption; lia.
Qed.

Lemma parsed_database_info_witness :
  0x500 <= len (blank 0x500)
  /\ exists st,
      res (GoproMDBParser.parse (blank 0x500) GoproMDBParser.init)
      = Ok (true, st)
      /\ In (GoproMDBParser.page_size st) [256; 512; 1024; 2048].
Proof.
  assert (H : 0x500 <= len (blank 0x500)) by (vm_compute; discriminate).
  split; [exact H|].
  destruct (parsed_database_info (blank 0x500) H)
    as (st & E & _ & _ & _ & Hp & _).
  exists st. split; [exact E | exact Hp].
Defined.

(** ** The MCO version, read by both programs *)

(** The test both programs apply to the three words at 0x0C10. *)
Definition valid_version (v1 v2 v3 : Z) : bool :=
  (1 <=? v1) && (v1 <=? 15) && (v2 <=? 99) && (v3 <? 10000).

Lemma parse_mco_version_early (self : GoproMDBParser.t) :
  0 < GoproMDBParser.page_size self ->
  GoproMDBParser.file_size self > 0x0C16 ->
  let d := GoproMDBParser.data self in
  valid_version (uint_at 2 d 0x0C10) (uint_at 2 d 0x0C12) (uint_at 2 d 0x0C14)
  = true ->
  exists s',
    res (GoproMDBParser._parse_mco_version self) = Ok s'
    /\ GoproMDBParser.mco_version s'
       = MCOVersion.mk (uint_at 2 d 0x0C10) (uint_at 2 d 0x0C12)
                       (uint_at 2 d 0x0C14)
    /\ GoproMDBParser.dictionary_offset s' = 0x0C10.
Proof.
  intros Hps Hfs d Hv. unfold GoproMDBParser._parse_mco_version.
  destruct (for_first_post (fun _ : Z => True)
              (range 0x800 (Z.min 0x3000 (GoproMDBParser.file_size self))
                     (GoproMDBParser.page_size self))
              (fun offset =>
                 if offset <? len (GoproMDBParser.data self) then
                   b0 <- getitem (GoproMDBParser.data self) offset ;;
                   let kind := Z.land b0 0x0F in
                   if kind =? 4
                   then ret (Some (Z.max 0x0C00 (offset - 0x1400)))
                   else ret None
                 else ret None)) as (found & Ef & _).
  { intros o Hin. apply in_range in Hin; [|assumption].
    destruct (Z.ltb_spec o (len (GoproMDBParser.data self))).
    - rewrite (res_bind_ok _ _ _
                 (getitem_res (GoproMDBParser.data self) o ltac:(lia))).
      cbv zeta. destruct (_ =? 4); eexists; (split; [reflexivity | trivial]).
    - exists None. split; [reflexivity | trivial]. }
  rewrite (res_bind_ok _ _ _ Ef). cbv zeta.
  set (self1 := match found with
                | Some o => GoproMDBParser.set_dictionary_offset o self
                | None => self
                end).
  set (self2 := if GoproMDBParser.dictionary_offset self1 =? 0
                then GoproMDBParser.set_dictionary_offset 0x0C10 self1
                else self1).
  assert (H2 : GoproMDBParser.data self2 = d
               /\ GoproMDBParser.file_size self2
                  = GoproMDBParser.file_size self).
  { subst self2 self1. destruct found; destruct (_ =? 0); split; reflexivity. }
  destruct H2 as (Hd2 & Hf2).
  rewrite Hf2. destruct (Z.gtb_spec (GoproMDBParser.file_size self) 0x0C16);
    [|lia].
  assert (E : res (v1 <- GoproMDBParser._read_u16 self2 0x0C10 ;;
                   v2 <- GoproMDBParser._read_u16 self2 0x0C12 ;;
                   v3 <- GoproMDBParser._read_u16 self2 0x0C14 ;;
                   if (1 <=? v1) && (v1 <=? 15) && (v2 <=? 99) && (v3 <? 10000)
                   then ret (Some (GoproMDBParser.set_version
                                     v1 v2 v3 0x0C10 self2))
                   else ret None)
              = Ok (Some (GoproMDBParser.set_version
                            (uint_at 2 d 0x0C10) (uint_at 2 d 0x0C12)
                            (uint_at 2 d 0x0C14) 0x0C10 self2))).
  { rewrite (res_bind_ok _ _ _ (_read_u16_res self2 0x0C10 ltac:(lia))).
    rewrite (res_bind_ok _ _ _ (_read_u16_res self2 0x0C12 ltac:(lia))).
    rewrite (res_bind_ok _ _ _ (_read_u16_res self2 0x0C14 ltac:(lia))).
    rewrite Hd2. unfold valid_version in Hv. rewrite Hv. reflexivity. }
  rewrite (res_bind_ok _ _ _ E).
  eexists. split; [reflexivity|]. split; reflexivity.
Qed.

(** The version fields of the analyzer's [db_info] after
    [_parse_database_info]. *)
Lemma parse_database_info_version (self : MCOPageAnalyzer.t) :
  MCOPageAnalyzer.file_size self = len (MCOPageAnalyzer.data self) ->
  let d := MCOPageAnalyzer.data self in
  let taken :=
    (MCOPageAnalyzer.file_size self >? 0x0C18)
    && valid_version (le_sum d 0x0C10 2) (le_sum d 0x0C12 2)
                     (le_sum d 0x0C14 2) in
  exists s',
    res (MCOPageAnalyzer._parse_database_info self) = Ok s'
    /\ let i := MCOPageAnalyzer.db_info self in
       let i' := MCOPageAnalyzer.db_info s' in
       (MCODatabaseInfo.mco_version_major i',
        MCODatabaseInfo.mco_version_minor i',
        MCODatabaseInfo.mco_version_build i',
        MCODatabaseInfo.dictionary_offset i')
       = if taken
         then (le_sum d 0x0C10 2, le_sum d 0x0C12 2, le_sum d 0x0C14 2, 0x0C10)
         else (MCODatabaseInfo.mco_version_major i,
               MCODatabaseInfo.mco_version_minor i,
               MCODatabaseInfo.mco_version_build i,
               MCODatabaseInfo.dictionary_offset i).
Proof.
  intros Hfs d taken. unfold MCOPageAnalyzer._parse_database_info. cbv zeta.
  set (first_ :=
         if MCOPageAnalyzer.file_size self >? 3088 + 8 then _ else _).
  set (vers := fun s : MCOPageAnalyzer.t =>
                 let i := MCOPageAnalyzer.db_info s in
                 (MCODatabaseInfo.mco_version_major i,
                  MCODatabaseInfo.mco_version_minor i,
                  MCODatabaseInfo.mco_version_build i,
                  MCODatabaseInfo.dictionary_offset i)).
  assert (H1 : exists s1,
             res first_ = Ok s1 /\ same_analysis self s1
             /\ vers s1
                = if taken
                  then (le_sum d 0x0C10 2, le_sum d 0x0C12 2,
                        le_sum d 0x0C14 2, 0x0C10)
                  else vers self).
  { subst first_ taken. change (3088 + 8) with 0x0C18.
    destruct (Z.gtb_spec (MCOPageAnalyzer.file_size self) 0x0C18);
      cbn [andb].
    - unfold unpack_H.
      rewrite (res_bind_ok _ _ _
                 (unpack_uint_res 2 (MCOPageAnalyzer.data self) 3088
                    ltac:(lia) ltac:(simpl; lia))).
      rewrite (res_bind_ok _ _ _
                 (unpack_uint_res 2 (MCOPageAnalyzer.data self) (3088 + 2)
                    ltac:(lia) ltac:(simpl; lia))).
      rewrite (res_bind_ok _ _ _
                 (unpack_uint_res 2 (MCOPageAnalyzer.data self) (3088 + 4)
                    ltac:(lia) ltac:(simpl; lia))).
      fold d. unfold valid_version.
      change (3088 + 2) with 0x0C12. change (3088 + 4) with 0x0C14.
      destruct (_ && _); eexists;
        (split; [reflexivity | split; [repeat split | reflexivity]]).
    - exists self. split; [reflexivity|]. split; [repeat split | reflexivity]. }
  destruct H1 as (s1 & E1 & (A1 & A2 & A3 & A4 & A5) & V1).
  rewrite (res_bind_ok _ _ _ E1).
  fold (vers self).
  destruct (Z.gtb_spec (MCOPageAnalyzer.file_size s1) 1040).
  - unfold unpack_I.
    rewrite (res_bind_ok _ _ _
               (unpack_uint_res 4 (MCOPageAnalyzer.data s1) (1024 + 8)
                  ltac:(lia) ltac:(simpl; rewrite A1; lia))).
    destruct ((1 <=? _) && (_ <=? 10)); eexists;
      (split; [reflexivity | exact V1]).
  - exists s1. split; [reflexivity | exact V1].
Qed.

(** X19.  The two programs agree on the MCO version.  On fresh objects
    that hold the same file, whenever the page analyzer
    ([MCOPageAnalyzer._parse_database_info]) reports a version, the parser
    ([GoproMDBParser._parse_mco_version]) reports the same major, minor and
    build, and both put the dictionary at 0x0C10. *)
Theorem mco_versions_agree (a : MCOPageAnalyzer.t) (p : GoproMDBParser.t) :
  MCOPageAnalyzer.file_size a = len (MCOPageAnalyzer.data a) ->
  GoproMDBParser.file_size p = len (GoproMDBParser.data p) ->
  GoproMDBParser.data p = MCOPageAnalyzer.data a ->
  0 < GoproMDBParser.page_size p ->
  MCODatabaseInfo.mco_version_major (MCOPageAnalyzer.db_info a) = 0 ->
  exists a' p',
    res (MCOPageAnalyzer._parse_database_info a) = Ok a'
    /\ res (GoproMDBParser._parse_mco_version p) = Ok p'
    /\ (0 < MCODatabaseInfo.mco_version_major (MCOPageAnalyzer.db_info a') ->
        let i := MCOPageAnalyzer.db_info a' in
        GoproMDBParser.mco_version p'
        = MCOVersion.mk (MCODatabaseInfo.mco_version_major i)
                        (MCODatabaseInfo.mco_version_minor i)
                        (MCODatabaseInfo.mco_version_build i)
        /\ GoproMDBParser.dictionary_offset p' = 0x0C10
        /\ MCODatabaseInfo.dictionary_offset i = 0x0C10).
Proof.
  intros Hfa Hfp Hd Hps Hfresh.
  destruct (parse_database_info_version a Hfa) as (a' & Ea & Hv).
  cbv zeta in Hv.
  destruct (parse_mco_version_total p Hps) as (p0 & Ep0 & _).
  exists a'.
  destruct ((MCOPageAnalyzer.file_size a >? 0x0C18)
            && valid_version (le_sum (MCOPageAnalyzer.data a) 0x0C10 2)
                             (le_sum (MCOPageAnalyzer.data a) 0x0C12 2)
                             (le_sum (MCOPageAnalyzer.data a) 0x0C14 2))
           eqn:Et.
  - apply andb_prop in Et. destruct Et as (Hg & Hval).
    apply Z.gtb_lt in Hg. injection Hv as V1 V2 V3 V4.
    assert (Hu : forall o, 0 <= o -> o + 2 <= 0x0C18 ->
                           uint_at 2 (GoproMDBParser.data p) o
                           = le_sum (MCOPageAnalyzer.data a) o 2).
    { intros o Ho1 Ho2. unfold uint_at. rewrite Hd.
      destruct (Z.leb_spec (o + Z.of_nat 2) (len (MCOPageAnalyzer.data a)));
        [reflexivity | simpl in *; lia]. }
    destruct (parse_mco_version_early p Hps) as (p' & Ep & M1 & M2).
    + rewrite Hfp, Hd, <- Hfa. lia.
    + rewrite !Hu by lia. exact Hval.
    + exists p'. split; [exact Ea|]. split; [exact Ep|].
      intros _. cbv zeta. rewrite M1, M2, V1, V2, V3, V4, !Hu by lia.
      repeat split.
  - exists p0. split; [exact Ea|]. split; [exact Ep0|].
    injection Hv as V1 _ _ _. rewrite V1, Hfresh. lia.
Qed.

(** A file with the version triple 7.1.1234 at 0x0C10. *)
Definition version_file : bytes :=
  patch (blank 0x0C20) (Z.to_nat 0x0C10) [x07; x00; x01; x00; xd2; x04].

Lemma mco_version_found_or_kept_witness :
  let self :=
    GoproMDBParser.set_page_size 512
      (GoproMDBParser.set_file_size (len version_file)
         (GoproMDBParser.set_data version_file GoproMDBParser.init)) in
  0 < GoproMDBParser.page_size self
  /\ GoproMDBParser.dictionary_offset self = 0
  /\ exists s',
      res (GoproMDBParser._parse_mco_version self) = Ok s'
      /\ GoproMDBParser.data s' = GoproMDBParser.data self
      /\ 0x0C00 <= GoproMDBParser.dictionary_offset s' < 0x1C00
      /\ GoproMDBParser.dictionary_offset s' = 0x0C10
      /\ GoproMDBParser.mco_version s' = MCOVersion.mk 7 1 1234
      /\ GoproMDBParser.mco_version s' <> GoproMDBParser.mco_version self.
Proof.
  intro self.
  assert (H1 : 0 < GoproMDBParser.page_size self) by reflexivity.
  assert (H2 : GoproMDBParser.dictionary_offset self = 0) by reflexivity.
  split; [exact H1|]. split; [exact H2|].
  destruct (mco_version_found_or_kept self H1 H2) as (s' & E & Hd & Ho & Hv).
  destruct (parse_mco_version_early self H1)
    as (s2 & E2 & M1 & M2);
    [vm_compute; reflexivity | vm_compute; reflexivity |].
  assert (Es : s2 = s') by congruence. subst s2.
  exists s'. split; [exact E|]. split; [exact Hd|]. split; [exact Ho|].
  split; [exact M2|].
  assert (Ev : GoproMDBParser.mco_version s' = MCOVersion.mk 7 1 1234)
    by (rewrite M1; vm_compute; reflexivity).
  split; [exact Ev|]. rewrite Ev. discriminate.
Defined.

Lemma mco_versions_agree_witness :
  let a :=
    MCOPageAnalyzer.mk version_file (len version_file) 0 []
                       MCODatabaseInfo.default [] in
  let p :=
    GoproMDBParser.set_page_size 512
      (GoproMDBParser.set_file_size (len version_file)
         (GoproMDBParser.set_data version_file GoproMDBParser.init)) in
  MCOPageAnalyzer.file_size a = len (MCOPageAnalyzer.data a)
  /\ GoproMDBParser.file_size p = len (GoproMDBParser.data p)
  /\ GoproMDBParser.data p = MCOPageAnalyzer.data a
  /\ 0 < GoproMDBParser.page_size p
  /\ MCODatabaseInfo.mco_version_major (MCOPageAnalyzer.db_info a) = 0
  /\ exists a' p',
      res (MCOPageAnalyzer._parse_database_info a) = Ok a'
      /\ res (GoproMDBParser._parse_mco_version p) = Ok p'
      /\ MCODatabaseInfo.mco_version_major (MCOPageAnalyzer.db_info a') = 7
      /\ MCODatabaseInfo.mco_version_minor (MCOPageAnalyzer.db_info a') = 1
      /\ MCODatabaseInfo.mco_version_build (MCOPageAnalyzer.db_info a') = 1234
      /\ GoproMDBParser.mco_version p' = MCOVersion.mk 7 1 1234
      /\ GoproMDBParser.dictionary_offset p' = 0x0C10
      /\ MCODatabaseInfo.dictionary_offset (MCOPageAnalyzer.db_info a')
         = 0x0C10.
Proof.
  intros a p.
  assert (H1 : MCOPageAnalyzer.file_size a = len (MCOPageAnalyzer.data a))
    by reflexivity.
  assert (H2 : GoproMDBParser.file_size p = len (GoproMDBParser.data p))
    by reflexivity.
  assert (H3 : GoproMDBParser.data p = MCOPageAnalyzer.data a) by reflexivity.
  assert (H4 : 0 < GoproMDBParser.page_size p) by reflexivity.
  assert (H5 : MCODatabaseInfo.mco_version_major (MCOPageAnalyzer.db_info a)
               = 0) by reflexivity.
  repeat (split; [assumption|]).
  destruct (mco_versions_agree a p H1 H2 H3 H4 H5)
    as (a' & p' & Ea & Ep & Himp).
  destruct (parse_database_info_version a H1) as (a2 & Ea2 & Hv).
  assert (Es : a2 = a') by congruence. subst a2.
  cbv zeta in Hv.
  assert (Et : (MCOPageAnalyzer.file_size a >? 0x0C18)
               && valid_version (le_sum (MCOPageAnalyzer.data a) 0x0C10 2)
                                (le_sum (MCOPageAnalyzer.data a) 0x0C12 2)
                                (le_sum (MCOPageAnalyzer.data a) 0x0C14 2)
               = true) by (vm_compute; reflexivity).
  rewrite Et in Hv.
  pose proof (f_equal (fun t => fst (fst (fst t))) Hv) as V1.
  pose proof (f_equal (fun t => snd (fst (fst t))) Hv) as V2.
  pose proof (f_equal (fun t => snd (fst t)) Hv) as V3.
  cbn [fst snd] in V1, V2, V3.
  assert (W1 : le_sum (MCOPageAnalyzer.data a) 0x0C10 2 = 7)
    by (vm_compute; reflexivity).
  assert (W2 : le_sum (MCOPageAnalyzer.data a) 0x0C12 2 = 1)
    by (vm_compute; reflexivity).
  assert (W3 : le_sum (MCOPageAnalyzer.data a) 0x0C14 2 = 1234)
    by (vm_compute; reflexivity).
  rewrite W1 in V1. rewrite W2 in V2. rewrite W3 in V3.
  destruct (Himp ltac:(rewrite V1; reflexivity)) as (M1 & M2 & M3).
  exists a', p'. split; [exact Ea|]. split; [exact Ep|].
  split; [exact V1|]. split; [exact V2|]. split; [exact V3|].
  split; [|split; [exact M2 | exact M3]].
  rewrite M1, V1, V2, V3. reflexivity.
Defined.

(** ** PageAnalyzer: the summary *)

Section Histogram.

Variable A : Type.
Variable key : A -> string.

(** The counting loop [counts[k] = counts.get(k, 0) + 1] over [l], started
    from [m]. *)
Definition histogram (l : list A) (m : dict Z) : dict Z :=
  fold_left
    (fun counts a => dict_set counts (key a) (dict_get counts (key a) 0 + 1))
    l m.

Lemma histogram_spec (l : list A) :
  forall m,
    NoDup (map fst m) ->
    NoDup (map fst (histogram l m))
    /\ (forall name,
           dict_get (histogram l m) name 0
           = dict_get m name 0
             + len (filter (fun a => String.eqb (key a) name) l))
    /\ fold_right Z.add 0 (map snd (histogram l m))
       = fold_right Z.add 0 (map snd m) + len l.
Proof.
  induction l as [|p l IH]; intros m Hnd.
  - unfold histogram, len. cbn [fold_left filter Datatypes.length Z.of_nat].
    split; [exact Hnd|]. split; [intro; lia | lia].
  - unfold histogram. cbn [fold_left].
    set (m1 := dict_set m (key p) (dict_get m (key p) 0 + 1)).
    assert (Hnd1 : NoDup (map fst m1)).
    { subst m1. rewrite dict_set_keys.
      destruct (existsb _ _) eqn:E; [exact Hnd|].
      apply NoDup_app; [exact Hnd | repeat constructor; intros [] |].
      intros x Hx [<-|[]].
      apply existsb_eqb_In in Hx. congruence. }
    destruct (IH m1 Hnd1) as (I1 & I2 & I3).
    fold (histogram l m1).
    split; [exact I1|]. split.
    + intro name. rewrite I2. subst m1. rewrite dict_get_set.
      cbn [filter]. rewrite (String.eqb_sym (key p) name).
      destruct (String.eqb_spec name (key p)) as [->|];
        unfold len; cbn [Datatypes.length]; lia.
    + rewrite I3. subst m1. rewrite dict_set_sum.
      unfold len. cbn [Datatypes.length]. lia.
Qed.

End Histogram.

(** X20.  [PageAnalyzer.get_summary]: no kind name is listed twice, the
    count under a name is the number of pages with that kind name, and the
    counts add up to [total_pages], the number of pages. *)
Theorem page_kinds_summary (self : PageAnalyzer.t) :
  let s := PageAnalyzer.get_summary self in
  let pages := PageAnalyzer.pages self in
  PageAnalyzer.total_pages s = len pages
  /\ PageAnalyzer.summary_page_size s = PageAnalyzer.page_size self
  /\ NoDup (map fst (PageAnalyzer.kinds s))
  /\ (forall name,
         dict_get (PageAnalyzer.kinds s) name 0
         = len (filter (fun p => String.eqb (PageInfo.kind_name p) name) pages))
  /\ fold_right Z.add 0 (map snd (PageAnalyzer.kinds s))
     = PageAnalyzer.total_pages s.
Proof.
  cbv zeta. unfold PageAnalyzer.get_summary.
  cbn [PageAnalyzer.total_pages PageAnalyzer.summary_page_size
       PageAnalyzer.kinds].
  destruct (histogram_spec PageInfo.t PageInfo.kind_name
              (PageAnalyzer.pages self) [] (NoDup_nil _)) as (I1 & I2 & I3).
  unfold histogram in I1, I2, I3. unfold PageAnalyzer.kind_counts.
  split; [reflexivity|]. split; [reflexivity|].
  split; [exact I1|]. split.
  - intro name. now rewrite I2.
  - now rewrite I3.
Qed.

(** ** Hexadecimal fields of the output *)

Lemma string_length_app (s1 s2 : string) :
  String.length (s1 ++ s2) = (String.length s1 + String.length s2)%nat.
Proof.
  induction s1 as [|c s1 IH]; cbn [String.append String.length];
    [reflexivity | now rewrite IH].
Qed.

Lemma zeros_length (k : nat) : String.length (Fmt.zeros k) = k.
Proof.
  induction k as [|k IH]; cbn [Fmt.zeros String.length];
    [reflexivity | now rewrite IH].
Qed.

(** A number below [base ^ k] has at most [k] digits. *)
Lemma digits_fuel_length (digit : Z -> ascii) (base : Z) (fuel : nat) :
  1 < base ->
  forall (n : Z) (acc : string) (k : nat),
    (1 <= k)%nat ->
    0 <= n < base ^ Z.of_nat k ->
    (String.length (Fmt.digits_fuel digit base fuel n acc)
     <= k + String.length acc)%nat.
Proof.
  intro Hb. induction fuel as [|fuel IH]; intros n acc k Hk Hn;
    cbn [Fmt.digits_fuel].
  - cbn [String.length]. lia.
  - destruct (Z.eqb_spec (n / base) 0) as [E|E].
    + cbn [String.length]. lia.
    + assert (Hq : 0 <= n / base) by (apply Z.div_pos; lia).
      destruct k as [|[|k]]; [lia | |].
      * exfalso. apply E. apply Z.div_small. cbn in Hn. lia.
      * specialize (IH (n / base) (String (digit (n mod base)) acc) (S k)
                       ltac:(lia)).
        cbn [String.length] in IH.
        assert (n / base < base ^ Z.of_nat (S k)).
        { apply Z.div_lt_upper_bound; [lia|].
          replace (Z.of_nat (S (S k))) with (Z.of_nat (S k) + 1) in Hn by lia.
          rewrite Z.pow_add_r, Z.pow_1_r in Hn by lia. lia. }
        specialize (IH ltac:(lia)). lia.
Qed.

(** [f"{z:0<w>x}"] of a number that fits [w] hexadecimal digits has exactly
    [w] characters. *)
Lemma fmt_x_length (w : nat) (z : Z) :
  (1 <= w)%nat -> 0 <= z < 16 ^ Z.of_nat w -> String.length (Fmt.x w z) = w.
Proof.
  intros Hw Hz. unfold Fmt.x, Fmt.pad0.
  destruct (Z.ltb_spec z 0); [lia|].
  cbn [String.append String.length].
  rewrite string_length_app, zeros_length, Z.abs_eq by lia.
  pose proof (digits_fuel_length Fmt.digit_lower 16
                (Z.to_nat (Z.log2 z)) ltac:(lia) z EmptyString w Hw Hz) as H1.
  fold (Fmt.digits Fmt.digit_lower 16 z) in H1.
  cbn [String.length] in H1. lia.
Qed.

Lemma some_inj {A} (a c : A) : Some a = Some c -> a = c.
Proof. congruence. Qed.

Lemma le_sum_range (d : bytes) (w : nat) :
  forall o, 0 <= le_sum d o w < 256 ^ Z.of_nat w.
Proof.
  induction w as [|w IH]; intro o.
  - cbn. lia.
  - cbn [le_sum]. specialize (IH (o + 1)).
    pose proof (byte_val_range (nth_byte d o)).
    replace (Z.of_nat (S w)) with (Z.of_nat w + 1) by lia.
    rewrite Z.pow_add_r by lia. lia.
Qed.

(** X21.  The file handle of a decoded [single_ex] record (body of at
    least 100 bytes) is a 64-bit value; in the output of [to_dict] its
    [file_handle_hex] and [file_info] are both absent when it is 0 and both
    present otherwise, and the hexadecimal form then has exactly 18
    characters: "0x" and 16 digits. *)
Theorem single_ex_file_handle_hex
        (F : Type) (truediv : Z -> Z -> F) (round_float : F -> Z -> F)
        (self : GoproMDBParser.t) (d : bytes) :
  100 <= len d ->
  exists rec,
    res (GoproMDBParser._parse_single_ex_data self d) = Ok (Some rec)
    /\ 0 <= MdbSingleEx.file_handle rec < 2 ^ 64
    /\ let out := GoproMDBParser.single_ex_to_dict F truediv round_float rec in
       match GoproMDBParser.sd_file_handle_hex F out with
       | Some s =>
           String.length s = 18%nat
           /\ MdbSingleEx.file_handle rec <> 0
           /\ GoproMDBParser.sd_file_info F out
              = Some (decode_file_handle (MdbSingleEx.file_handle rec))
       | None =>
           MdbSingleEx.file_handle rec = 0
           /\ GoproMDBParser.sd_file_info F out = None
       end.
Proof.
  intro H. exists (single_ex_of d).
  split; [now apply parse_single_ex_data_res|].
  pose proof (uint_at_range 8 d 24) as Hr.
  change (256 ^ Z.of_nat 8) with (2 ^ 64) in Hr.
  cbn [single_ex_of MdbSingleEx.file_handle].
  split; [exact Hr|]. cbv zeta.
  unfold GoproMDBParser.single_ex_to_dict.
  cbn [GoproMDBParser.sd_file_handle_hex GoproMDBParser.sd_file_info
       single_ex_of MdbSingleEx.file_handle].
  destruct (Z.eqb_spec (uint_at 8 d 24) 0) as [E|E]; cbn [negb].
  - split; [exact E | reflexivity].
  - split; [|split; [exact E | reflexivity]].
    rewrite string_length_app, fmt_x_length; [reflexivity | lia |].
    change (16 ^ Z.of_nat 16) with (2 ^ 64). exact Hr.
Qed.

Lemma single_ex_file_handle_hex_witness :
  let d := repeat x01 100 in
  100 <= len d
  /\ exists rec,
      res (GoproMDBParser._parse_single_ex_data GoproMDBParser.init d)
      = Ok (Some rec)
      /\ MdbSingleEx.file_handle rec = 0x0101010101010101
      /\ let out :=
           GoproMDBParser.single_ex_to_dict
             spec_float PyFloat.truediv PyFloat.round_float rec in
         GoproMDBParser.sd_file_handle_hex spec_float out
         = Some "0x0101010101010101"%string
         /\ String.length "0x0101010101010101" = 18%nat
         /\ GoproMDBParser.sd_file_info spec_float out
            = Some (decode_file_handle 0x0101010101010101).
Proof.
  intro d.
  assert (H : 100 <= len d) by (vm_compute; discriminate).
  split; [exact H|].
  destruct (single_ex_file_handle_hex
              spec_float PyFloat.truediv PyFloat.round_float
              GoproMDBParser.init d H) as (rec & E & Hr & Hout).
  assert (Erec : rec = single_ex_of d).
  { rewrite (parse_single_ex_data_res GoproMDBParser.init d H) in E.
    congruence. }
  assert (Eh : MdbSingleEx.file_handle rec = 0x0101010101010101)
    by (rewrite Erec; vm_compute; reflexivity).
  cbv zeta in Hout |- *.
  assert (Ex : GoproMDBParser.sd_file_handle_hex spec_float
                 (GoproMDBParser.single_ex_to_dict
                    spec_float PyFloat.truediv PyFloat.round_float rec)
               = Some "0x0101010101010101"%string).
  { unfold GoproMDBParser.single_ex_to_dict.
    cbn [GoproMDBParser.sd_file_handle_hex]. rewrite Eh.
    vm_compute. reflexivity. }
  rewrite Ex in Hout. destruct Hout as (Hl & Hne & Hi).
  exists rec. split; [exact E|]. split; [exact Eh|].
  split; [exact Ex|]. split; [exact Hl|].
  rewrite Hi, Eh. reflexivity.
Defined.

(** X22.  In the output of [to_dict] for a decoded [grouped_ex] record
    (body of at least 50 bytes), [content_id_hex], when the blob is
    present, has exactly 32 hexadecimal characters, and the session and
    recording identifiers of the GUSI blob, when they are present, are
    written as "0x" and 8 digits; the file handle, when it is not 0, is
    written as "0x" and 16 digits. *)
Theorem grouped_ex_hex_widths
        (F : Type) (truediv : Z -> Z -> F) (round_float : F -> Z -> F)
        (self : GoproMDBParser.t) (d : bytes) :
  50 <= len d ->
  exists rec,
    res (GoproMDBParser._parse_grouped_ex_data self d) = Ok (Some rec)
    /\ let out := GoproMDBParser.grouped_ex_to_dict F truediv round_float rec in
       (forall blob, GoproMDBParser.gd_blob F out = Some blob ->
                     String.length (GoproMDBParser.bl_content_id_hex blob)
                     = 32%nat)
       /\ (forall gusi s,
              GoproMDBParser.gd_gusi_blob F out = Some gusi ->
              GoproMDBParser.gu_session_id_hex gusi = Some s
              \/ GoproMDBParser.gu_recording_id_hex gusi = Some s ->
              String.length s = 10%nat)
       /\ (forall s, GoproMDBParser.gd_file_handle_hex F out = Some s ->
                     String.length s = 18%nat).
Proof.
  intro H. exists (grouped_ex_of d).
  split; [now apply parse_grouped_ex_data_res|]. cbv zeta.
  unfold GoproMDBParser.grouped_ex_to_dict. cbv zeta.
  cbn [GoproMDBParser.gd_blob GoproMDBParser.gd_gusi_blob
       GoproMDBParser.gd_file_handle_hex grouped_ex_of
       MdbGroupedEx.blob MdbGroupedEx.gusi_blob MdbGroupedEx.file_handle].
  assert (H16 : forall z, 0 <= z < 2 ^ 64 ->
                          String.length (Fmt.x 16 z) = 16%nat).
  { intros z Hz. apply fmt_x_length; [lia|].
    change (16 ^ Z.of_nat 16) with (2 ^ 64). exact Hz. }
  assert (H8 : forall z, 0 <= z < 2 ^ 32 ->
                         String.length ("0x" ++ Fmt.x 8 z) = 10%nat).
  { intros z Hz. rewrite string_length_app, fmt_x_length; [reflexivity | lia|].
    change (16 ^ Z.of_nat 8) with (2 ^ 32). exact Hz. }
  split; [|split].
  - intros blob Hb. unfold content_blob_of in Hb. cbv zeta in Hb.
    remember (GoproMDBParser.read_bytes d 57 16) as raw eqn:Eraw. clear Eraw.
    pose proof (le_sum_range raw 8 0) as R1.
    pose proof (le_sum_range raw 8 8) as R2.
    change (256 ^ Z.of_nat 8) with (2 ^ 64) in R1, R2.
    destruct (len raw >=? 16);
      cbn [ContentBlob.raw ContentBlob.content_id_high
           ContentBlob.content_id_low] in Hb;
      destruct raw; try discriminate Hb; apply some_inj in Hb; subst blob;
      cbn [GoproMDBParser.bl_content_id_hex];
      rewrite string_length_app, !H16 by lia; reflexivity.
  - intros gusi s Hg Hs. unfold gusi_of in Hg. cbv zeta in Hg.
    remember (GoproMDBParser.read_bytes d 36 16) as raw eqn:Eraw. clear Eraw.
    pose proof (le_sum_range raw 4 0) as R1.
    pose proof (le_sum_range raw 4 8) as R2.
    change (256 ^ Z.of_nat 4) with (2 ^ 32) in R1, R2.
    destruct (len raw >=? 12);
      cbn [GusiBlob.raw GusiBlob.session_id GusiBlob.recording_id] in Hg;
      destruct raw; try discriminate Hg; apply some_inj in Hg; subst gusi;
      cbn [GoproMDBParser.gu_session_id_hex
           GoproMDBParser.gu_recording_id_hex] in Hs;
      destruct Hs as [Hs|Hs];
      repeat match type of Hs with
             | context [negb (?a =? 0)] => destruct (a =? 0); cbn [negb] in Hs
             end;
      try discriminate Hs; apply some_inj in Hs; subst s; apply H8; lia.
  - intros s Hs.
    pose proof (uint_at_range 8 d 8) as Hr.
    change (256 ^ Z.of_nat 8) with (2 ^ 64) in Hr.
    destruct (uint_at 8 d 8 =? 0); cbn [negb] in Hs; [discriminate|].
    apply some_inj in Hs. subst s.
    rewrite string_length_app, H16 by lia. reflexivity.
Qed.

Lemma grouped_ex_hex_widths_witness :
  let d := repeat x01 81 in
  50 <= len d
  /\ exists rec blob gusi s1 s2 s3,
      res (GoproMDBParser._parse_grouped_ex_data GoproMDBParser.init d)
      = Ok (Some rec)
      /\ let out :=
           GoproMDBParser.grouped_ex_to_dict
             spec_float PyFloat.truediv PyFloat.round_float rec in
         GoproMDBParser.gd_blob spec_float out = Some blob
         /\ GoproMDBParser.bl_content_id_hex blob
            = "01010101010101010101010101010101"%string
         /\ String.length (GoproMDBParser.bl_content_id_hex blob) = 32%nat
         /\ GoproMDBParser.gd_gusi_blob spec_float out = Some gusi
         /\ GoproMDBParser.gu_session_id_hex gusi = Some s1
         /\ String.length s1 = 10%nat
         /\ GoproMDBParser.gu_recording_id_hex gusi = Some s2
         /\ String.length s2 = 10%nat
         /\ GoproMDBParser.gd_file_handle_hex spec_float out = Some s3
         /\ String.length s3 = 18%nat.
Proof.
  intro d.
  assert (H : 50 <= len d) by (vm_compute; discriminate).
  split; [exact H|].
  destruct (grouped_ex_hex_widths
              spec_float PyFloat.truediv PyFloat.round_float
              GoproMDBParser.init d H) as (rec & E & Hb & Hg & Hh).
  assert (Erec : rec = grouped_ex_of d).
  { rewrite (parse_grouped_ex_data_res GoproMDBParser.init d H) in E.
    congruence. }
  cbv zeta in Hb, Hg, Hh |- *.
  set (out := GoproMDBParser.grouped_ex_to_dict
                spec_float PyFloat.truediv PyFloat.round_float rec) in *.
  destruct (GoproMDBParser.gd_blob spec_float out) as [blob|] eqn:Eb;
    [|exfalso; subst out rec; vm_compute in Eb; discriminate Eb].
  destruct (GoproMDBParser.gd_gusi_blob spec_float out) as [gusi|] eqn:Eg;
    [|exfalso; subst out rec; vm_compute in Eg; discriminate Eg].
  destruct (GoproMDBParser.gu_session_id_hex gusi) as [s1|] eqn:E1;
    [|exfalso; subst out rec; vm_compute in Eg;
      apply some_inj in Eg; subst gusi; discriminate E1].
  destruct (GoproMDBParser.gu_recording_id_hex gusi) as [s2|] eqn:E2;
    [|exfalso; subst out rec; vm_compute in Eg;
      apply some_inj in Eg; subst gusi; discriminate E2].
  destruct (GoproMDBParser.gd_file_handle_hex spec_float out) as [s3|] eqn:E3;
    [|exfalso; subst out rec; vm_compute in E3; discriminate E3].
  exists rec, blob, gusi, s1, s2, s3.
  split; [exact E|].
  split; [exact Eb|].
  split; [subst out rec; vm_compute in Eb; apply some_inj in Eb;
          subst blob; reflexivity|].
  split; [exact (Hb blob eq_refl)|].
  split; [exact Eg|].
  split; [exact E1|].
  split; [exact (Hg gusi s1 eq_refl (or_introl E1))|].
  split; [exact E2|].
  split; [exact (Hg gusi s2 eq_refl (or_intror E2))|].
  split; [exact E3 | exact (Hh s3 eq_refl)].
Defined.

(** ** Model names *)

(** [32 <= ord(c) < 127] *)
Definition printable_char (c : ascii) : bool :=
  let n := Z.of_N (N_of_ascii c) in (32 <=? n) && (n <? 127).

(** A character list that is empty or starts with a character that is not
    white space. *)
Definition ns_head (l : list ascii) : Prop :=
  match l with
  | [] => True
  | c :: _ => isspace c = false
  end.

(** Printable characters only, no white space at either end. *)
Definition tidy (l : list ascii) : Prop :=
  Forall (fun c => printable_char c = true) l
  /\ ns_head l /\ ns_head (rev l).

Lemma printable_ascii_of_byte (c : byte) :
  printable_char (ascii_of_byte c)
  = (32 <=? byte_val c) && (byte_val c <? 127).
Proof. destruct c; reflexivity. Qed.

Lemma lstrip_suffix (s : list ascii) : exists p, s = p ++ lstrip s.
Proof.
  induction s as [|c r (p & E)]; [now exists []|].
  cbn [lstrip]. destruct (isspace c).
  - exists (c :: p). cbn [app]. now rewrite <- E.
  - now exists [].
Qed.

Lemma lstrip_head (s : list ascii) : ns_head (lstrip s).
Proof.
  induction s as [|c r IH]; [exact I|].
  cbn [lstrip]. destruct (isspace c) eqn:E; [exact IH | exact E].
Qed.

Lemma ns_head_rev_suffix (p t : list ascii) :
  ns_head (rev (p ++ t)) -> ns_head (rev t).
Proof.
  rewrite rev_app_distr. destruct (rev t) as [|c r]; [intros _; exact I|].
  cbn [app ns_head]. intro H. exact H.
Qed.

Lemma tidy_strip (l : list ascii) :
  Forall (fun c => printable_char c = true) l -> tidy (strip l).
Proof.
  intro Hl. unfold strip.
  destruct (lstrip_suffix l) as (p1 & E1).
  set (t := lstrip l) in *.
  destruct (lstrip_suffix (rev t)) as (p2 & E2).
  set (u := lstrip (rev t)) in *.
  assert (Ht : Forall (fun c => printable_char c = true) t).
  { rewrite E1 in Hl. now apply Forall_app in Hl. }
  assert (Hu : Forall (fun c => printable_char c = true) u).
  { apply Forall_rev in Ht. rewrite E2 in Ht. now apply Forall_app in Ht. }
  split; [now apply Forall_rev|]. split.
  - apply (ns_head_rev_suffix p2 u). rewrite <- E2, rev_involutive.
    apply lstrip_head.
  - rewrite rev_involutive. apply lstrip_head.
Qed.

Lemma list_ascii_app (s1 s2 : string) :
  list_ascii_of_string (s1 ++ s2)
  = list_ascii_of_string s1 ++ list_ascii_of_string s2.
Proof.
  induction s1 as [|c s1 IH]; cbn [String.append list_ascii_of_string app];
    [reflexivity | now rewrite IH].
Qed.

Lemma tidy_join (parts : list string) :
  Forall (fun p => tidy (list_ascii_of_string p) /\ nonempty p = true) parts ->
  tidy (list_ascii_of_string (join " " parts))
  /\ (parts <> [] -> nonempty (join " " parts) = true).
Proof.
  induction parts as [|p r IH]; intro H.
  - split; [|intro E; now contradiction E].
    cbn. split; [constructor | split; exact I].
  - inversion H as [|? ? (Hp & Hne) Hr]; subst.
    destruct r as [|q r].
    + cbn [join]. split; [exact Hp | intros _; exact Hne].
    + destruct (IH Hr) as (Hj & Hjn). specialize (Hjn ltac:(discriminate)).
      change (join " " (p :: q :: r))
        with (p ++ " " ++ join " " (q :: r))%string.
      set (j := join " " (q :: r)) in *.
      split.
      * rewrite !list_ascii_app.
        destruct Hp as (P1 & P2 & P3). destruct Hj as (J1 & J2 & J3).
        split; [|split].
        -- apply Forall_app. split; [exact P1|].
           apply Forall_app. split; [|exact J1].
           cbn. repeat constructor.
        -- destruct p as [|c p]; [discriminate Hne|]. exact P2.
        -- rewrite !rev_app_distr.
           destruct j as [|c j]; [discriminate Hjn|].
           destruct (rev (list_ascii_of_string (String c j))) as [|c' r'] eqn:E.
           ++ apply (f_equal (@List.length ascii)) in E.
              rewrite length_rev in E. cbn in E. discriminate E.
           ++ exact J3.
      * intros _. destruct p as [|c p]; [discriminate Hne | reflexivity].
Qed.

Lemma flush_segment_tidy (min_segment_len : Z) (segments : list string)
      (current : list ascii) :
  Forall (fun p => tidy (list_ascii_of_string p)) segments ->
  Forall (fun c => printable_char c = true) current ->
  Forall (fun p => tidy (list_ascii_of_string p))
         (GoproMDBParser.flush_segment min_segment_len segments current).
Proof.
  intros Hs Hc. unfold GoproMDBParser.flush_segment.
  destruct current as [|c r]; [exact Hs|].
  cbv zeta. destruct (_ >=? _); [|exact Hs].
  apply Forall_app. split; [exact Hs|].
  constructor; [|constructor].
  rewrite list_ascii_of_string_of_list_ascii. now apply tidy_strip.
Qed.

(** X23.  Whatever bytes the record holds, the string returned by
    [read_string] (the reader of [camera_model] and [sub_model]) holds
    printable ASCII characters only, and neither starts nor ends with white
    space. *)
Theorem read_string_is_tidy (data : bytes) (u_offset max_len min_segment_len : Z) :
  let s := list_ascii_of_string
             (GoproMDBParser.read_string data u_offset max_len
                                         min_segment_len) in
  Forall (fun c => printable_char c = true) s
  /\ (forall c r, s = c :: r -> isspace c = false)
  /\ (forall c r, s = r ++ [c] -> isspace c = false).
Proof.
  cbv zeta.
  assert (H : tidy (list_ascii_of_string
                      (GoproMDBParser.read_string data u_offset max_len
                                                  min_segment_len))).
  { unfold GoproMDBParser.read_string. cbv zeta.
    destruct (_ <=? 0); [cbn; split; [constructor | split; exact I]|].
    set (raw := slice data _ _).
    assert (Hinv : forall l st,
               Forall (fun p => tidy (list_ascii_of_string p)) (fst st) ->
               Forall (fun c => printable_char c = true) (snd st) ->
               let st' :=
                 fold_left
                   (fun '(segments, current) c =>
                      let v := byte_val c in
                      if (32 <=? v) && (v <? 127)
                      then (segments, current ++ [ascii_of_byte c])
                      else (GoproMDBParser.flush_segment
                              min_segment_len segments current, []))
                   l st in
               Forall (fun p => tidy (list_ascii_of_string p)) (fst st')
               /\ Forall (fun c => printable_char c = true) (snd st')).
    { induction l as [|c l IH]; intros [segments current] Hs Hc;
        cbn [fold_left fst snd] in *; [now split|].
      cbv zeta. destruct ((32 <=? byte_val c) && (byte_val c <? 127)) eqn:E.
      - apply IH; cbn [fst snd]; [exact Hs|].
        apply Forall_app. split; [exact Hc|].
        constructor; [|constructor].
        now rewrite printable_ascii_of_byte.
      - apply IH; cbn [fst snd]; [|constructor].
        now apply flush_segment_tidy. }
    specialize (Hinv raw ([], []) ltac:(constructor) ltac:(constructor)).
    cbv zeta in Hinv.
    destruct (fold_left _ raw ([], [])) as [segments current].
    cbn [fst snd] in Hinv. destruct Hinv as (Hs & Hc).
    apply tidy_join.
    pose proof (flush_segment_tidy min_segment_len segments current Hs Hc)
      as Hf.
    induction Hf as [|p l Hp Hl IHl]; cbn [filter]; [constructor|].
    destruct (nonempty p) eqn:En; [|exact IHl].
    constructor; [now split | exact IHl]. }
  destruct H as (H1 & H2 & H3).
  split; [exact H1|]. split.
  - intros c r E. rewrite E in H2. exact H2.
  - intros c r E. rewrite E, rev_unit in H3. exact H3.
Qed.

(** ** Printable strings: nothing is missed *)

Lemma run_split_unique (a1 a2 b1 b2 : bytes) :
  a1 ++ b1 = a2 ++ b2 ->
  forallb printable a1 = true -> forallb printable a2 = true ->
  np_head b1 -> np_head b2 ->
  a1 = a2 /\ b1 = b2.
Proof.
  revert a2. induction a1 as [|x a1 IH]; intros a2 E H1 H2 N1 N2.
  - destruct a2 as [|y a2]; [now split|].
    cbn [app] in E. subst b1. cbn [np_head] in N1.
    cbn [forallb] in H2. apply andb_prop in H2. destruct H2 as (H2 & _).
    congruence.
  - destruct a2 as [|y a2].
    + cbn [app] in E. subst b2. cbn [np_head] in N2.
      cbn [forallb] in H1. apply andb_prop in H1. destruct H1 as (H1 & _).
      congruence.
    + cbn [app] in E. injection E as -> E.
      cbn [forallb] in H1, H2.
      apply andb_prop in H1. apply andb_prop in H2.
      destruct (IH a2 E (proj2 H1) (proj2 H2) N1 N2) as (-> & ->).
      now split.
Qed.

(** The trailing run of a prefix is determined by the prefix. *)
Lemma trailing_run_unique (p1 p2 r1 r2 : bytes) :
  p1 ++ r1 = p2 ++ r2 ->
  forallb printable r1 = true -> forallb printable r2 = true ->
  np_head (rev p1) -> np_head (rev p2) ->
  p1 = p2 /\ r1 = r2.
Proof.
  intros E H1 H2 N1 N2.
  apply (f_equal (@rev byte)) in E. rewrite !rev_app_distr in E.
  assert (R : forall l, forallb printable l = true ->
                        forallb printable (rev l) = true).
  { intros l Hl. rewrite forallb_forall in *. intros x Hx.
    apply Hl. now apply in_rev. }
  destruct (run_split_unique _ _ _ _ E (R _ H1) (R _ H2) N1 N2) as (Ea & Eb).
  apply (f_equal (@rev byte)) in Ea, Eb.
  rewrite !rev_involutive in Ea, Eb. now split.
Qed.

(** Every run that has ended inside the prefix is in [strings]. *)
Definition strings_all (min_len : Z) (pre : bytes)
           (st : list (Z * string) * list ascii * Z) : Prop :=
  let '(strings, current, start) := st in
  forall pre0 run c post0,
    pre = pre0 ++ run ++ c :: post0 ->
    forallb printable run = true ->
    np_head (rev pre0) ->
    printable c = false ->
    min_len <= len run ->
    In (len pre0, text run) strings.

Lemma strings_step_all (min_len : Z) (pre : bytes) st (c : byte) :
  0 < min_len ->
  strings_inv min_len pre st ->
  strings_all min_len pre st ->
  strings_all min_len (pre ++ [c])
              (GoproMDBParser.strings_step min_len st (len pre) c).
Proof.
  intros Hmin. destruct st as [[strings current] start].
  intros ((pre0 & run & Epre & Ecur & Hrun & Hnp & Hstart) & _) Hall.
  unfold GoproMDBParser.strings_step.
  assert (Hsplit : forall p0 r c0 q0,
             pre ++ [c] = p0 ++ r ++ c0 :: q0 ->
             (exists q0', q0 = q0' ++ [c] /\ pre = p0 ++ r ++ c0 :: q0')
             \/ (q0 = [] /\ c0 = c /\ pre = p0 ++ r)).
  { intros p0 r c0 q0 E.
    destruct (rev q0) as [|x q'] eqn:Eq.
    - right. apply (f_equal (@rev byte)) in Eq.
      rewrite rev_involutive in Eq. cbn in Eq. subst q0.
      replace (p0 ++ r ++ [c0]) with ((p0 ++ r) ++ [c0]) in E
        by now rewrite <- app_assoc.
      apply app_inj_tail in E. destruct E as (-> & ->). auto.
    - left. apply (f_equal (@rev byte)) in Eq.
      rewrite rev_involutive in Eq. cbn [rev] in Eq. subst q0.
      exists (rev q').
      replace (p0 ++ r ++ c0 :: rev q' ++ [x])
        with ((p0 ++ r ++ c0 :: rev q') ++ [x]) in E
        by (rewrite <- !app_assoc; reflexivity).
      apply app_inj_tail in E. destruct E as (-> & ->). auto. }
  destruct (printable c) eqn:Ec.
  - intros p0 r c0 q0 E Hr Hn Hc0 Hl.
    destruct (Hsplit _ _ _ _ E) as [(q0' & -> & E') | (_ & -> & _)];
      [|congruence].
    now apply (Hall p0 r c0 q0').
  - intros p0 r c0 q0 E Hr Hn Hc0 Hl.
    destruct (Hsplit _ _ _ _ E) as [(q0' & -> & E') | (_ & _ & E')].
    + assert (In (len p0, text r) strings) by now apply (Hall p0 r c0 q0').
      destruct (len current >=? min_len); [apply in_or_app; now left | assumption].
    + rewrite Epre in E'.
      destruct (trailing_run_unique _ _ _ _ E' Hrun Hr Hnp Hn) as (-> & ->).
      assert (Hne : r <> []).
      { intros ->. unfold len in Hl. cbn in Hl. lia. }
      rewrite Ecur, len_map.
      destruct (Z.geb_spec (len r) min_len); [|lia].
      apply in_or_app. right. left.
      rewrite (Hstart Hne). reflexivity.
Qed.

Lemma strings_loop_all (min_len : Z) (rest : bytes) :
  0 < min_len ->
  forall pre st,
    strings_inv min_len pre st ->
    strings_all min_len pre st ->
    strings_all min_len (pre ++ rest)
                (GoproMDBParser.strings_loop min_len rest (len pre) st).
Proof.
  intro Hmin. induction rest as [|c rest IH]; intros pre st Hinv Hall.
  - rewrite app_nil_r. exact Hall.
  - cbn [GoproMDBParser.strings_loop].
    replace (pre ++ c :: rest) with ((pre ++ [c]) ++ rest)
      by now rewrite <- app_assoc.
    replace (len pre + 1) with (len (pre ++ [c]))
      by (rewrite len_app; reflexivity).
    apply IH; [now apply strings_step_inv | now apply strings_step_all].
Qed.

(** X24.  With a positive [min_len], [find_all_strings] misses nothing:
    every maximal run of printable bytes that has at least [min_len] bytes
    is returned, with its offset and its text. *)
Theorem find_all_strings_complete (self : GoproMDBParser.t) (min_len : Z)
        (start : Z) (run : bytes) :
  0 < min_len ->
  maximal_run (GoproMDBParser.data self) start run ->
  min_len <= len run ->
  In (start, text run) (GoproMDBParser.find_all_strings self min_len).
Proof.
  intros Hmin (pre & post & Ed & Hl & Hrun & Hnp & Hpost) Hlen.
  unfold GoproMDBParser.find_all_strings.
  assert (H0 : strings_inv min_len [] ([], [], 0)).
  { split.
    - exists [], []. repeat split.
    - intros s0 s1 []. }
  assert (A0 : strings_all min_len [] ([], [], 0)).
  { intros p0 r c q0 E. destruct p0, r; discriminate E. }
  pose proof (strings_loop_inv min_len (GoproMDBParser.data self) Hmin
                [] _ H0) as Hinv.
  pose proof (strings_loop_all min_len (GoproMDBParser.data self) Hmin
                [] _ H0 A0) as Hall.
  cbn [app] in Hinv, Hall.
  replace (len (@nil byte)) with 0 in Hinv, Hall by reflexivity.
  destruct (GoproMDBParser.strings_loop min_len (GoproMDBParser.data self) 0
                                        ([], [], 0))
    as [[strings current] start0].
  destruct Hinv as ((pre0 & run0 & Epre & Ecur & Hrun0 & Hnp0 & Hstart) & _).
  subst start.
  destruct post as [|c post].
  - rewrite app_nil_r in Ed. rewrite Ed in Epre.
    destruct (trailing_run_unique _ _ _ _ Epre Hrun Hrun0 Hnp Hnp0)
      as (-> & ->).
    assert (Hne : run0 <> []).
    { intros ->. unfold len in Hlen. cbn in Hlen. lia. }
    rewrite Ecur, len_map.
    destruct (Z.geb_spec (len run0) min_len); [|lia].
    apply in_or_app. right. left. rewrite (Hstart Hne). reflexivity.
  - assert (In (len pre, text run) strings)
      by (apply (Hall pre run c post); assumption).
    destruct (len current >=? min_len); [apply in_or_app; now left|assumption].
Qed.

Lemma find_all_strings_complete_witness :
  let self :=
    GoproMDBParser.set_data ([x00] ++ b "vtag" ++ [x00; x41])
                            GoproMDBParser.init in
  0 < 4
  /\ maximal_run (GoproMDBParser.data self) 1 (b "vtag")
  /\ 4 <= len (b "vtag")
  /\ In (1, text (b "vtag")) (GoproMDBParser.find_all_strings self 4).
Proof.
  intro self.
  assert (H1 : 0 < 4) by lia.
  assert (H2 : maximal_run (GoproMDBParser.data self) 1 (b "vtag")).
  { exists [x00], [x00; x41]. repeat split. }
  assert (H3 : 4 <= len (b "vtag")) by (vm_compute; discriminate).
  split; [exact H1|]. split; [exact H2|]. split; [exact H3|].
  exact (find_all_strings_complete self 4 1 (b "vtag") H1 H2 H3).
Defined.
